(** * Mews availability proxy: a shallow embedding and its properties

    The repository holds successive versions of one serverless function,
    [api/mews-availability.js].  Three of them are embedded here:

    - [Part004]: the version documented by the README (the [T22:00:00.000Z]
      anchor and the "missing last day" workaround), [src/unnamed/part_004];
    - [Api]: the file kept under [api/] (the [15:00:00] anchor),
      [src/api/mews-availability.js];
    - [BruteForce]: the version that probes the 24 hours of the day, second
      file of [src/unnamed/part_003].

    The earlier versions ([part_001], [part_002], and the first file of
    [part_003], which needs the luxon library) are not embedded.

    Conventions of the model:

    - a string is a sequence of code units below 256;
    - a number is an integer (status codes, availability counts, lengths);
    - the request body is a record of three optional strings, as the README
      documents it;
    - whatever ECMAScript leaves to the implementation, and [JSON.parse], is a
      field of the [Runtime] the handlers take as a parameter;
    - a handler returns its result, or the exception that escapes it,
      together with the console and [fetch] events in the order they occur.

    The definitions come first: values, the [Date] arithmetic of ECMAScript,
    insertion-ordered [Set]s, [Array.prototype.sort], the effects, the three
    handlers, and the vocabulary of the statements.  The properties follow. *)

From Stdlib Require Import ZArith List String Ascii Bool Lia.
From Stdlib Require Import Permutation Sorted Orders Mergesort.
From Stdlib Require Import DecimalString.
Import ListNotations.

Set Warnings "-register-all".

Local Open Scope string_scope.
Local Open Scope Z_scope.

(** ** Exceptions and results *)

(** Exceptions raised by the runtime itself rather than by a [throw]
    statement of the program. *)
Inductive Fault : Type :=
| TypeErrorNullish      (* property read or destructuring of undefined / null *)
| TypeErrorNotCallable  (* call of a method the receiver does not have *)
| RangeErrorInvalidTime (* toISOString on an invalid Date *)
| SyntaxErrorJSON       (* JSON.parse / Response.json on malformed text *)
| FetchFailed.          (* fetch rejected: network failure *)

Inductive Exn : Type :=
| Thrown (message : string)   (* throw new Error(message) *)
| Raised (fault : Fault).

Inductive Result (A : Type) : Type :=
| Ok (a : A)
| Throw (e : Exn).

Arguments Ok {A} a.
Arguments Throw {A} e.

Definition rbind {A B : Type} (r : Result A) (k : A -> Result B) : Result B :=
  match r with
  | Ok a => k a
  | Throw e => Throw e
  end.

Declare Scope result_scope.
Delimit Scope result_scope with result.
Notation "x <-- r ; k" := (rbind r (fun x => k))
  (at level 61, r at next level, right associativity) : result_scope.

(** ** Strings: digits, code-unit order *)

Module Str.

Definition isDigit (c : ascii) : bool :=
  ((48 <=? N_of_ascii c) && (N_of_ascii c <=? 57))%N.

Definition digitVal (c : ascii) : option Z :=
  if isDigit c then Some (Z.of_N (N_of_ascii c) - 48) else None.

Definition digit (n : Z) : ascii := ascii_of_N (Z.to_N (48 + n)).

Definition num2 (a b : ascii) : option Z :=
  match digitVal a, digitVal b with
  | Some x, Some y => Some (10 * x + y)
  | _, _ => None
  end.

Definition num3 (a b c : ascii) : option Z :=
  match digitVal a, num2 b c with
  | Some x, Some y => Some (100 * x + y)
  | _, _ => None
  end.

Definition num4 (a b c d : ascii) : option Z :=
  match num2 a b, num2 c d with
  | Some x, Some y => Some (100 * x + y)
  | _, _ => None
  end.

Definition pad2 (n : Z) : string :=
  String (digit (n / 10 mod 10)) (String (digit (n mod 10)) "").

Definition pad3 (n : Z) : string :=
  String (digit (n / 100 mod 10)) (pad2 n).

Definition pad4 (n : Z) : string :=
  String (digit (n / 1000 mod 10)) (pad3 n).

Definition pad6 (n : Z) : string :=
  String (digit (n / 100000 mod 10)) (String (digit (n / 10000 mod 10)) (pad4 n)).

(** Decimal rendering of an integer, as [Number.prototype.toString] gives
    it for integers of moderate size. *)
Definition ofZ (n : Z) : string := NilZero.string_of_int (Z.to_int n).

(** The order of [Array.prototype.sort] without comparator and of [<] on
    strings: lexicographic on code units. *)
Definition lt (s1 s2 : string) : Prop := String.compare s1 s2 = Lt.
Definition le (s1 s2 : string) : Prop := String.leb s1 s2 = true.

End Str.

(** ** ECMAScript dates

    Time values are integers (milliseconds since the epoch); a [Date] object
    is [option Z], [None] standing for the NaN time value of an invalid
    date.  The day and year arithmetic follows ECMA-262, 21.4.1. *)

Module ES.

Definition msPerDay : Z := 86400000.

Definition Day (t : Z) : Z := t / msPerDay.
Definition TimeWithinDay (t : Z) : Z := t mod msPerDay.

Definition isLeap (y : Z) : bool :=
  ((y mod 4 =? 0) && negb (y mod 100 =? 0)) || (y mod 400 =? 0).

Definition DayFromYear (y : Z) : Z :=
  365 * (y - 1970) + (y - 1969) / 4 - (y - 1901) / 100 + (y - 1601) / 400.

(** ECMA-262 defines the year of a day as the largest [y] with
    [DayFromYear y <= d]; this computes it from an estimate that is off by at
    most one (lemma [YearFromDay_spec]). *)
Definition YearFromDay (d : Z) : Z :=
  let y := 1970 + (400 * d) / 146097 in
  if d <? DayFromYear y then y - 1
  else if DayFromYear (y + 1) <=? d then y + 1
  else y.

Definition DayWithinYear (d : Z) : Z := d - DayFromYear (YearFromDay d).
Definition InLeapYear (d : Z) : Z := if isLeap (YearFromDay d) then 1 else 0.

(** Month number 0..11 of a day, by the table of ECMA-262. *)
Definition MonthFromDay (d : Z) : Z :=
  let w := DayWithinYear d in
  let l := InLeapYear d in
  if w <? 31 then 0
  else if w <? 59 + l then 1
  else if w <? 90 + l then 2
  else if w <? 120 + l then 3
  else if w <? 151 + l then 4
  else if w <? 181 + l then 5
  else if w <? 212 + l then 6
  else if w <? 243 + l then 7
  else if w <? 273 + l then 8
  else if w <? 304 + l then 9
  else if w <? 334 + l then 10
  else 11.

(** Number of days of the year before month [m] (0..11). *)
Definition monthStart (m l : Z) : Z :=
  match m with
  | 0 => 0
  | 1 => 31
  | 2 => 59 + l
  | 3 => 90 + l
  | 4 => 120 + l
  | 5 => 151 + l
  | 6 => 181 + l
  | 7 => 212 + l
  | 8 => 243 + l
  | 9 => 273 + l
  | 10 => 304 + l
  | _ => 334 + l
  end.

(** Day of the month, 1..31. *)
Definition DateFromDay (d : Z) : Z :=
  DayWithinYear d - monthStart (MonthFromDay d) (InLeapYear d) + 1.

Definition YearFromTime (t : Z) : Z := YearFromDay (Day t).
Definition MonthFromTime (t : Z) : Z := MonthFromDay (Day t).
Definition DateFromTime (t : Z) : Z := DateFromDay (Day t).
Definition HourFromTime (t : Z) : Z := (TimeWithinDay t / 3600000) mod 24.
Definition MinFromTime (t : Z) : Z := (TimeWithinDay t / 60000) mod 60.
Definition SecFromTime (t : Z) : Z := (TimeWithinDay t / 1000) mod 60.
Definition msFromTime (t : Z) : Z := TimeWithinDay t mod 1000.

Definition leapOf (y : Z) : Z := if isLeap y then 1 else 0.

(** Length of month [m] (0..11) of year [y]. *)
Definition DaysInMonth (y m : Z) : Z :=
  match m with
  | 1 => 28 + leapOf y
  | 3 | 5 | 8 | 10 => 30
  | _ => 31
  end.

Definition MakeDay (year month date : Z) : Z :=
  let ym := year + month / 12 in
  let mn := month mod 12 in
  DayFromYear ym + monthStart mn (leapOf ym) + date - 1.

Definition MakeTime (hour min sec ms : Z) : Z :=
  hour * 3600000 + min * 60000 + sec * 1000 + ms.

Definition MakeDate (day time : Z) : Z := day * msPerDay + time.

Definition TimeClip (t : Z) : option Z :=
  if Z.abs t <=? 8640000000000000 then Some t else None.


(** [Date.prototype.toISOString] on a valid time value:
    [YYYY-MM-DDTHH:mm:ss.sssZ], the year written with a sign and six digits
    outside 0..9999. *)
Definition isoYear (y : Z) : string :=
  if (0 <=? y) && (y <=? 9999) then Str.pad4 y
  else if y <? 0 then String "-" (Str.pad6 (- y))
  else String "+" (Str.pad6 y).

Definition isoString (t : Z) : string :=
  isoYear (YearFromTime t) ++ "-" ++ Str.pad2 (MonthFromTime t + 1) ++ "-"
  ++ Str.pad2 (DateFromTime t) ++ "T" ++ Str.pad2 (HourFromTime t) ++ ":"
  ++ Str.pad2 (MinFromTime t) ++ ":" ++ Str.pad2 (SecFromTime t) ++ "."
  ++ Str.pad3 (msFromTime t) ++ "Z".

Definition toISOString (date : option Z) : Result string :=
  match date with
  | Some t => Ok (isoString t)
  | None => Throw (Raised RangeErrorInvalidTime)
  end.

(** The part of [Date.parse] that ECMA-262 fixes and that the handlers use:
    [YYYY-MM-DDTHH:mm:ssZ] and [YYYY-MM-DDTHH:mm:ss.sssZ] with every field in
    range for the calendar.  [None] means the string is outside this form. *)
Definition parseFraction (s : string) : option Z :=
  match s with
  | "Z" => Some 0
  | String "." (String a (String b (String c "Z"))) => Str.num3 a b c
  | _ => None
  end.

Definition parseIsoUtc (s : string) : option Z :=
  match s with
  | String y1 (String y2 (String y3 (String y4 (String "-"
    (String m1 (String m2 (String "-" (String d1 (String d2 (String "T"
    (String h1 (String h2 (String ":" (String n1 (String n2 (String ":"
    (String s1 (String s2 rest)))))))))))))))))) =>
      match Str.num4 y1 y2 y3 y4, Str.num2 m1 m2, Str.num2 d1 d2,
            Str.num2 h1 h2, Str.num2 n1 n2, Str.num2 s1 s2,
            parseFraction rest with
      | Some y, Some m, Some d, Some h, Some n, Some sc, Some ms =>
          if (1 <=? m) && (m <=? 12) && (1 <=? d) && (d <=? DaysInMonth y (m - 1))
             && (h <=? 23) && (n <=? 59) && (sc <=? 59)
          then Some (MakeDate (MakeDay y (m - 1) d) (MakeTime h n sc ms))
          else None
      | _, _, _, _, _, _, _ => None
      end
  | _ => None
  end.

End ES.

(** ** JavaScript values

    The values [JSON.parse] can produce, and [undefined].  Numbers are the
    integers (the upstream counts are integers); an object lists its own
    properties, each key once. *)

Inductive Value : Type :=
| VUndefined
| VNull
| VBool (b : bool)
| VNum (n : Z)
| VStr (s : string)
| VArr (elements : list Value)
| VObj (fields : list (string * Value)).

(** What the language leaves to the runtime, or what is not modelled here,
    is a parameter of the handlers. *)
Record Runtime : Type := {
  (** [Date.parse] on the strings outside the form [ES.parseIsoUtc] covers;
      [None] is NaN. *)
  dateParseFallback : string -> option Z;
  (** [JSON.parse]; [None] is a [SyntaxError]. *)
  jsonParse : string -> option Value;
  (** The [message] of an exception the runtime raises. *)
  faultMessage : Fault -> string;
  (** [v <= 0] for [v] a string, an array or an object (through
      [ToPrimitive] and [StringToNumber]). *)
  looseLeZero : Value -> bool
}.

Module JS.

Definition truthy (v : Value) : bool :=
  match v with
  | VUndefined | VNull => false
  | VBool b => b
  | VNum n => negb (n =? 0)
  | VStr s => negb (s =? "")%string
  | VArr _ | VObj _ => true
  end.

Fixpoint lookup (fields : list (string * Value)) (key : string) : Value :=
  match fields with
  | [] => VUndefined
  | (k, v) :: rest => if (k =? key)%string then v else lookup rest key
  end.

Definition lengthOf {A : Type} (l : list A) : Value := VNum (Z.of_nat (List.length l)).

(** [v.key] and [v[key]] for the property names the handlers read. *)
Definition get (v : Value) (key : string) : Result Value :=
  match v with
  | VUndefined | VNull => Throw (Raised TypeErrorNullish)
  | VObj fields => Ok (lookup fields key)
  | VArr l => Ok (if (key =? "length")%string then lengthOf l else VUndefined)
  | VStr s =>
      Ok (if (key =? "length")%string then VNum (Z.of_nat (String.length s))
          else VUndefined)
  | VBool _ | VNum _ => Ok VUndefined
  end.

Definition isArray (v : Value) : bool :=
  match v with
  | VArr _ => true
  | _ => false
  end.

Definition elements (v : Value) : list Value :=
  match v with
  | VArr l => l
  | _ => []
  end.

(** [v === s] for a string [s]. *)
Definition strictEqStr (v : Value) (s : string) : bool :=
  match v with
  | VStr s' => (s' =? s)%string
  | _ => false
  end.

(** [v[index]] for a non-negative integer index. *)
Definition index (v : Value) (i : nat) : Value :=
  match v with
  | VArr l => nth i l VUndefined
  | VStr s =>
      match String.get i s with
      | Some c => VStr (String c "")
      | None => VUndefined
      end
  | VObj fields => lookup fields (Str.ofZ (Z.of_nat i))
  | _ => VUndefined
  end.

(** [v.substring(0, 10)] *)
Definition substring10 (v : Value) : Result string :=
  match v with
  | VStr s => Ok (String.substring 0 10 s)
  | VUndefined | VNull => Throw (Raised TypeErrorNullish)
  | _ => Throw (Raised TypeErrorNotCallable)
  end.

(** [arr.find(pred)] with a predicate that may throw. *)
Fixpoint find (pred : Value -> Result bool) (l : list Value) : Result Value :=
  match l with
  | [] => Ok VUndefined
  | x :: rest =>
      match pred x with
      | Throw e => Throw e
      | Ok true => Ok x
      | Ok false => find pred rest
      end
  end.

(** [ToString], as a template literal applies it. *)
Fixpoint toString (v : Value) : string :=
  match v with
  | VUndefined => "undefined"
  | VNull => "null"
  | VBool true => "true"
  | VBool false => "false"
  | VNum n => Str.ofZ n
  | VStr s => s
  | VArr l =>
      String.concat ","
        (List.map (fun x => match x with
                            | VUndefined | VNull => ""
                            | _ => toString x
                            end) l)
  | VObj _ => "[object Object]"
  end.

(** [v <= 0] *)
Definition leZero (R : Runtime) (v : Value) : bool :=
  match v with
  | VUndefined => false
  | VNull => true
  | VBool b => negb b
  | VNum n => n <=? 0
  | _ => looseLeZero R v
  end.

Definition message (R : Runtime) (e : Exn) : string :=
  match e with
  | Thrown m => m
  | Raised f => faultMessage R f
  end.

(** [new Date(s)] *)
Definition newDate (R : Runtime) (s : string) : option Z :=
  match ES.parseIsoUtc s with
  | Some t => ES.TimeClip t
  | None =>
      match dateParseFallback R s with
      | Some t => ES.TimeClip t
      | None => None
      end
  end.

Definition getUTCDate (date : option Z) : option Z :=
  option_map ES.DateFromTime date.

Definition setUTCDate (date dt : option Z) : option Z :=
  match date, dt with
  | Some t, Some d =>
      ES.TimeClip
        (ES.MakeDate (ES.MakeDay (ES.YearFromTime t) (ES.MonthFromTime t) d)
                     (ES.TimeWithinDay t))
  | _, _ => None
  end.

(** [/^\d{4}-\d{2}-\d{2}$/.test(s)] *)
Definition dateRegex (s : string) : bool :=
  match list_ascii_of_string s with
  | [y1; y2; y3; y4; h1; m1; m2; h2; d1; d2] =>
      Str.isDigit y1 && Str.isDigit y2 && Str.isDigit y3 && Str.isDigit y4
      && (h1 =? "-")%char && Str.isDigit m1 && Str.isDigit m2
      && (h2 =? "-")%char && Str.isDigit d1 && Str.isDigit d2
  | _ => false
  end.

End JS.

(** ** Insertion-ordered sets of strings ([Set]) *)

Module JSSet.

Definition t : Type := list string.

Definition empty : t := [].

Definition has (s : t) (x : string) : bool := existsb (String.eqb x) s.

Definition add (x : string) (s : t) : t := if has s x then s else (s ++ [x])%list.

(** [new Set(iterable)] *)
Definition ofList (l : list string) : t := fold_left (fun s x => add x s) l empty.

(** [Array.from(set)]: the elements in insertion order. *)
Definition toArray (s : t) : list string := s.

End JSSet.

(** ** [Array.prototype.sort] without comparator, on strings *)

Module StringOrder <: TotalLeBool.
Definition t : Type := string.
Definition leb : t -> t -> bool := String.leb.
Lemma leb_total : forall a1 a2, leb a1 a2 = true \/ leb a2 a1 = true.
Proof. exact String.leb_total. Qed.
End StringOrder.

Module StringSort := Sort StringOrder.

Definition arraySort (l : list string) : list string := StringSort.sort l.

(** ** Effects: console, fetch, responses *)

Inductive Level : Type := LLog | LWarn | LError.

Record Payload : Type := {
  ClientToken : string;
  AccessToken : string;
  Client : string;
  ServiceId : string;
  FirstTimeUnitStartUtc : string;
  LastTimeUnitStartUtc : string
}.

(** A console event carries the text of its message, without the values
    the source interpolates through [JSON.stringify] or as array lengths. *)
Inductive Event : Type :=
| Console (level : Level) (text : string)
| Fetch (endpoint : string) (payload : Payload).

Inductive FetchOutcome : Type :=
| Rejected
| Responded (status : Z) (text : string).

Definition responseOk (status : Z) : bool := (200 <=? status) && (status <=? 299).

Inductive Body : Type :=
| End_ (text : option string)
| Json (v : Value).

Record Response : Type := {
  status : Z;
  headers : list (string * string);
  body : Body
}.

Record Env : Type := {
  MEWS_CLIENT_TOKEN : option string;
  MEWS_ACCESS_TOKEN : option string;
  MEWS_CONNECTOR_API_URL : option string;
  MEWS_SERVICE_ID : option string
}.

(** The request body as the README documents it: three optional string
    fields. *)
Record RequestBody : Type := {
  villaId : option string;
  startDate : option string;
  endDate : option string
}.

Record Request : Type := {
  method : string;
  requestBody : option RequestBody
}.

(** [!x] for an optional string: absent or empty. *)
Definition missing (x : option string) : bool :=
  match x with
  | None => true
  | Some s => (s =? "")%string
  end.

Definition orEmpty (x : option string) : string :=
  match x with
  | Some s => s
  | None => ""
  end.

(** Computations that log and call out, and may throw: the result and the
    events emitted, in order. *)
Definition M (A : Type) : Type := (Result A * list Event)%type.

Definition ret {A : Type} (a : A) : M A := (Ok a, []).

Definition bind {A B : Type} (m : M A) (k : A -> M B) : M B :=
  match m with
  | (Ok a, l) => let (r, l') := k a in (r, (l ++ l')%list)
  | (Throw e, l) => (Throw e, l)
  end.

Definition throw {A : Type} (e : Exn) : M A := (Throw e, []).

Definition lift {A : Type} (r : Result A) : M A := (r, []).

Definition emit (e : Event) : M unit := (Ok tt, [e]).

Definition tryCatch {A : Type} (m : M A) (handler : Exn -> M A) : M A :=
  match m with
  | (Ok a, l) => (Ok a, l)
  | (Throw e, l) => let (r, l') := handler e in (r, (l ++ l')%list)
  end.

Declare Scope m_scope.
Delimit Scope m_scope with M.
Notation "x <- m ;; k" := (bind m (fun x => k))
  (at level 61, m at next level, right associativity) : m_scope.
Notation "m ;; k" := (bind m (fun _ => k))
  (at level 61, right associativity) : m_scope.

Definition jsonError (message : string) : Body :=
  Json (VObj [("error", VStr message)]).

Definition unavailableBody (dates : list string) : Body :=
  Json (VObj [("unavailable", VArr (List.map VStr dates))]).

Definition fetchCalls (log : list Event) : list Payload :=
  flat_map (fun e => match e with
                     | Fetch _ p => [p]
                     | Console _ _ => []
                     end) log.

Local Open Scope m_scope.

(** ** Statements shared by the versions *)

Definition corsPreflight : Response :=
  {| status := 204;
     headers := [("Access-Control-Allow-Origin", "*");
                 ("Access-Control-Allow-Methods", "POST, OPTIONS");
                 ("Access-Control-Allow-Headers", "Content-Type")];
     body := End_ None |}.

Definition methodNotAllowed (m : string) : Response :=
  {| status := 405;
     headers := [("Allow", "POST")];
     body := End_ (Some ("Method " ++ m ++ " Not Allowed")) |}.

Definition envIncomplete (env : Env) : bool :=
  missing (MEWS_CLIENT_TOKEN env) || missing (MEWS_ACCESS_TOKEN env)
  || missing (MEWS_SERVICE_ID env) || missing (MEWS_CONNECTOR_API_URL env).

Definition configurationError : Response :=
  {| status := 500; headers := []; body := jsonError "Server configuration error." |}.

(** Step 3 of every version: destructure the body and validate it; the
    [catch] answers 400 with the message of the error. *)
Definition validateBody (R : Runtime) (request : Request)
  : M (Response + (string * string * string)) :=
  tryCatch
    (match requestBody request with
     | None => throw (Raised TypeErrorNullish)
     | Some b =>
         emit (Console LLog "Received Request Body:") ;;
         if missing (villaId b) || missing (startDate b) || missing (endDate b)
            || negb (JS.dateRegex (orEmpty (startDate b)))
            || negb (JS.dateRegex (orEmpty (endDate b)))
         then throw (Thrown "Missing or invalid parameters: villaId, startDate, endDate required (YYYY-MM-DD).")
         else ret (inr (orEmpty (villaId b), orEmpty (startDate b), orEmpty (endDate b)))
     end)
    (fun error =>
       emit (Console LError ("Error parsing request body: " ++ JS.message R error)) ;;
       ret (inl {| status := 400;
                   headers := [];
                   body := jsonError (if (JS.message R error =? "")%string
                                      then "Invalid request body."
                                      else JS.message R error) |})).

(** [await fetch(endpoint, ...)]: one call to the upstream service. *)
Definition fetch (upstream : string -> Payload -> FetchOutcome)
  (endpoint : string) (payload : Payload) : M (Z * string) :=
  emit (Fetch endpoint payload) ;;
  match upstream endpoint payload with
  | Rejected => throw (Raised FetchFailed)
  | Responded st text => ret (st, text)
  end.

Definition successHeaders : list (string * string) :=
  [("Access-Control-Allow-Origin", "*"); ("Content-Type", "application/json")].

(** ** The version with the workaround ([src/unnamed/part_004]) *)

Module Part004.

Section WithRuntime.

Variable R : Runtime.

Definition formatToMewsRequiredTime (dateString : string) : M string :=
  tryCatch
    (if negb (JS.dateRegex dateString)
     then throw (Thrown ("Invalid date format: " ++ dateString ++ ". Expected YYYY-MM-DD."))
     else ret (dateString ++ "T22:00:00.000Z"))
    (fun error =>
       emit (Console LError ("Error formatting date " ++ dateString ++ ": "
                             ++ JS.message R error)) ;;
       throw error).

(** The body of [datesArray.forEach((dateUtc, index) => ...)]. *)
Fixpoint forEachDate (availabilities : list Value) (datesArray : list Value)
  (index : nat) (initialUnavailableDates : JSSet.t) : Result JSSet.t :=
  match datesArray with
  | [] => Ok initialUnavailableDates
  | dateUtc :: rest =>
      let availableCount := nth index availabilities VUndefined in
      (dateString <-- JS.substring10 dateUtc ;
       forEachDate availabilities rest (S index)
         (match availableCount with
          | VNum n =>
              if n <=? 0 then JSSet.add dateString initialUnavailableDates
              else initialUnavailableDates
          | _ => initialUnavailableDates
          end))%result
  end.

(** Lines 100 and 102: the name of the boundary field, and the test on the
    shape of the report; [Some] of the two arrays when the test passes. *)
Definition reportArrays (mewsData : Value) : Result (option (Value * Value)) :=
  (tus <-- JS.get mewsData "TimeUnitStartsUtc" ;
   timeUnitField <--
     (if JS.truthy tus then Ok (Some "TimeUnitStartsUtc")
      else dus <-- JS.get mewsData "DatesUtc" ;
           Ok (if JS.truthy dus then Some "DatesUtc" else None)) ;
   cas <-- JS.get mewsData "CategoryAvailabilities" ;
   if JS.truthy cas && JS.isArray cas then
     match timeUnitField with
     | Some field =>
         v <-- JS.get mewsData field ;
         Ok (if JS.truthy v && JS.isArray v then Some (cas, v) else None)
     | None => Ok None
     end
   else Ok None)%result.

(** Lines 103 to 119: find the category and scan its series. *)
Definition scanCategory (cas timeUnits : Value) (targetCategoryId : string)
  : M JSSet.t :=
  targetCategoryData <-
    lift (JS.find
            (fun catAvail =>
               (cid <-- JS.get catAvail "CategoryId" ;
                Ok (JS.strictEqStr cid targetCategoryId))%result)
            (JS.elements cas)) ;;
  let datesArray := JS.elements timeUnits in
  availabilities <-
    (if JS.truthy targetCategoryData
     then lift (JS.get targetCategoryData "Availabilities")
     else ret VUndefined) ;;
  if JS.truthy targetCategoryData && JS.truthy availabilities
     && JS.isArray availabilities
     && (List.length (JS.elements availabilities) =? List.length datesArray)%nat
  then lift (forEachDate (JS.elements availabilities) datesArray 0 JSSet.empty)
  else if JS.truthy targetCategoryData then
    emit (Console LWarn ("Data mismatch for category " ++ targetCategoryId)) ;;
    ret JSSet.empty
  else
    emit (Console LWarn ("Availability data for target CategoryId "
                         ++ targetCategoryId ++ " not found.")) ;;
    ret JSSet.empty.

(** Step 6: the raw set of unavailable days. *)
Definition processReport (mewsData : Value) (targetCategoryId : string) : M JSSet.t :=
  arrays <- lift (reportArrays mewsData) ;;
  match arrays with
  | Some (cas, timeUnits) => scanCategory cas timeUnits targetCategoryId
  | None =>
      emit (Console LWarn "Mews response structure unexpected.") ;;
      ret JSSet.empty
  end.

Definition addOneDay (dateString : string) : Result string :=
  let date := JS.newDate R (dateString ++ "T00:00:00Z") in
  let date := JS.setUTCDate date (option_map (fun d => d + 1) (JS.getUTCDate date)) in
  (iso <-- ES.toISOString date ; Ok (String.substring 0 10 iso))%result.

(** The [for] loop of the workaround over [sortedDates], from index [i] on:
    [currentDate] is [sortedDates[i]], the head of [rest] is
    [sortedDates[i+1]], and [rest] is empty when [i] is the last index. *)
Fixpoint workaroundLoop (initialUnavailableDates : JSSet.t)
  (sortedDates : list string) (finalUnavailableDates : JSSet.t) : M JSSet.t :=
  match sortedDates with
  | [] => ret finalUnavailableDates
  | currentDate :: rest =>
      nextDay <- lift (addOneDay currentDate) ;;
      isLastOfBlock <-
        match rest with
        | [] => ret true
        | following :: _ =>
            d <- lift (addOneDay currentDate) ;;
            ret (negb (d =? following)%string)
        end ;;
      if isLastOfBlock && negb (JSSet.has initialUnavailableDates nextDay)
      then
        emit (Console LLog ("WORKAROUND: Adding potentially missing last day: "
                            ++ nextDay ++ " (following " ++ currentDate ++ ")")) ;;
        workaroundLoop initialUnavailableDates rest
          (JSSet.add nextDay finalUnavailableDates)
      else workaroundLoop initialUnavailableDates rest finalUnavailableDates
  end.

(** The boundary-correction transform: from the raw set to the array sent
    back. *)
Definition workaround (initialUnavailableDates : JSSet.t) : M (list string) :=
  let finalUnavailableDates := JSSet.ofList (JSSet.toArray initialUnavailableDates) in
  let sortedDates := arraySort (JSSet.toArray initialUnavailableDates) in
  final <- workaroundLoop initialUnavailableDates sortedDates finalUnavailableDates ;;
  ret (arraySort (JSSet.toArray final)).

(** Steps 5 to 7, the body of the [try]. *)
Definition resolve (upstream : string -> Payload -> FetchOutcome)
  (mewsEndpoint : string) (mewsPayload : Payload) (villaId : string) : M Response :=
  r <- fetch upstream mewsEndpoint mewsPayload ;;
  let '(st, text) := r in
  emit (Console LLog ("Mews Response Status: " ++ Str.ofZ st)) ;;
  if negb (responseOk st) then
    let errorBodyText := text in
    emit (Console LError ("Mews API Error Response Body: " ++ errorBodyText)) ;;
    let errorJson := match jsonParse R errorBodyText with
                     | Some v => v
                     | None => VObj []
                     end in
    m <- lift (JS.get errorJson "Message") ;;
    throw (Thrown ("Mews API request failed with status " ++ Str.ofZ st
                   ++ ". Message: "
                   ++ (if JS.truthy m then JS.toString m else errorBodyText)))
  else
    mewsData <- match jsonParse R text with
                | Some v => ret v
                | None => throw (Raised SyntaxErrorJSON)
                end ;;
    emit (Console LLog "Received Mews API OK Response (Snippet):") ;;
    initialUnavailableDates <- processReport mewsData villaId ;;
    emit (Console LLog "Initial processed unavailable dates:") ;;
    finalUnavailableArray <- workaround initialUnavailableDates ;;
    emit (Console LLog "Final unavailable dates (with workaround):") ;;
    emit (Console LLog "--- Request Success (with workaround) ---") ;;
    ret {| status := 200;
           headers := successHeaders;
           body := unavailableBody finalUnavailableArray |}.

Definition internalError (error : Exn) : Response :=
  {| status := 500;
     headers := [];
     body := Json (VObj [("error", VStr "An internal server error occurred.");
                         ("details", VStr (JS.message R error))]) |}.

Definition handler (env : Env) (upstream : string -> Payload -> FetchOutcome)
  (request : Request) : M Response :=
  if (method request =? "OPTIONS")%string then ret corsPreflight
  else if negb (method request =? "POST")%string
  then ret (methodNotAllowed (method request))
  else
    emit (Console LLog "--- Function Invoked ---") ;;
    if envIncomplete env then
      emit (Console LError "FATAL: One or more required Mews environment variables are missing.") ;;
      ret configurationError
    else
      v <- validateBody R request ;;
      match v with
      | inl response => ret response
      | inr (villaId, startDate, endDate) =>
          let mewsEndpoint :=
            orEmpty (MEWS_CONNECTOR_API_URL env)
            ++ "/api/connector/v1/services/getAvailability" in
          first <- formatToMewsRequiredTime startDate ;;
          last <- formatToMewsRequiredTime endDate ;;
          let mewsPayload :=
            {| ClientToken := orEmpty (MEWS_CLIENT_TOKEN env);
               AccessToken := orEmpty (MEWS_ACCESS_TOKEN env);
               Client := "Kosmos_Availability_Check_1.0";
               ServiceId := orEmpty (MEWS_SERVICE_ID env);
               FirstTimeUnitStartUtc := first;
               LastTimeUnitStartUtc := last |} in
          emit (Console LLog ("Calling Mews API Endpoint: " ++ mewsEndpoint)) ;;
          emit (Console LLog "Sending Mews Payload:") ;;
          tryCatch (resolve upstream mewsEndpoint mewsPayload villaId)
            (fun error =>
               emit (Console LError ("Error within backend function execution: "
                                     ++ JS.message R error)) ;;
               ret (internalError error))
      end.

End WithRuntime.

End Part004.

(** ** Statements shared by [Api] and [BruteForce]

    The body of [TimeUnitStartsUtc.forEach((dateUtc, index) => ...)] of the
    versions without the workaround: the count is compared with [<= 0]
    whatever its type. *)
Fixpoint forEachLoose (R : Runtime) (availabilities : Value) (dates : list Value)
  (index : nat) (unavailableDates : JSSet.t) : Result JSSet.t :=
  match dates with
  | [] => Ok unavailableDates
  | dateUtc :: rest =>
      let availableCount := JS.index availabilities index in
      (dateString <-- JS.substring10 dateUtc ;
       forEachLoose R availabilities rest (S index)
         (if JS.leZero R availableCount
          then JSSet.add dateString unavailableDates
          else unavailableDates))%result
  end.

(** [a.length === n] for the length [n] of an array. *)
Definition lengthIs (a : Value) (n : nat) : Result bool :=
  (len <-- JS.get a "length" ;
   Ok (match len with
       | VNum x => x =? Z.of_nat n
       | _ => false
       end))%result.

(** The [if] / [else if] / [else] on the upstream report, with the warnings
    of the version given as arguments. *)
Definition processLoose (R : Runtime) (mismatch notFound : string)
  (unexpected : list string) (mewsData : Value) (targetCategoryId : string)
  : M JSSet.t :=
  cas <- lift (JS.get mewsData "CategoryAvailabilities") ;;
  tus <- (if JS.truthy cas && JS.isArray cas
          then lift (JS.get mewsData "TimeUnitStartsUtc")
          else ret VUndefined) ;;
  if JS.truthy cas && JS.isArray cas && JS.truthy tus && JS.isArray tus then
    targetCategoryData <-
      lift (JS.find
              (fun catAvail =>
                 (cid <-- JS.get catAvail "CategoryId" ;
                  Ok (JS.strictEqStr cid targetCategoryId))%result)
              (JS.elements cas)) ;;
    availabilities <-
      (if JS.truthy targetCategoryData
       then lift (JS.get targetCategoryData "Availabilities")
       else ret VUndefined) ;;
    sameLength <-
      (if JS.truthy targetCategoryData && JS.truthy availabilities
       then lift (lengthIs availabilities (List.length (JS.elements tus)))
       else ret false) ;;
    if sameLength
    then lift (forEachLoose R availabilities (JS.elements tus) 0 JSSet.empty)
    else if JS.truthy targetCategoryData then
      emit (Console LWarn mismatch) ;;
      ret JSSet.empty
    else
      emit (Console LWarn notFound) ;;
      ret JSSet.empty
  else
    fold_right (fun w k => emit (Console LWarn w) ;; k) (ret JSSet.empty) unexpected.

(** ** The version kept under [api/] ([src/api/mews-availability.js]) *)

Module Api.

Section WithRuntime.

Variable R : Runtime.

Definition formatToMewsUtc (dateString : string) : M string :=
  let startTime := "15:00:00" in
  tryCatch
    (let dateTimeString := dateString ++ "T" ++ startTime ++ ".000Z" in
     let dt := JS.newDate R dateTimeString in
     match dt with
     | None => throw (Thrown ("Invalid combined date-time: " ++ dateTimeString))
     | Some _ => lift (ES.toISOString dt)
     end)
    (fun error =>
       emit (Console LError ("Error formatting date " ++ dateString ++ ": "
                             ++ JS.message R error)) ;;
       ret (dateString ++ "T00:00:00.000Z")).

Definition resolve (upstream : string -> Payload -> FetchOutcome)
  (mewsEndpoint : string) (mewsPayload : Payload) (villaId : string) : M Response :=
  r <- fetch upstream mewsEndpoint mewsPayload ;;
  let '(st, text) := r in
  emit (Console LLog ("Mews Response Status: " ++ Str.ofZ st)) ;;
  if negb (responseOk st) then
    emit (Console LError ("Mews API Error Response Body: " ++ text)) ;;
    throw (Thrown ("Mews API request failed with status " ++ Str.ofZ st))
  else
    mewsData <- match jsonParse R text with
                | Some v => ret v
                | None => throw (Raised SyntaxErrorJSON)
                end ;;
    emit (Console LLog "Received Mews API OK Response (Snippet):") ;;
    unavailableDates <-
      processLoose R
        ("Mismatch between TimeUnit count and Availability count for category "
         ++ villaId)
        ("Availability data for target CategoryId " ++ villaId
         ++ " not found in Mews response.")
        ["Mews response structure might be different than expected. Could not process CategoryAvailabilities or TimeUnitStartsUtc.";
         "Mews Response Keys:"]
        mewsData villaId ;;
    emit (Console LLog "Processed unavailable dates:") ;;
    emit (Console LLog "--- Request Success ---") ;;
    ret {| status := 200;
           headers := successHeaders;
           body := unavailableBody (JSSet.toArray unavailableDates) |}.

Definition internalError : Response :=
  {| status := 500;
     headers := [];
     body := jsonError "An internal server error occurred." |}.

Definition handler (env : Env) (upstream : string -> Payload -> FetchOutcome)
  (request : Request) : M Response :=
  if (method request =? "OPTIONS")%string then ret corsPreflight
  else if negb (method request =? "POST")%string
  then ret (methodNotAllowed (method request))
  else
    emit (Console LLog "--- Function Invoked ---") ;;
    if envIncomplete env then
      emit (Console LError "FATAL: One or more required Mews environment variables are missing.") ;;
      ret configurationError
    else
      v <- validateBody R request ;;
      match v with
      | inl response => ret response
      | inr (villaId, startDate, endDate) =>
          let mewsEndpoint :=
            orEmpty (MEWS_CONNECTOR_API_URL env)
            ++ "/api/connector/v1/services/getAvailability" in
          first <- formatToMewsUtc startDate ;;
          last <- formatToMewsUtc endDate ;;
          let mewsPayload :=
            {| ClientToken := orEmpty (MEWS_CLIENT_TOKEN env);
               AccessToken := orEmpty (MEWS_ACCESS_TOKEN env);
               Client := "Kosmos_Availability_Check_1.0";
               ServiceId := orEmpty (MEWS_SERVICE_ID env);
               FirstTimeUnitStartUtc := first;
               LastTimeUnitStartUtc := last |} in
          emit (Console LLog ("Calling Mews API Endpoint: " ++ mewsEndpoint)) ;;
          emit (Console LLog "Sending Mews Payload:") ;;
          tryCatch (resolve upstream mewsEndpoint mewsPayload villaId)
            (fun error =>
               emit (Console LError ("Error within backend function execution: "
                                     ++ JS.message R error)) ;;
               ret internalError)
      end.

End WithRuntime.

End Api.

(** ** The version that probes the hours (second file of [src/unnamed/part_003]) *)

Module BruteForce.

Section WithRuntime.

Variable R : Runtime.

(** [s.padStart(2, '0')] *)
Definition padStart2 (s : string) : string :=
  match String.length s with
  | O => "00"
  | S O => "0" ++ s
  | _ => s
  end.

Definition formatTimeWithHour (dateString : string) (hour : Z) : string :=
  let formattedHour := padStart2 (Str.ofZ hour) in
  dateString ++ "T" ++ formattedHour ++ ":00:00.000Z".

Definition processAvailabilityData (mewsData : Value) (targetCategoryId : string)
  : M JSSet.t :=
  unavailableDates <-
    processLoose R
      "Mismatch between TimeUnit count and Availability count"
      ("Availability data for target CategoryId " ++ targetCategoryId
       ++ " not found in Mews response.")
      ["Mews response structure might be different than expected.";
       "Mews Response Keys:"]
      mewsData targetCategoryId ;;
  emit (Console LLog "Processed unavailable dates:") ;;
  ret unavailableDates.

Definition possibleHours : list Z := List.map Z.of_nat (seq 0 24).

Definition success (hour : Z) (unavailableDates : JSSet.t) : Response :=
  {| status := 200;
     headers := successHeaders;
     body := Json (VObj [("unavailable",
                          VArr (List.map VStr (JSSet.toArray unavailableDates)));
                         ("_debug",
                          VObj [("workingHour", VNum hour);
                                ("workingTimeFormat",
                                 VStr (Str.ofZ hour ++ ":00:00 UTC"))])]) |}.

Definition noHourWorked : Response :=
  {| status := 500;
     headers := [];
     body := Json (VObj [("error", VStr "Could not find a valid time format for Mews API.");
                         ("_debug", VStr "Tried all 24 hours (0-23) and none were accepted as valid 'start of TimeUnit'")]) |}.

(** One turn of [for (const hour of possibleHours)]: [Some response] when
    the turn returns from the handler, [None] when the loop goes on. *)
Definition attempt (env : Env) (upstream : string -> Payload -> FetchOutcome)
  (mewsEndpoint villaId startDate endDate : string) (hour : Z)
  : M (option Response) :=
  let formattedStartDate := formatTimeWithHour startDate hour in
  let formattedEndDate := formatTimeWithHour endDate hour in
  let mewsPayload :=
    {| ClientToken := orEmpty (MEWS_CLIENT_TOKEN env);
       AccessToken := orEmpty (MEWS_ACCESS_TOKEN env);
       Client := "Kosmos_Availability_Check_1.0";
       ServiceId := orEmpty (MEWS_SERVICE_ID env);
       FirstTimeUnitStartUtc := formattedStartDate;
       LastTimeUnitStartUtc := formattedEndDate |} in
  emit (Console LLog ("[ATTEMPT " ++ Str.ofZ hour ++ "] Trying with time "
                      ++ Str.ofZ hour ++ ":00:00 UTC")) ;;
  emit (Console LLog ("[ATTEMPT " ++ Str.ofZ hour ++ "] Payload:")) ;;
  tryCatch
    (r <- fetch upstream mewsEndpoint mewsPayload ;;
     let '(st, text) := r in
     emit (Console LLog ("[ATTEMPT " ++ Str.ofZ hour ++ "] Response Status: "
                         ++ Str.ofZ st)) ;;
     if responseOk st then
       emit (Console LLog ("[SUCCESS] Found working time format: "
                           ++ Str.ofZ hour ++ ":00:00 UTC")) ;;
       mewsData <- match jsonParse R text with
                   | Some v => ret v
                   | None => throw (Raised SyntaxErrorJSON)
                   end ;;
       emit (Console LLog "Received Mews API OK Response (Snippet):") ;;
       unavailableDates <- processAvailabilityData mewsData villaId ;;
       emit (Console LLog ("--- Request Success with time " ++ Str.ofZ hour
                           ++ ":00:00 UTC ---")) ;;
       ret (Some (success hour unavailableDates))
     else
       emit (Console LLog ("[ATTEMPT " ++ Str.ofZ hour ++ "] Error: " ++ text)) ;;
       ret None)
    (fun error =>
       emit (Console LError ("[ATTEMPT " ++ Str.ofZ hour ++ "] Exception: "
                             ++ JS.message R error)) ;;
       ret None).

Fixpoint tryHours (env : Env) (upstream : string -> Payload -> FetchOutcome)
  (mewsEndpoint villaId startDate endDate : string) (hours : list Z)
  : M Response :=
  match hours with
  | [] =>
      emit (Console LError "FAILED: Tried all 24 possible hour formats and none worked.") ;;
      ret noHourWorked
  | hour :: rest =>
      r <- attempt env upstream mewsEndpoint villaId startDate endDate hour ;;
      match r with
      | Some response => ret response
      | None => tryHours env upstream mewsEndpoint villaId startDate endDate rest
      end
  end.

Definition handler (env : Env) (upstream : string -> Payload -> FetchOutcome)
  (request : Request) : M Response :=
  if (method request =? "OPTIONS")%string then ret corsPreflight
  else if negb (method request =? "POST")%string
  then ret (methodNotAllowed (method request))
  else
    emit (Console LLog "--- Function Invoked ---") ;;
    if envIncomplete env then
      emit (Console LError "FATAL: One or more required Mews environment variables are missing.") ;;
      ret configurationError
    else
      v <- validateBody R request ;;
      match v with
      | inl response => ret response
      | inr (villaId, startDate, endDate) =>
          let mewsEndpoint :=
            orEmpty (MEWS_CONNECTOR_API_URL env)
            ++ "/api/connector/v1/services/getAvailability" in
          tryHours env upstream mewsEndpoint villaId startDate endDate possibleHours
      end.

End WithRuntime.

End BruteForce.

(** ** Calendar days, for the statements

    Day [n] counts from 1970-01-01; [isoDate n] is its [YYYY-MM-DD] string as
    [toISOString] writes it.  [minDay] is 0000-01-01 and [maxDay] is
    9999-12-31. *)

Definition isoDate (n : Z) : string :=
  String.substring 0 10 (ES.isoString (n * ES.msPerDay)).

Definition minDay : Z := ES.DayFromYear 0.
Definition maxDay : Z := ES.DayFromYear 10000 - 1.

(** The [k] consecutive days from [d] on. *)
Fixpoint daysFrom (d : Z) (k : nat) : list Z :=
  match k with
  | O => []
  | S k' => d :: daysFrom (d + 1) k'
  end.

(** Two runs of the loop that agree up to the order inside the set. *)
Definition sameUpToOrder (m1 m2 : M JSSet.t) : Prop :=
  snd m1 = snd m2
  /\ match fst m1, fst m2 with
     | Ok a, Ok b => Permutation a b
     | Throw e1, Throw e2 => e1 = e2
     | _, _ => False
     end.

(** Days whose successor still has a four-digit year. *)
Definition inYears (n : Z) : Prop := minDay <= n < maxDay.

(** A computation that calls nothing out: its log holds no [Fetch]. *)
Definition quiet {A : Type} (m : M A) : Prop := fetchCalls (snd m) = [].

(** ** The transform in the words of the specification

    Section 4.2, step 4, on day numbers: [days] is the raw set sorted
    ascending; it is cut into maximal runs of consecutive days, and the day
    after the last day of each run is added. *)

Module Spec.

Fixpoint correction (days : list Z) : list Z :=
  match days with
  | [] => []
  | d :: rest =>
      match rest with
      | [] => [d; d + 1]
      | next :: _ =>
          if d + 1 =? next then d :: correction rest
          else d :: (d + 1) :: correction rest
      end
  end.

End Spec.

(** ** Requests and reports, for the statements *)

(** The three fields of a body the validator lets through. *)
Definition validQuery (request : Request) : option (string * string * string) :=
  match requestBody request with
  | Some b =>
      match villaId b, startDate b, endDate b with
      | Some v, Some s, Some e =>
          if negb (v =? "")%string && JS.dateRegex s && JS.dateRegex e
          then Some (v, s, e)
          else None
      | _, _, _ => None
      end
  | None => None
  end.

Definition endpointOf (env : Env) : string :=
  orEmpty (MEWS_CONNECTOR_API_URL env) ++ "/api/connector/v1/services/getAvailability".

(** The payload built from two boundary timestamps. *)
Definition payloadOf (env : Env) (first last : string) : Payload :=
  {| ClientToken := orEmpty (MEWS_CLIENT_TOKEN env);
     AccessToken := orEmpty (MEWS_ACCESS_TOKEN env);
     Client := "Kosmos_Availability_Check_1.0";
     ServiceId := orEmpty (MEWS_SERVICE_ID env);
     FirstTimeUnitStartUtc := first;
     LastTimeUnitStartUtc := last |}.

Module Report.

(** The boundary sequence of a report: [TimeUnitStartsUtc], or [DatesUtc]
    when the former is missing. *)
Definition timeUnits (mewsData : Value) : option (list Value) :=
  match mewsData with
  | VObj fields =>
      let t := JS.lookup fields "TimeUnitStartsUtc" in
      match (if JS.truthy t then t else JS.lookup fields "DatesUtc") with
      | VArr l => Some l
      | _ => None
      end
  | _ => None
  end.

Definition categories (mewsData : Value) : option (list Value) :=
  match mewsData with
  | VObj fields =>
      match JS.lookup fields "CategoryAvailabilities" with
      | VArr l => Some l
      | _ => None
      end
  | _ => None
  end.

Definition isObject (v : Value) : bool :=
  match v with
  | VObj _ => true
  | _ => false
  end.

Definition isCategory (id : string) (c : Value) : bool :=
  match c with
  | VObj fields => JS.strictEqStr (JS.lookup fields "CategoryId") id
  | _ => false
  end.

(** The availability series of category [id]: the [Availabilities] of the
    first entry with that identifier. *)
Definition series (mewsData : Value) (id : string) : option Value :=
  match categories mewsData with
  | Some l =>
      match List.find (isCategory id) l with
      | Some (VObj fields) => Some (JS.lookup fields "Availabilities")
      | _ => None
      end
  | None => None
  end.

(** A report of the shape of section 3: an object with an array of boundaries
    and an array of per-category objects. *)
Definition wellFormed (mewsData : Value) : bool :=
  match timeUnits mewsData, categories mewsData with
  | Some _, Some l => forallb isObject l
  | _, _ => false
  end.

(** The category is absent, or its series is not an array as long as the
    boundary sequence. *)
Definition anomaly (mewsData : Value) (id : string) : bool :=
  match series mewsData id, timeUnits mewsData with
  | None, _ => true
  | Some (VArr a), Some dates => negb (List.length a =? List.length dates)%nat
  | Some _, _ => true
  end.

(** Every boundary is a string whose date part is a day of [s .. e]. *)
Definition boundariesWithin (s e : Z) (mewsData : Value) : bool :=
  match timeUnits mewsData with
  | Some l =>
      forallb (fun v =>
                 match v with
                 | VStr ts =>
                     existsb (fun n => (isoDate n =? String.substring 0 10 ts)%string)
                             (daysFrom s (Z.to_nat (e - s + 1)))
                 | _ => false
                 end) l
  | None => true
  end.

End Report.

(** A runtime for the examples: no date grammar beyond the ISO form, and the
    upstream texts of the examples parsed to their values. *)
Definition aprilBoundaries : Value :=
  VArr (List.map VStr ["2025-04-01T22:00:00.000Z"; "2025-04-02T22:00:00.000Z";
                       "2025-04-03T22:00:00.000Z"; "2025-04-04T22:00:00.000Z";
                       "2025-04-05T22:00:00.000Z"]).

Definition reportWith (boundaries : Value) (id : string) (counts : list Value) : Value :=
  VObj [("TimeUnitStartsUtc", boundaries);
        ("CategoryAvailabilities",
         VArr [VObj [("CategoryId", VStr "cat-0");
                     ("Availabilities", VArr (List.map VNum [2; 2; 2; 2; 2]))];
               VObj [("CategoryId", VStr id); ("Availabilities", VArr counts)]])].

Definition exampleRuntime : Runtime :=
  {| dateParseFallback := fun _ => None;
     jsonParse := fun text =>
       if (text =? "report-one-run")%string
       then Some (reportWith aprilBoundaries "cat-1" (List.map VNum [1; 1; 0; 0; 1]))
       else if (text =? "report-three-runs")%string
       then Some (reportWith aprilBoundaries "cat-1" (List.map VNum [0; 1; 0; 1; 0]))
       else if (text =? "report-other-category")%string
       then Some (reportWith aprilBoundaries "cat-2" (List.map VNum [0; 0; 0; 0; 0]))
       else if (text =? "report-short-series")%string
       then Some (reportWith aprilBoundaries "cat-1" (List.map VNum [0; 0; 0]))
       else if (text =? "report-wider-range")%string
       then Some (reportWith
                    (VArr (List.map VStr ["2025-03-31T22:00:00.000Z";
                                          "2025-04-01T22:00:00.000Z"]))
                    "cat-1" (List.map VNum [0; 1]))
       else if (text =? "report-mixed-entries")%string
       then Some (reportWith aprilBoundaries "cat-1"
                             [VNull; VStr "0"; VNum 0; VNum (-1); VNum 3])
       else None;
     faultMessage := fun f =>
       match f with
       | TypeErrorNullish => "Cannot read properties of undefined"
       | TypeErrorNotCallable => "is not a function"
       | RangeErrorInvalidTime => "Invalid time value"
       | SyntaxErrorJSON => "Unexpected token in JSON"
       | FetchFailed => "fetch failed"
       end;
     looseLeZero := fun _ => false |}.

Definition exampleEnv : Env :=
  {| MEWS_CLIENT_TOKEN := Some "client-token";
     MEWS_ACCESS_TOKEN := Some "access-token";
     MEWS_CONNECTOR_API_URL := Some "https://api.mews-demo.com";
     MEWS_SERVICE_ID := Some "service-id" |}.

Definition post (villa start finish : option string) : Request :=
  {| method := "POST";
     requestBody := Some {| villaId := villa; startDate := start; endDate := finish |} |}.

Definition aprilRequest : Request :=
  post (Some "cat-1") (Some "2025-04-01") (Some "2025-04-05").

Definition mixedReport : Value :=
  reportWith aprilBoundaries "cat-1" [VNull; VStr "0"; VNum 0; VNum (-1); VNum 3].

(** An upstream whose time units start at 22:00 UTC: any other anchor is
    refused, as the README reports for midnight. *)
Definition anchoredAt22 (endpoint : string) (p : Payload) : FetchOutcome :=
  if (FirstTimeUnitStartUtc p =? "2025-04-01T22:00:00.000Z")%string
  then Responded 200 "report-one-run"
  else Responded 400 "FirstTimeUnitStartUtc is not start of TimeUnit.".

Definition answering (status : Z) (text : string) (endpoint : string) (p : Payload)
  : FetchOutcome :=
  Responded status text.

(** ** Further vocabulary of the statements *)

(** The query a request carries as far as the upstream: the request is a
    POST, the configuration is complete and the validator lets the body
    through. *)
Definition accepted (env : Env) (request : Request)
  : option (string * string * string) :=
  if (method request =? "POST")%string && negb (envIncomplete env)
  then validQuery request
  else None.

(** The payload the probing version sends for one candidate hour. *)
Definition hourPayload (env : Env) (s e : string) (hour : Z) : Payload :=
  payloadOf env (BruteForce.formatTimeWithHour s hour)
            (BruteForce.formatTimeWithHour e hour).

Definition isString (v : Value) : bool :=
  match v with
  | VStr _ => true
  | _ => false
  end.

Definition isNumber (v : Value) : bool :=
  match v with
  | VNum _ => true
  | _ => false
  end.

Definition isNullish (v : Value) : bool :=
  match v with
  | VUndefined | VNull => true
  | _ => false
  end.

(** The runtime of the examples, with three more upstream texts: an empty
    object, [null] and an empty array. *)
Definition bareRuntime : Runtime :=
  {| dateParseFallback := dateParseFallback exampleRuntime;
     jsonParse := fun text =>
       if (text =? "{}")%string then Some (VObj [])
       else if (text =? "null")%string then Some VNull
       else if (text =? "[]")%string then Some (VArr [])
       else jsonParse exampleRuntime text;
     faultMessage := faultMessage exampleRuntime;
     looseLeZero := looseLeZero exampleRuntime |}.

(** The boundary sequence the versions without the workaround read: the
    array under [TimeUnitStartsUtc]. *)
Definition timeUnitStarts (mewsData : Value) : option (list Value) :=
  match mewsData with
  | VObj fields =>
      match JS.lookup fields "TimeUnitStartsUtc" with
      | VArr l => Some l
      | _ => None
      end
  | _ => None
  end.
(** * Properties *)

(** ** Calendar arithmetic *)

Module ESFacts.
Import ES.

Lemma DayFromYear_bounds y :
  146097 * (y - 1970) - 600 <= 400 * DayFromYear y <= 146097 * (y - 1970) + 600.
Proof. unfold DayFromYear. Z.div_mod_to_equations. lia. Qed.

Lemma DayFromYear_next y : DayFromYear (y + 1) = DayFromYear y + 365 + leapOf y.
Proof.
  unfold DayFromYear, leapOf, isLeap.
  destruct (Z.eqb_spec (y mod 4) 0), (Z.eqb_spec (y mod 100) 0),
    (Z.eqb_spec (y mod 400) 0); cbn [andb orb negb];
    Z.div_mod_to_equations; lia.
Qed.

Lemma leapOf_range y : 0 <= leapOf y <= 1.
Proof. unfold leapOf. destruct (isLeap y); lia. Qed.

Lemma DayFromYear_lt y1 y2 : y1 < y2 -> DayFromYear y1 < DayFromYear y2.
Proof. unfold DayFromYear. intros. Z.div_mod_to_equations. lia. Qed.

Lemma DayFromYear_le y1 y2 : y1 <= y2 -> DayFromYear y1 <= DayFromYear y2.
Proof.
  intros H. destruct (Z.eq_dec y1 y2) as [->|]; [lia|].
  apply Z.lt_le_incl, DayFromYear_lt. lia.
Qed.

Lemma YearFromDay_spec d :
  DayFromYear (YearFromDay d) <= d < DayFromYear (YearFromDay d + 1).
Proof.
  unfold YearFromDay.
  set (y := 1970 + 400 * d / 146097).
  assert (Hy : 146097 * (y - 1970) <= 400 * d < 146097 * (y - 1970) + 146097)
    by (unfold y; Z.div_mod_to_equations; lia).
  pose proof (DayFromYear_bounds (y - 1)).
  pose proof (DayFromYear_bounds (y + 2)).
  pose proof (DayFromYear_next (y - 1)) as Hm. replace (y - 1 + 1) with y in Hm by lia.
  pose proof (DayFromYear_next y).
  pose proof (DayFromYear_next (y + 1)) as Hp. replace (y + 1 + 1) with (y + 2) in Hp by lia.
  pose proof (leapOf_range (y - 1)). pose proof (leapOf_range y).
  pose proof (leapOf_range (y + 1)).
  destruct (Z.ltb_spec d (DayFromYear y)).
  - replace (y - 1 + 1) with y by lia. lia.
  - destruct (Z.leb_spec (DayFromYear (y + 1)) d).
    + replace (y + 1 + 1) with (y + 2) by lia. lia.
    + lia.
Qed.


Lemma YearFromDay_mono a b : a <= b -> YearFromDay a <= YearFromDay b.
Proof.
  intros H. pose proof (YearFromDay_spec a). pose proof (YearFromDay_spec b).
  destruct (Z.le_gt_cases (YearFromDay a) (YearFromDay b)) as [|G]; [assumption|].
  pose proof (DayFromYear_le (YearFromDay b + 1) (YearFromDay a) ltac:(lia)). lia.
Qed.

Lemma DayWithinYear_range d : 0 <= DayWithinYear d < 365 + InLeapYear d.
Proof.
  unfold DayWithinYear, InLeapYear. pose proof (YearFromDay_spec d).
  rewrite DayFromYear_next in H. unfold leapOf in H. lia.
Qed.

Lemma InLeapYear_range d : 0 <= InLeapYear d <= 1.
Proof. unfold InLeapYear. destruct (isLeap _); lia. Qed.

Ltac month_cases d :=
  unfold MonthFromDay;
  repeat match goal with
         | |- context [Z.ltb ?a ?b] => destruct (Z.ltb_spec a b)
         end.

Lemma MonthFromDay_range d : 0 <= MonthFromDay d <= 11.
Proof. month_cases d; lia. Qed.

Lemma DateFromDay_range d :
  1 <= DateFromDay d <= DaysInMonth (YearFromDay d) (MonthFromDay d).
Proof.
  pose proof (DayWithinYear_range d). pose proof (InLeapYear_range d).
  unfold DateFromDay, DaysInMonth.
  change (leapOf (YearFromDay d)) with (InLeapYear d).
  month_cases d; cbn [monthStart]; lia.
Qed.

Lemma MakeDay_next y m dt : MakeDay y m (dt + 1) = MakeDay y m dt + 1.
Proof. unfold MakeDay. lia. Qed.

Lemma MakeDay_of_day d :
  MakeDay (YearFromDay d) (MonthFromDay d) (DateFromDay d) = d.
Proof.
  unfold MakeDay. pose proof (MonthFromDay_range d).
  replace (MonthFromDay d / 12) with 0 by (Z.div_mod_to_equations; lia).
  rewrite Z.mod_small by lia. rewrite Z.add_0_r.
  unfold DateFromDay, DayWithinYear.
  change (leapOf (YearFromDay d)) with (InLeapYear d). lia.
Qed.

Lemma Day_of_midnight n : Day (n * msPerDay) = n.
Proof. unfold Day. apply Z.div_mul. discriminate. Qed.

Lemma TimeWithinDay_of_midnight n : TimeWithinDay (n * msPerDay) = 0.
Proof. unfold TimeWithinDay. apply Z.mod_mul. discriminate. Qed.

End ESFacts.

(** ** Digits and the code-unit order *)

Module StrFacts.
Import Str.

Lemma digitVal_digit n : 0 <= n <= 9 -> digitVal (digit n) = Some n.
Proof.
  intros H. unfold digitVal, isDigit, digit.
  rewrite N_ascii_embedding by lia.
  assert (L : (48 <=? Z.to_N (48 + n))%N = true) by (apply N.leb_le; lia).
  assert (U : (Z.to_N (48 + n) <=? 57)%N = true) by (apply N.leb_le; lia).
  rewrite L, U. cbn [andb]. f_equal. lia.
Qed.

Lemma isDigit_digit n : 0 <= n <= 9 -> isDigit (digit n) = true.
Proof.
  intros H. pose proof (digitVal_digit n H) as D. unfold digitVal in D.
  destruct (isDigit (digit n)); [reflexivity|discriminate].
Qed.

Lemma compare_digit x y :
  0 <= x <= 9 -> 0 <= y <= 9 -> Ascii.compare (digit x) (digit y) = (x ?= y).
Proof.
  intros Hx Hy. unfold Ascii.compare, digit.
  rewrite !N_ascii_embedding by lia.
  rewrite Z2N.inj_compare by lia. apply Z.add_compare_mono_l.
Qed.

Lemma compare_cons_digit x y s t :
  0 <= x <= 9 -> 0 <= y <= 9 ->
  String.compare (String (digit x) s) (String (digit y) t)
  = match x ?= y with
    | Eq => String.compare s t
    | c => c
    end.
Proof.
  intros Hx Hy. cbn [String.compare]. rewrite compare_digit by assumption.
  destruct (x ?= y); reflexivity.
Qed.

Lemma compare_cons_same c s t :
  String.compare (String c s) (String c t) = String.compare s t.
Proof.
  cbn [String.compare]. unfold Ascii.compare. rewrite N.compare_refl. reflexivity.
Qed.

Lemma num2_digits n :
  0 <= n <= 99 -> num2 (digit (n / 10 mod 10)) (digit (n mod 10)) = Some n.
Proof.
  intros H. unfold num2.
  rewrite !digitVal_digit by (Z.div_mod_to_equations; lia).
  f_equal. Z.div_mod_to_equations; lia.
Qed.

Lemma num4_digits n :
  0 <= n <= 9999 ->
  num4 (digit (n / 1000 mod 10)) (digit (n / 100 mod 10))
       (digit (n / 10 mod 10)) (digit (n mod 10)) = Some n.
Proof.
  intros H. unfold num4, num2.
  rewrite !digitVal_digit by (Z.div_mod_to_equations; lia).
  f_equal. Z.div_mod_to_equations; lia.
Qed.

(** Two-digit and four-digit renderings compare as the numbers do. *)
Lemma compare_pad2 x y s t :
  0 <= x <= 99 -> 0 <= y <= 99 ->
  String.compare (pad2 x ++ s) (pad2 y ++ t)
  = match x ?= y with
    | Eq => String.compare s t
    | c => c
    end.
Proof.
  intros Hx Hy. unfold pad2. cbn [String.append].
  rewrite !compare_cons_digit by (Z.div_mod_to_equations; lia).
  destruct (Z.compare_spec (x / 10 mod 10) (y / 10 mod 10)),
    (Z.compare_spec (x mod 10) (y mod 10)), (Z.compare_spec x y);
    try reflexivity; exfalso; Z.div_mod_to_equations; lia.
Qed.

Lemma pad4_split x : pad4 x = pad2 (x / 100) ++ pad2 (x mod 100).
Proof.
  unfold pad4, pad3, pad2. cbn [String.append].
  replace (x / 100 / 10 mod 10) with (x / 1000 mod 10)
    by (Z.div_mod_to_equations; lia).
  replace (x mod 100 / 10 mod 10) with (x / 10 mod 10)
    by (Z.div_mod_to_equations; lia).
  replace (x mod 100 mod 10) with (x mod 10) by (Z.div_mod_to_equations; lia).
  reflexivity.
Qed.

Lemma compare_pad4 x y s t :
  0 <= x <= 9999 -> 0 <= y <= 9999 ->
  String.compare (pad4 x ++ s) (pad4 y ++ t)
  = match x ?= y with
    | Eq => String.compare s t
    | c => c
    end.
Proof.
  intros Hx Hy. rewrite !pad4_split.
  assert (A : forall a b c, (a ++ b) ++ c = a ++ b ++ c).
  { intros a b c. induction a as [|h a IH]; cbn [String.append]; congruence. }
  rewrite !A.
  rewrite !compare_pad2 by (Z.div_mod_to_equations; lia).
  destruct (Z.compare_spec (x / 100) (y / 100)),
    (Z.compare_spec (x mod 100) (y mod 100)), (Z.compare_spec x y);
    try reflexivity; exfalso; Z.div_mod_to_equations; lia.
Qed.

(** The code-unit order is a strict total order. *)
Lemma ascii_compare_refl c : Ascii.compare c c = Eq.
Proof. unfold Ascii.compare. apply N.compare_refl. Qed.

Lemma compare_refl s : String.compare s s = Eq.
Proof.
  induction s as [|c s IH]; [reflexivity|].
  cbn [String.compare]. rewrite ascii_compare_refl. exact IH.
Qed.

Lemma compare_eq s t : String.compare s t = Eq <-> s = t.
Proof.
  split; [apply String.compare_eq_iff|]. intros ->. apply compare_refl.
Qed.

Lemma lt_irrefl s : ~ lt s s.
Proof. unfold lt. rewrite compare_refl. discriminate. Qed.

Lemma lt_trans s t u : lt s t -> lt t u -> lt s u.
Proof.
  unfold lt. revert t u.
  induction s as [|a s IH]; intros [|b t] [|c u]; cbn [String.compare];
    try discriminate; try reflexivity.
  unfold Ascii.compare.
  destruct (N.compare_spec (N_of_ascii a) (N_of_ascii b)) as [E1|L1|G1];
    destruct (N.compare_spec (N_of_ascii b) (N_of_ascii c)) as [E2|L2|G2];
    try discriminate; intros H1 H2.
  - rewrite E1, E2, N.compare_refl. eapply IH; eassumption.
  - rewrite E1. apply N.compare_lt_iff in L2. rewrite L2. reflexivity.
  - rewrite <- E2. apply N.compare_lt_iff in L1. rewrite L1. reflexivity.
  - assert (L : (N_of_ascii a < N_of_ascii c)%N) by lia.
    apply N.compare_lt_iff in L. rewrite L. reflexivity.
Qed.

Lemma leb_iff s t : String.leb s t = true <-> lt s t \/ s = t.
Proof.
  unfold String.leb, lt. split.
  - destruct (String.compare s t) eqn:C; try discriminate; intros _.
    + right. apply compare_eq. exact C.
    + left. reflexivity.
  - intros [->| ->]; [reflexivity|]. rewrite compare_refl. reflexivity.
Qed.

Lemma leb_trans s t u :
  String.leb s t = true -> String.leb t u = true -> String.leb s u = true.
Proof.
  rewrite !leb_iff. intros [H1| ->] [H2| ->]; auto.
  left. eapply lt_trans; eassumption.
Qed.

Lemma lt_not_eq s t : lt s t -> s <> t.
Proof. intros H ->. exact (lt_irrefl _ H). Qed.

Lemma lt_leb s t : lt s t -> String.leb s t = true.
Proof. intros H. apply leb_iff. left. exact H. Qed.

End StrFacts.

(** ** Date strings *)

Module DateFacts.
Import ES ESFacts Str StrFacts.

Lemma year_range n : minDay <= n <= maxDay -> 0 <= YearFromDay n <= 9999.
Proof.
  intros [H1 H2].
  pose proof (YearFromDay_mono _ _ H1) as L.
  pose proof (YearFromDay_mono _ _ H2) as U.
  change (YearFromDay minDay) with 0 in L.
  change (YearFromDay maxDay) with 9999 in U. lia.
Qed.

Lemma isoDate_eq n :
  minDay <= n <= maxDay ->
  isoDate n = pad4 (YearFromDay n) ++ "-" ++ pad2 (MonthFromDay n + 1) ++ "-"
              ++ pad2 (DateFromDay n).
Proof.
  intros H. pose proof (year_range n H) as [Y0 Y1].
  unfold isoDate, isoString, YearFromTime, MonthFromTime, DateFromTime.
  rewrite Day_of_midnight. unfold isoYear.
  apply Z.leb_le in Y0, Y1. rewrite Y0, Y1. cbn [andb].
  unfold pad4, pad3, pad2. reflexivity.
Qed.

Lemma fields_range n :
  minDay <= n <= maxDay ->
  0 <= YearFromDay n <= 9999 /\ 0 <= MonthFromDay n + 1 <= 99
  /\ 0 <= DateFromDay n <= 99.
Proof.
  intros H. pose proof (year_range n H). pose proof (MonthFromDay_range n).
  pose proof (DateFromDay_range n) as D.
  assert (DaysInMonth (YearFromDay n) (MonthFromDay n) <= 31).
  { unfold DaysInMonth. pose proof (leapOf_range (YearFromDay n)).
    repeat match goal with |- context [match ?x with _ => _ end] => destruct x end; lia. }
  lia.
Qed.

Lemma calendar_check n :
  (1 <=? MonthFromDay n + 1) && (MonthFromDay n + 1 <=? 12)
  && (1 <=? DateFromDay n)
  && (DateFromDay n <=? DaysInMonth (YearFromDay n) (MonthFromDay n + 1 - 1)) = true.
Proof.
  pose proof (MonthFromDay_range n). pose proof (DateFromDay_range n).
  replace (MonthFromDay n + 1 - 1) with (MonthFromDay n) by lia.
  rewrite !andb_true_iff, !Z.leb_le. lia.
Qed.

Ltac parse_date n H :=
  destruct (fields_range n H) as (HY & HM & HD);
  rewrite (isoDate_eq n H); unfold pad4, pad3, pad2;
  cbn [String.append parseIsoUtc];
  rewrite (num4_digits _ HY), (num2_digits _ HM), (num2_digits _ HD);
  cbn [parseFraction];
  repeat match goal with
         | |- context [num2 ?a ?b] => let v := eval vm_compute in (num2 a b) in
                                        change (num2 a b) with v
         | |- context [num3 ?a ?b ?c] => let v := eval vm_compute in (num3 a b c) in
                                        change (num3 a b c) with v
         end;
  cbv iota beta; rewrite (calendar_check n);
  replace (MonthFromDay n + 1 - 1) with (MonthFromDay n) by lia;
  rewrite (MakeDay_of_day n).

(** [Date.parse] of a calendar day at midnight and at 15:00 UTC. *)
Lemma parse_midnight n :
  minDay <= n <= maxDay ->
  parseIsoUtc (isoDate n ++ "T00:00:00Z") = Some (n * msPerDay).
Proof.
  intros H. parse_date n H. cbn [andb]. change (0 <=? 23) with true.
  change (0 <=? 59) with true. cbn [andb]. unfold MakeDate, MakeTime. f_equal. lia.
Qed.

Lemma parse_1500 n :
  minDay <= n <= maxDay ->
  parseIsoUtc (isoDate n ++ "T" ++ "15:00:00" ++ ".000Z")
  = Some (n * msPerDay + 54000000).
Proof.
  intros H. parse_date n H. change (15 <=? 23) with true.
  change (0 <=? 59) with true. cbn [andb]. unfold MakeDate, MakeTime. f_equal.
Qed.

Lemma dateRegex_isoDate n : minDay <= n <= maxDay -> JS.dateRegex (isoDate n) = true.
Proof.
  intros H. destruct (fields_range n H) as (HY & HM & HD).
  rewrite (isoDate_eq n H). unfold pad4, pad3, pad2.
  cbn [String.append JS.dateRegex list_ascii_of_string].
  rewrite !isDigit_digit by (Z.div_mod_to_equations; lia). reflexivity.
Qed.

Lemma clip_day n : minDay <= n <= maxDay + 1 -> TimeClip (n * msPerDay) = Some (n * msPerDay).
Proof.
  intros H. unfold TimeClip.
  assert (Z.abs (n * msPerDay) <= 8640000000000000).
  { unfold minDay, maxDay in H.
    change (DayFromYear 0) with (-719528) in H.
    change (DayFromYear 10000) with 2932897 in H. unfold msPerDay. lia. }
  apply Z.leb_le in H0. rewrite H0. reflexivity.
Qed.

(** [addOneDay] maps a calendar day to the next one. *)
Lemma addOneDay_isoDate R n :
  minDay <= n <= maxDay ->
  Part004.addOneDay R (isoDate n) = Ok (isoDate (n + 1)).
Proof.
  intros H. unfold Part004.addOneDay, JS.newDate.
  rewrite (parse_midnight n H), clip_day by lia.
  cbn [JS.getUTCDate option_map JS.setUTCDate].
  unfold YearFromTime, MonthFromTime, DateFromTime.
  rewrite Day_of_midnight, TimeWithinDay_of_midnight, MakeDay_next, MakeDay_of_day.
  unfold MakeDate. rewrite Z.add_0_r, clip_day by lia. reflexivity.
Qed.

(** Within one year, a later day has a later (month, date). *)
Lemma month_date_lt a b :
  YearFromDay a = YearFromDay b -> a < b ->
  MonthFromDay a < MonthFromDay b
  \/ (MonthFromDay a = MonthFromDay b /\ DateFromDay a < DateFromDay b).
Proof.
  intros E L.
  pose proof (DayWithinYear_range a). pose proof (DayWithinYear_range b).
  pose proof (InLeapYear_range a).
  assert (EL : InLeapYear b = InLeapYear a) by (unfold InLeapYear; rewrite E; reflexivity).
  assert (W : DayWithinYear a < DayWithinYear b) by (unfold DayWithinYear; rewrite E; lia).
  unfold DateFromDay, MonthFromDay. rewrite EL.
  generalize dependent (DayWithinYear a). generalize dependent (DayWithinYear b).
  generalize dependent (InLeapYear a). clear. intros l Hl wb Hb wa Ha W.
  repeat match goal with
         | |- context [Z.ltb ?x ?y] => destruct (Z.ltb_spec x y)
         end; cbn [monthStart]; lia.
Qed.

Lemma isoDate_lt a b :
  minDay <= a -> a < b -> b <= maxDay -> Str.lt (isoDate a) (isoDate b).
Proof.
  intros Ha L Hb. unfold Str.lt.
  assert (RA : minDay <= a <= maxDay) by lia.
  assert (RB : minDay <= b <= maxDay) by lia.
  destruct (fields_range a RA) as (YA & MA & DA).
  destruct (fields_range b RB) as (YB & MB & DB).
  rewrite (isoDate_eq a RA), (isoDate_eq b RB).
  rewrite compare_pad4 by assumption.
  pose proof (YearFromDay_mono a b ltac:(lia)) as Y.
  destruct (Z.compare_spec (YearFromDay a) (YearFromDay b)) as [E|?|?];
    [|reflexivity|lia].
  cbn [String.append]. rewrite compare_cons_same, compare_pad2 by assumption.
  destruct (month_date_lt a b E L) as [M|[M D]].
  - replace (MonthFromDay a + 1 ?= MonthFromDay b + 1) with Lt
      by (symmetry; apply Z.compare_lt_iff; lia).
    reflexivity.
  - rewrite M, Z.compare_refl, compare_cons_same.
    change (pad2 (DateFromDay a)) with (pad2 (DateFromDay a) ++ "").
    change (pad2 (DateFromDay b)) with (pad2 (DateFromDay b) ++ "").
    rewrite compare_pad2 by assumption.
    apply Z.compare_lt_iff in D. rewrite D. reflexivity.
Qed.

Lemma isoDate_inj a b :
  minDay <= a <= maxDay -> minDay <= b <= maxDay -> isoDate a = isoDate b -> a = b.
Proof.
  intros Ha Hb E. destruct (Z.lt_trichotomy a b) as [L|[?|G]]; [|assumption|].
  - exfalso. eapply lt_not_eq; [apply (isoDate_lt a b)|exact E]; lia.
  - exfalso. eapply lt_not_eq; [apply (isoDate_lt b a)|symmetry; exact E]; lia.
Qed.

End DateFacts.

(** ** Sets and sorting *)

Module SetFacts.
Import JSSet.

Lemma has_In s x : has s x = true <-> In x s.
Proof.
  unfold has. rewrite existsb_exists. split.
  - intros (y & Hy & E). apply String.eqb_eq in E. subst. exact Hy.
  - intros H. exists x. split; [exact H|apply String.eqb_refl].
Qed.

Lemma has_false s x : has s x = false <-> ~ In x s.
Proof.
  rewrite <- has_In. destruct (has s x); split; intros H; congruence.
Qed.

Lemma add_In x s y : In y (add x s) <-> y = x \/ In y s.
Proof.
  unfold add. destruct (has s x) eqn:E.
  - apply has_In in E. split; [auto|]. intros [->|]; assumption.
  - rewrite in_app_iff. cbn. intuition.
Qed.

Lemma add_NoDup x s : NoDup s -> NoDup (add x s).
Proof.
  intros H. unfold add. destruct (has s x) eqn:E; [exact H|].
  apply has_false in E. apply NoDup_app; [exact H|repeat constructor; auto|].
  intros a Ha [<-|[]]. exact (E Ha).
Qed.

Lemma add_Permutation x s1 s2 :
  Permutation s1 s2 -> Permutation (add x s1) (add x s2).
Proof.
  intros P. unfold add.
  assert (E : has s1 x = has s2 x).
  { destruct (has s1 x) eqn:E1; symmetry.
    - apply has_In. apply has_In in E1. eapply Permutation_in; eassumption.
    - apply has_false. apply has_false in E1. intros H. apply E1.
      eapply Permutation_in; [apply Permutation_sym|]; eassumption. }
  rewrite <- E. destruct (has s1 x); [exact P|].
  apply Permutation_app_tail. exact P.
Qed.

Lemma fold_add_In l acc y :
  In y (fold_left (fun s x => add x s) l acc) <-> In y acc \/ In y l.
Proof.
  revert acc. induction l as [|x l IH]; intros acc; cbn [fold_left].
  - cbn. intuition.
  - rewrite IH, add_In. cbn. intuition.
Qed.

Lemma fold_add_NoDup l acc :
  NoDup acc -> NoDup (fold_left (fun s x => add x s) l acc).
Proof.
  revert acc. induction l as [|x l IH]; intros acc H; cbn [fold_left];
    [exact H|]. apply IH, add_NoDup, H.
Qed.

Lemma fold_add_fresh l acc :
  NoDup (acc ++ l) -> fold_left (fun s x => add x s) l acc = (acc ++ l)%list.
Proof.
  revert acc. induction l as [|x l IH]; intros acc H; cbn [fold_left].
  - symmetry. apply app_nil_r.
  - assert (N : ~ In x acc).
    { intros Hx. apply NoDup_remove_2 in H. apply H.
      apply in_or_app. left. exact Hx. }
    apply has_false in N. unfold add at 2. rewrite N.
    rewrite IH; rewrite <- app_assoc; [reflexivity|exact H].
Qed.

Lemma ofList_In l y : In y (ofList l) <-> In y l.
Proof. unfold ofList. rewrite fold_add_In. cbn. intuition. Qed.

Lemma ofList_NoDup l : NoDup (ofList l).
Proof. apply fold_add_NoDup. constructor. Qed.

(** Copying a set gives the same set, in the same order. *)
Lemma ofList_id l : NoDup l -> ofList l = l.
Proof. intros H. unfold ofList. rewrite fold_add_fresh; [reflexivity|exact H]. Qed.

End SetFacts.

Module SortFacts.
Import StrFacts.

Lemma sorted_le_head x l y : StronglySorted Str.le (x :: l) -> In y (x :: l) -> Str.le x y.
Proof.
  intros S [<-|H].
  - apply leb_iff. right. reflexivity.
  - apply StronglySorted_inv in S as [_ F].
    rewrite Forall_forall in F. apply F, H.
Qed.

(** A list has one sorted arrangement. *)
Lemma sorted_unique l1 :
  forall l2, StronglySorted Str.le l1 -> StronglySorted Str.le l2 ->
             Permutation l1 l2 -> l1 = l2.
Proof.
  induction l1 as [|x l1 IH]; intros l2 S1 S2 P.
  - apply Permutation_nil in P. congruence.
  - destruct l2 as [|y l2].
    + apply Permutation_sym, Permutation_nil in P. discriminate.
    + assert (x = y).
      { apply String.leb_antisym.
        - apply (sorted_le_head x l1 y S1).
          eapply Permutation_in; [apply Permutation_sym; exact P|left; reflexivity].
        - apply (sorted_le_head y l2 x S2).
          eapply Permutation_in; [exact P|left; reflexivity]. }
      subst y. f_equal. apply IH.
      * apply StronglySorted_inv in S1. tauto.
      * apply StronglySorted_inv in S2. tauto.
      * eapply Permutation_cons_inv. exact P.
Qed.

Lemma arraySort_sorted l : StronglySorted Str.le (arraySort l).
Proof.
  apply Sorted_StronglySorted.
  - intros x y z. apply leb_trans.
  - apply StringSort.Sorted_sort.
Qed.

Lemma arraySort_perm l : Permutation l (arraySort l).
Proof. apply StringSort.Permuted_sort. Qed.

Lemma arraySort_In l x : In x (arraySort l) <-> In x l.
Proof.
  split; apply Permutation_in; [apply Permutation_sym|]; apply arraySort_perm.
Qed.

(** The sorted array depends on the elements only, not on their order. *)
Lemma arraySort_Permutation l1 l2 :
  Permutation l1 l2 -> arraySort l1 = arraySort l2.
Proof.
  intros P. apply sorted_unique; try apply arraySort_sorted.
  eapply Permutation_trans; [apply Permutation_sym, arraySort_perm|].
  eapply Permutation_trans; [exact P|apply arraySort_perm].
Qed.

Lemma lt_sorted_le l : StronglySorted Str.lt l -> StronglySorted Str.le l.
Proof.
  induction 1 as [|x l S IH F]; constructor; [exact IH|].
  eapply Forall_impl; [|exact F]. intros y. apply lt_leb.
Qed.

Lemma arraySort_of_sorted l l' :
  StronglySorted Str.lt l' -> Permutation l l' -> arraySort l = l'.
Proof.
  intros S P. apply sorted_unique.
  - apply arraySort_sorted.
  - apply lt_sorted_le, S.
  - eapply Permutation_trans; [apply Permutation_sym, arraySort_perm|exact P].
Qed.

Lemma le_sorted_lt l : NoDup l -> StronglySorted Str.le l -> StronglySorted Str.lt l.
Proof.
  intros N S. induction S as [|x l S IH F]; constructor.
  - apply IH. inversion N; assumption.
  - inversion N as [|? ? Hx _]; subst. rewrite Forall_forall in *.
    intros y Hy. destruct (proj1 (leb_iff x y) (F y Hy)) as [L| ->];
      [exact L|contradiction].
Qed.

(** Sorting a duplicate-free list gives a strictly ascending one. *)
Lemma arraySort_strict l : NoDup l -> StronglySorted Str.lt (arraySort l).
Proof.
  intros N. apply le_sorted_lt; [|apply arraySort_sorted].
  eapply Permutation_NoDup; [apply arraySort_perm|exact N].
Qed.

Lemma strict_NoDup l : StronglySorted Str.lt l -> NoDup l.
Proof.
  induction 1 as [|x l S IH F]; constructor; [|exact IH].
  intros Hx. rewrite Forall_forall in F. exact (lt_irrefl x (F x Hx)).
Qed.

End SortFacts.

(** ** The logging monad *)

Module MFacts.

Lemma fst_bind {A B : Type} (m : M A) (k : A -> M B) :
  fst (bind m k) = match fst m with
                   | Ok a => fst (k a)
                   | Throw e => Throw e
                   end.
Proof. destruct m as [[a|e] l]; cbn; [destruct (k a)|]; reflexivity. Qed.

Lemma snd_bind {A B : Type} (m : M A) (k : A -> M B) :
  snd (bind m k) = match fst m with
                   | Ok a => (snd m ++ snd (k a))%list
                   | Throw e => snd m
                   end.
Proof. destruct m as [[a|e] l]; cbn; [destruct (k a)|]; reflexivity. Qed.

Lemma bind_lift_ok {A B : Type} (a : A) (k : A -> M B) :
  bind (lift (Ok a)) k = k a.
Proof. unfold bind, lift. destruct (k a). reflexivity. Qed.

Lemma bind_ret {A B : Type} (a : A) (k : A -> M B) : bind (ret a) k = k a.
Proof. apply bind_lift_ok. Qed.

Lemma bind_lift_throw {A B : Type} (e : Exn) (k : A -> M B) :
  bind (lift (Throw e)) k = (Throw e, []).
Proof. reflexivity. Qed.

Lemma bind_emit {B : Type} (e : Event) (k : unit -> M B) :
  bind (emit e) k = (fst (k tt), e :: snd (k tt)).
Proof. unfold bind, emit. destruct (k tt). reflexivity. Qed.

Lemma pair_eta {A B : Type} (p : A * B) : p = (fst p, snd p).
Proof. destruct p; reflexivity. Qed.

Lemma fst_tryCatch {A : Type} (m : M A) (h : Exn -> M A) :
  fst (tryCatch m h) = match fst m with
                       | Ok a => Ok a
                       | Throw e => fst (h e)
                       end.
Proof. destruct m as [[a|e] l]; cbn; [|destruct (h e)]; reflexivity. Qed.

Lemma snd_tryCatch {A : Type} (m : M A) (h : Exn -> M A) :
  snd (tryCatch m h) = match fst m with
                       | Ok a => snd m
                       | Throw e => (snd m ++ snd (h e))%list
                       end.
Proof. destruct m as [[a|e] l]; cbn; [|destruct (h e)]; reflexivity. Qed.

End MFacts.

(** ** The workaround on arbitrary strings *)

Module LoopFacts.
Import MFacts SetFacts SortFacts.

Section WithRuntime.

Variable R : Runtime.

(** One turn of the loop, as a function of the head of the sorted array. *)
Lemma loop_cons initial currentDate rest final :
  Part004.workaroundLoop R initial (currentDate :: rest) final
  = match Part004.addOneDay R currentDate with
    | Throw e => (Throw e, [])
    | Ok nextDay =>
        let isLastOfBlock := match rest with
                             | [] => true
                             | following :: _ => negb (nextDay =? following)%string
                             end in
        if isLastOfBlock && negb (JSSet.has initial nextDay)
        then bind (emit (Console LLog
                     ("WORKAROUND: Adding potentially missing last day: "
                      ++ nextDay ++ " (following " ++ currentDate ++ ")")))
               (fun _ => Part004.workaroundLoop R initial rest (JSSet.add nextDay final))
        else Part004.workaroundLoop R initial rest final
    end.
Proof.
  cbn [Part004.workaroundLoop].
  destruct (Part004.addOneDay R currentDate) as [nextDay|e]; [|reflexivity].
  rewrite bind_lift_ok. destruct rest as [|following rest].
  - rewrite bind_ret. reflexivity.
  - rewrite bind_lift_ok, bind_ret. reflexivity.
Qed.

(** What the loop leaves in the final set. *)
Lemma loop_members initial sorted :
  forall final final',
    fst (Part004.workaroundLoop R initial sorted final) = Ok final' ->
    (forall x, In x final -> In x final')
    /\ (forall x, In x final' ->
                  In x final
                  \/ exists c, In c sorted /\ Part004.addOneDay R c = Ok x)
    /\ (NoDup final -> NoDup final').
Proof.
  induction sorted as [|c rest IH]; intros final final' H.
  - cbn in H. injection H as <-. repeat split; auto.
  - rewrite loop_cons in H.
    destruct (Part004.addOneDay R c) as [nextDay|e] eqn:E; [|discriminate].
    cbv zeta in H.
    destruct (_ && _) in H.
    + rewrite bind_emit in H. cbn [fst] in H.
      destruct (IH _ _ H) as (I1 & I2 & I3). repeat split.
      * intros x Hx. apply I1, add_In. right. exact Hx.
      * intros x Hx. destruct (I2 x Hx) as [Hf|(c' & Hc & Hc')].
        -- apply add_In in Hf as [->|Hf]; [|left; exact Hf].
           right. exists c. split; [left; reflexivity|exact E].
        -- right. exists c'. split; [right; exact Hc|exact Hc'].
      * intros N. apply I3, add_NoDup, N.
    + destruct (IH _ _ H) as (I1 & I2 & I3). repeat split; auto.
      intros x Hx. destruct (I2 x Hx) as [Hf|(c' & Hc & Hc')]; [left; exact Hf|].
      right. exists c'. split; [right; exact Hc|exact Hc'].
Qed.

(** The loop does not depend on the insertion order of its two sets. *)
Lemma loop_order initial1 initial2 sorted :
  (forall x, JSSet.has initial1 x = JSSet.has initial2 x) ->
  forall final1 final2,
    Permutation final1 final2 ->
    sameUpToOrder (Part004.workaroundLoop R initial1 sorted final1)
                  (Part004.workaroundLoop R initial2 sorted final2).
Proof.
  intros Hhas. induction sorted as [|c rest IH]; intros final1 final2 P.
  - split; [reflexivity|exact P].
  - rewrite !loop_cons.
    destruct (Part004.addOneDay R c) as [nextDay|e]; [|split; reflexivity].
    cbv zeta. rewrite <- Hhas.
    destruct (_ && _).
    + rewrite !bind_emit.
      destruct (IH (JSSet.add nextDay final1) (JSSet.add nextDay final2)
                  (add_Permutation _ _ _ P)) as [S F].
      split; cbn [fst snd]; [f_equal; exact S|exact F].
    + apply IH, P.
Qed.

Lemma workaround_eq initial :
  Part004.workaround R initial
  = (match fst (Part004.workaroundLoop R initial (arraySort initial)
                  (JSSet.ofList initial)) with
     | Ok final => Ok (arraySort final)
     | Throw e => Throw e
     end,
     snd (Part004.workaroundLoop R initial (arraySort initial) (JSSet.ofList initial))).
Proof.
  unfold Part004.workaround, JSSet.toArray.
  destruct (Part004.workaroundLoop R initial (arraySort initial) (JSSet.ofList initial))
    as [[final|e] l]; cbn; [rewrite app_nil_r|]; reflexivity.
Qed.

Lemma has_Permutation s1 s2 x :
  Permutation s1 s2 -> JSSet.has s1 x = JSSet.has s2 x.
Proof.
  intros P. destruct (JSSet.has s2 x) eqn:E.
  - apply has_In. apply has_In in E.
    eapply Permutation_in; [apply Permutation_sym|]; eassumption.
  - apply has_false. apply has_false in E. intros H. apply E.
    eapply Permutation_in; eassumption.
Qed.

Lemma ofList_Permutation l1 l2 :
  Permutation l1 l2 -> Permutation (JSSet.ofList l1) (JSSet.ofList l2).
Proof.
  intros P. apply NoDup_Permutation; try apply ofList_NoDup.
  intros x. rewrite !ofList_In. split; apply Permutation_in;
    [|apply Permutation_sym]; exact P.
Qed.

(** The array sent back, and the log, are the same for two raw sets with the
    same elements. *)
Lemma workaround_order initial1 initial2 :
  Permutation initial1 initial2 ->
  Part004.workaround R initial1 = Part004.workaround R initial2.
Proof.
  intros P. rewrite !workaround_eq.
  rewrite (arraySort_Permutation _ _ P).
  destruct (loop_order initial1 initial2 (arraySort initial2)
              (fun x => has_Permutation _ _ x P) _ _ (ofList_Permutation _ _ P))
    as [S F].
  rewrite S. f_equal.
  destruct (fst (Part004.workaroundLoop R initial1 _ _)) as [a|e1],
    (fst (Part004.workaroundLoop R initial2 _ _)) as [b|e2]; try contradiction.
  - f_equal. apply arraySort_Permutation, F.
  - congruence.
Qed.

(** Whenever the workaround returns, its array is strictly ascending and
    holds every raw day. *)
Lemma workaround_sorted initial out :
  fst (Part004.workaround R initial) = Ok out -> StronglySorted Str.lt out.
Proof.
  rewrite workaround_eq. cbn [fst].
  destruct (fst (Part004.workaroundLoop R initial _ _)) as [final|e] eqn:E;
    [|discriminate].
  intros H. injection H as <-. apply arraySort_strict.
  apply (loop_members _ _ _ _ E), ofList_NoDup.
Qed.

Lemma workaround_superset initial out :
  fst (Part004.workaround R initial) = Ok out -> incl initial out.
Proof.
  rewrite workaround_eq. cbn [fst].
  destruct (fst (Part004.workaroundLoop R initial _ _)) as [final|e] eqn:E;
    [|discriminate].
  intros H. injection H as <-. intros x Hx.
  apply arraySort_In. apply (loop_members _ _ _ _ E), ofList_In, Hx.
Qed.

Lemma workaround_members initial out x :
  fst (Part004.workaround R initial) = Ok out -> In x out ->
  In x initial \/ exists c, In c initial /\ Part004.addOneDay R c = Ok x.
Proof.
  rewrite workaround_eq. cbn [fst].
  destruct (fst (Part004.workaroundLoop R initial _ _)) as [final|e] eqn:E;
    [|discriminate].
  intros H. injection H as <-. intros Hx. apply (proj1 (arraySort_In _ _)) in Hx.
  destruct (proj1 (proj2 (loop_members _ _ _ _ E)) x Hx) as [H|(c & Hc & Hc')].
  - left. apply ofList_In, H.
  - right. exists c. split; [apply (proj1 (arraySort_In _ _)), Hc|exact Hc'].
Qed.

End WithRuntime.

End LoopFacts.

(** ** The workaround on calendar days *)

Module DayFacts.
Import MFacts SetFacts SortFacts StrFacts DateFacts LoopFacts.

Lemma correction_head d rest :
  exists tail, Spec.correction (d :: rest) = d :: tail.
Proof.
  cbn [Spec.correction]. destruct rest as [|next rest]; [eauto|].
  destruct (d + 1 =? next); eauto.
Qed.

Lemma correction_In days :
  StronglySorted Z.lt days ->
  forall x, In x (Spec.correction days) <-> In x days \/ In (x - 1) days.
Proof.
  induction 1 as [|d rest S IH F]; intros x; [cbn; tauto|].
  cbn [Spec.correction]. destruct rest as [|next rest].
  - cbn. lia.
  - rewrite Forall_forall in F.
    destruct (Z.eqb_spec (d + 1) next) as [E|E].
    + cbn [In]. rewrite IH. cbn [In]. intuition lia.
    + cbn [In]. rewrite IH. cbn [In]. intuition lia.
Qed.

Lemma correction_sorted days :
  StronglySorted Z.lt days -> StronglySorted Z.lt (Spec.correction days).
Proof.
  intros S. apply Sorted_StronglySorted; [exact Z.lt_trans|].
  induction S as [|d rest S IH F]; [constructor|].
  cbn [Spec.correction]. destruct rest as [|next rest].
  - repeat constructor. lia.
  - assert (L : d < next) by (rewrite Forall_forall in F; apply F; left; reflexivity).
    destruct (correction_head next rest) as [tail T]. rewrite T in IH |- *.
    destruct (Z.eqb_spec (d + 1) next).
    + constructor; [exact IH|constructor; exact L].
    + constructor; [constructor; [exact IH|constructor; lia]|constructor; lia].
Qed.

Lemma correction_length days :
  days <> [] -> (List.length days < List.length (Spec.correction days))%nat.
Proof.
  induction days as [|d rest IH]; [congruence|]. intros _.
  cbn [Spec.correction]. destruct rest as [|next rest]; [cbn; lia|].
  specialize (IH ltac:(discriminate)).
  destruct (d + 1 =? next); cbn [List.length] in *; lia.
Qed.

Lemma correction_consecutive d rest :
  Spec.correction (d :: d + 1 :: rest) = d :: Spec.correction (d + 1 :: rest).
Proof.
  change (Spec.correction (d :: d + 1 :: rest))
    with (if d + 1 =? d + 1 then d :: Spec.correction (d + 1 :: rest)
          else d :: (d + 1) :: Spec.correction (d + 1 :: rest)).
  rewrite Z.eqb_refl. reflexivity.
Qed.

Lemma correction_run k :
  forall d, Spec.correction (daysFrom d (S k)) = daysFrom d (S (S k)).
Proof.
  induction k as [|k IH]; intros d; [reflexivity|].
  change (daysFrom d (S (S k))) with (d :: d + 1 :: daysFrom (d + 1 + 1) k).
  rewrite correction_consecutive.
  change (d + 1 :: daysFrom (d + 1 + 1) k) with (daysFrom (d + 1) (S k)).
  rewrite IH. reflexivity.
Qed.

Lemma daysFrom_In k : forall d x, In x (daysFrom d k) <-> d <= x < d + Z.of_nat k.
Proof.
  induction k as [|k IH]; intros d x; cbn [daysFrom In]; [lia|].
  rewrite IH. lia.
Qed.

Lemma daysFrom_sorted k : forall d, StronglySorted Z.lt (daysFrom d k).
Proof.
  induction k as [|k IH]; intros d; cbn [daysFrom]; constructor; [apply IH|].
  apply Forall_forall. intros x Hx. apply daysFrom_In in Hx. lia.
Qed.

(** Day strings of an ascending list of days are ascending. *)
Lemma isoDate_sorted days :
  StronglySorted Z.lt days -> Forall (fun n => minDay <= n <= maxDay) days ->
  StronglySorted Str.lt (List.map isoDate days).
Proof.
  induction 1 as [|d rest S IH F]; intros R; cbn [List.map]; constructor.
  - apply IH. inversion R; assumption.
  - apply Forall_forall. intros s Hs. apply in_map_iff in Hs as (n & <- & Hn).
    rewrite Forall_forall in F, R.
    pose proof (F n Hn). pose proof (R d (or_introl eq_refl)).
    pose proof (R n (or_intror Hn)). apply isoDate_lt; lia.
Qed.

Lemma isoDate_In days n :
  Forall (fun n => minDay <= n <= maxDay) days -> minDay <= n <= maxDay ->
  In (isoDate n) (List.map isoDate days) <-> In n days.
Proof.
  intros R Hn. rewrite in_map_iff. split.
  - intros (m & E & Hm). rewrite Forall_forall in R.
    rewrite <- (isoDate_inj m n (R m Hm) Hn E). exact Hm.
  - intros H. exists n. auto.
Qed.

Section WithRuntime.

Variable R : Runtime.

(** The loop on the day strings of an ascending list [suffix] of raw days:
    it adds the day after [a] exactly when that day is not a raw day. *)
Lemma loop_days initial days :
  Forall inYears days ->
  (forall n, minDay <= n <= maxDay ->
             JSSet.has initial (isoDate n) = true <-> In n days) ->
  forall suffix final,
    incl suffix days -> StronglySorted Z.lt suffix ->
    exists final',
      fst (Part004.workaroundLoop R initial (List.map isoDate suffix) final)
      = Ok final'
      /\ forall x, In x final' <->
                   In x final
                   \/ exists a, In a suffix /\ ~ In (a + 1) days /\ x = isoDate (a + 1).
Proof.
  intros HR Hhas. rewrite Forall_forall in HR. unfold inYears in HR.
  induction suffix as [|a rest IH]; intros final I S.
  - exists final. split; [reflexivity|]. intros x. split; [auto|].
    intros [H|(a & [] & _)]. exact H.
  - assert (Ha : minDay <= a < maxDay) by (apply HR, I; left; reflexivity).
    assert (I' : incl rest days) by (intros y Hy; apply I; right; exact Hy).
    apply StronglySorted_inv in S as [S' F]. rewrite Forall_forall in F.
    cbn [List.map]. rewrite loop_cons, addOneDay_isoDate by lia. cbv zeta.
    assert (Last : match List.map isoDate rest with
                   | [] => true
                   | following :: _ => negb (isoDate (a + 1) =? following)%string
                   end = false -> In (a + 1) days).
    { destruct rest as [|b rest']; [discriminate|]. cbn [List.map].
      intros E. apply negb_false_iff, String.eqb_eq in E.
      assert (Hb : minDay <= b < maxDay) by (apply HR, I'; left; reflexivity).
      apply isoDate_inj in E; [|lia|lia]. rewrite E. apply I'. left. reflexivity. }
    destruct (match List.map isoDate rest with
              | [] => true
              | following :: _ => negb (isoDate (a + 1) =? following)%string
              end) eqn:EL;
      [destruct (JSSet.has initial (isoDate (a + 1))) eqn:EH|]; cbn [andb negb].
    + assert (Hin : In (a + 1) days) by (apply Hhas; [lia|exact EH]).
      destruct (IH final I' S') as (final' & E & C). exists final'.
      split; [exact E|]. intros x. rewrite C. split.
      * intros [H|(b & Hb & Hb' & ->)]; [left; exact H|].
        right. exists b. repeat split; [right; exact Hb|exact Hb'].
      * intros [H|(b & [<-|Hb] & Hb' & ->)]; [left; exact H|contradiction|].
        right. exists b. repeat split; assumption.
    + assert (Hin : ~ In (a + 1) days).
      { intros H. apply Hhas in H; [congruence|lia]. }
      rewrite bind_emit. cbn [fst].
      destruct (IH (JSSet.add (isoDate (a + 1)) final) I' S') as (final' & E & C).
      exists final'. split; [exact E|]. intros x. rewrite C, add_In. split.
      * intros [[->|H]|(b & Hb & Hb' & ->)].
        -- right. exists a. repeat split; [left; reflexivity|exact Hin].
        -- left. exact H.
        -- right. exists b. repeat split; [right; exact Hb|exact Hb'].
      * intros [H|(b & [<-|Hb] & Hb' & ->)].
        -- left. right. exact H.
        -- left. left. reflexivity.
        -- right. exists b. repeat split; assumption.
    + specialize (Last eq_refl).
      destruct (IH final I' S') as (final' & E & C). exists final'.
      split; [exact E|]. intros x. rewrite C. split.
      * intros [H|(b & Hb & Hb' & ->)]; [left; exact H|].
        right. exists b. repeat split; [right; exact Hb|exact Hb'].
      * intros [H|(b & [<-|Hb] & Hb' & ->)]; [left; exact H|contradiction|].
        right. exists b. repeat split; assumption.
Qed.

End WithRuntime.

Section Transform.

Variable R : Runtime.

Lemma correction_range days :
  StronglySorted Z.lt days -> Forall inYears days ->
  Forall (fun n => minDay <= n <= maxDay) (Spec.correction days).
Proof.
  intros S F. apply Forall_forall. intros x Hx.
  apply (correction_In days S) in Hx. rewrite Forall_forall in F.
  unfold inYears in F. destruct Hx as [H|H]; apply F in H; lia.
Qed.

Lemma inYears_range days :
  Forall inYears days -> Forall (fun n => minDay <= n <= maxDay) days.
Proof. apply Forall_impl. unfold inYears. intros; lia. Qed.

(** The workaround refines the transform of the specification: on the day
    strings of the raw days, in any insertion order, it returns the day
    strings of [Spec.correction]. *)
Lemma workaround_days raw days :
  StronglySorted Z.lt days -> Forall inYears days ->
  Permutation raw (List.map isoDate days) ->
  fst (Part004.workaround R raw) = Ok (List.map isoDate (Spec.correction days)).
Proof.
  intros S F P. pose proof (inYears_range days F) as F'.
  rewrite workaround_eq. cbn [fst].
  rewrite (arraySort_of_sorted raw (List.map isoDate days))
    by (try apply isoDate_sorted; assumption).
  assert (Hhas : forall n, minDay <= n <= maxDay ->
                           JSSet.has raw (isoDate n) = true <-> In n days).
  { intros n Hn. rewrite has_In, <- (isoDate_In days n F' Hn).
    split; apply Permutation_in; [|apply Permutation_sym]; exact P. }
  destruct (loop_days R raw days F Hhas days (JSSet.ofList raw)
              (incl_refl _) S) as (final & E & C).
  rewrite E. f_equal. apply arraySort_of_sorted.
  - apply isoDate_sorted; [apply correction_sorted|apply correction_range]; assumption.
  - apply NoDup_Permutation.
    + apply (loop_members R _ _ _ _ E), ofList_NoDup.
    + apply strict_NoDup, isoDate_sorted;
        [apply correction_sorted|apply correction_range]; assumption.
    + intros x. rewrite C, ofList_In, in_map_iff. split.
      * intros [H|(a & Ha & _ & ->)].
        -- apply (Permutation_in _ P), in_map_iff in H as (n & <- & Hn).
           exists n. split; [reflexivity|]. apply correction_In; auto.
        -- exists (a + 1). split; [reflexivity|]. apply correction_In; [exact S|].
           right. replace (a + 1 - 1) with a by lia. exact Ha.
      * intros (m & <- & Hm). apply (correction_In days S) in Hm.
        destruct (in_dec Z.eq_dec m days) as [I|N].
        -- left. apply (Permutation_in _ (Permutation_sym P)), in_map, I.
        -- right. destruct Hm as [I|I]; [contradiction|].
           exists (m - 1). replace (m - 1 + 1) with m by lia. auto.
Qed.

End Transform.

End DayFacts.

(** ** The handlers *)

Module HandlerFacts.
Import MFacts SetFacts SortFacts.

Section WithRuntime.

Variable R : Runtime.

Lemma validQuery_fields request v s e :
  validQuery request = Some (v, s, e) ->
  exists b, requestBody request = Some b /\ villaId b = Some v
            /\ startDate b = Some s /\ endDate b = Some e
            /\ (v =? "")%string = false /\ JS.dateRegex s = true
            /\ JS.dateRegex e = true.
Proof.
  unfold validQuery. destruct (requestBody request) as [b|]; [|discriminate].
  destruct (villaId b) as [v'|] eqn:Hv, (startDate b) as [s'|] eqn:Hs,
    (endDate b) as [e'|] eqn:He; try discriminate.
  destruct (v' =? "")%string eqn:Ev; [discriminate|].
  destruct (JS.dateRegex s') eqn:Es; [|discriminate].
  destruct (JS.dateRegex e') eqn:Ee; [|discriminate].
  cbn. intros H. injection H as <- <- <-. exists b. repeat split; assumption.
Qed.

Lemma dateRegex_nonempty s : JS.dateRegex s = true -> (s =? "")%string = false.
Proof. destruct s; [discriminate|reflexivity]. Qed.

(** The validator lets a valid query through, logging the body once. *)
Lemma validateBody_valid request v s e :
  validQuery request = Some (v, s, e) ->
  validateBody R request = (Ok (inr (v, s, e)), [Console LLog "Received Request Body:"]).
Proof.
  intros H. destruct (validQuery_fields _ _ _ _ H) as (b & Hb & Hv & Hs & He & Nv & Rs & Re).
  unfold validateBody. rewrite Hb. unfold missing. rewrite Hv, Hs, He.
  cbn [orEmpty]. rewrite Nv, Rs, Re, (dateRegex_nonempty s Rs), (dateRegex_nonempty e Re).
  reflexivity.
Qed.

Lemma formatToMewsRequiredTime_valid s :
  JS.dateRegex s = true ->
  Part004.formatToMewsRequiredTime R s = (Ok (s ++ "T22:00:00.000Z"), []).
Proof. intros H. unfold Part004.formatToMewsRequiredTime. rewrite H. reflexivity. Qed.

(** On a valid query the handler makes its call with the two timestamps
    anchored at 22:00 UTC and answers from [resolve]. *)
Lemma handler_valid env upstream request v s e :
  method request = "POST" -> envIncomplete env = false ->
  validQuery request = Some (v, s, e) ->
  let rs := Part004.resolve R upstream (endpointOf env)
              (payloadOf env (s ++ "T22:00:00.000Z") (e ++ "T22:00:00.000Z")) v in
  Part004.handler R env upstream request
  = (match fst rs with
     | Ok response => Ok response
     | Throw error => Ok (Part004.internalError R error)
     end,
     [Console LLog "--- Function Invoked ---";
      Console LLog "Received Request Body:";
      Console LLog ("Calling Mews API Endpoint: " ++ endpointOf env);
      Console LLog "Sending Mews Payload:"]
     ++ snd rs
     ++ match fst rs with
        | Ok _ => []
        | Throw error =>
            [Console LError ("Error within backend function execution: "
                             ++ JS.message R error)]
        end)%list.
Proof.
  intros Hm He Hq rs.
  destruct (validQuery_fields _ _ _ _ Hq) as (b & _ & _ & _ & _ & _ & Rs & Re).
  unfold Part004.handler. rewrite Hm. cbn [String.eqb Ascii.eqb Bool.eqb negb].
  rewrite bind_emit, He, (validateBody_valid _ _ _ _ Hq).
  cbn [bind fst snd].
  rewrite (formatToMewsRequiredTime_valid s Rs), (formatToMewsRequiredTime_valid e Re).
  cbn [bind fst snd emit].
  fold (endpointOf env). fold (payloadOf env (s ++ "T22:00:00.000Z") (e ++ "T22:00:00.000Z")).
  fold rs. destruct rs as [[r|err] l]; cbn; rewrite ?app_nil_r; reflexivity.
Qed.


Lemma find_objects id l :
  forallb Report.isObject l = true ->
  JS.find (fun catAvail =>
             rbind (JS.get catAvail "CategoryId")
                   (fun cid => Ok (JS.strictEqStr cid id))) l
  = Ok (match List.find (Report.isCategory id) l with
        | Some c => c
        | None => VUndefined
        end).
Proof.
  induction l as [|c l IH]; [reflexivity|]. cbn [forallb]. intros H.
  apply andb_true_iff in H as [Hc Hl]. destruct c; try discriminate.
  cbn [JS.find JS.get rbind List.find Report.isCategory].
  destruct (JS.strictEqStr (JS.lookup fields "CategoryId") id); [reflexivity|].
  apply IH, Hl.
Qed.

Lemma reportArrays_object fields :
  Part004.reportArrays (VObj fields)
  = Ok (match Report.categories (VObj fields), Report.timeUnits (VObj fields) with
        | Some c, Some d => Some (VArr c, VArr d)
        | _, _ => None
        end).
Proof.
  unfold Part004.reportArrays, Report.categories, Report.timeUnits.
  cbn [JS.get rbind].
  remember (JS.lookup fields "TimeUnitStartsUtc") as T eqn:ET.
  remember (JS.lookup fields "DatesUtc") as D eqn:ED.
  remember (JS.lookup fields "CategoryAvailabilities") as C eqn:EC.
  destruct (JS.isArray C) eqn:IA.
  - destruct C as [| | | | |c|]; try discriminate. cbn [JS.truthy andb].
    destruct (JS.truthy T) eqn:TT; [|destruct (JS.truthy D) eqn:TD]; cbn [rbind];
      rewrite <- ?ET, <- ?ED, ?TT, ?TD; cbn [andb].
    + destruct T; reflexivity.
    + destruct D; reflexivity.
    + destruct D; try reflexivity. discriminate.
  - rewrite andb_false_r.
    assert (E : match C with VArr l => Some l | _ => None end = None)
      by (destruct C; try reflexivity; discriminate).
    rewrite E.
    destruct (JS.truthy T); [|destruct (JS.truthy D)]; reflexivity.
Qed.

Lemma reportArrays_other mewsData :
  Report.isObject mewsData = false ->
  Part004.reportArrays mewsData = Ok None
  \/ exists e, Part004.reportArrays mewsData = Throw e.
Proof.
  destruct mewsData; try discriminate; intros _;
    try (left; reflexivity); right; eexists; reflexivity.
Qed.

Lemma scanCategory_cases cas dates v initial :
  fst (Part004.scanCategory cas (VArr dates) v) = Ok initial ->
  initial = []
  \/ exists a, Part004.forEachDate a dates 0 JSSet.empty = Ok initial.
Proof.
  unfold Part004.scanCategory.
  destruct (JS.find _ (JS.elements cas)) as [tcd|err]; [|discriminate].
  rewrite bind_lift_ok.
  assert (Quiet : forall w, fst (bind (emit (Console LWarn w)) (fun _ => ret JSSet.empty))
                            = Ok initial -> initial = []).
  { intros w H. cbn in H. injection H as <-. reflexivity. }
  destruct (JS.truthy tcd); cbn [andb];
    [|rewrite bind_ret; intros H; left; exact (Quiet _ H)].
  destruct (JS.get tcd "Availabilities") as [av|err]; [|discriminate].
  rewrite bind_lift_ok.
  destruct (JS.truthy av && JS.isArray av && _);
    [|intros H; left; exact (Quiet _ H)].
  cbn [lift fst JS.elements]. intros H. right. exists (JS.elements av). exact H.
Qed.

Lemma processReport_cases mewsData v initial :
  fst (Part004.processReport mewsData v) = Ok initial ->
  initial = []
  \/ exists a dates,
       Report.timeUnits mewsData = Some dates
       /\ Part004.forEachDate a dates 0 JSSet.empty = Ok initial.
Proof.
  unfold Part004.processReport.
  destruct (Report.isObject mewsData) eqn:EO.
  - destruct mewsData; try discriminate. rewrite reportArrays_object, bind_lift_ok.
    destruct (Report.categories _) as [c|], (Report.timeUnits _) as [d|];
      try (cbn; intros H; injection H as <-; left; reflexivity).
    intros H. apply scanCategory_cases in H as [H|(a & H)]; [left; exact H|].
    right. exists a, d. auto.
  - destruct (reportArrays_other _ EO) as [E|(e & E)]; rewrite E.
    + cbn. intros H. injection H as <-. left. reflexivity.
    + discriminate.
Qed.

Lemma nth_number l i c :
  nth i l VUndefined = VNum c <-> nth_error l i = Some (VNum c).
Proof.
  revert i. induction l as [|x l IH]; intros [|i]; cbn; try (split; discriminate).
  - split; congruence.
  - apply IH.
Qed.

(** What the [forEach] adds: the date part of boundary [i] when entry [i] of
    the series is a number and is at most zero, and nothing else. *)
Lemma forEachDate_spec avail dates :
  forall index set set',
    Part004.forEachDate avail dates index set = Ok set' ->
    (NoDup set -> NoDup set')
    /\ forall d, In d set' <->
                 In d set
                 \/ exists i ts c,
                      nth_error dates i = Some (VStr ts)
                      /\ nth_error avail (index + i) = Some (VNum c)
                      /\ c <= 0 /\ d = String.substring 0 10 ts.
Proof.
  induction dates as [|dateUtc rest IH]; intros index set set' H.
  - cbn in H. injection H as <-. split; [auto|]. intros d. split; [auto|].
    intros [H|(i & ts & c & Hi & _)]; [exact H|]. destruct i; discriminate.
  - cbn [Part004.forEachDate] in H.
    destruct (JS.substring10 dateUtc) as [dateString|e] eqn:ES; [|discriminate].
    cbn [rbind] in H. apply IH in H as [N C].
    assert (TS : exists ts, dateUtc = VStr ts /\ dateString = String.substring 0 10 ts).
    { destruct dateUtc; try discriminate. injection ES as <-. eauto. }
    destruct TS as (ts & -> & ->).
    assert (Shift : forall d,
               (exists i ts' c, nth_error rest i = Some (VStr ts')
                                /\ nth_error avail (S index + i) = Some (VNum c)
                                /\ c <= 0 /\ d = String.substring 0 10 ts')
               <-> (exists i ts' c, nth_error (VStr ts :: rest) (S i) = Some (VStr ts')
                                    /\ nth_error avail (index + S i) = Some (VNum c)
                                    /\ c <= 0 /\ d = String.substring 0 10 ts')).
    { intros d. split; intros (i & ts' & c & H1 & H2 & H3);
        exists i, ts', c; rewrite Nat.add_succ_r in *; auto. }
    destruct (nth index avail VUndefined) as [| |b|n|s|l|f] eqn:EN;
      try (split; [exact N|]; intros d; rewrite C, Shift; split;
           [intros [H|(i & ts' & c & H)]; [left; exact H|right; exists (S i), ts', c; exact H]
           |intros [H|([|i] & ts' & c & H1 & H2 & H3)];
            [left; exact H
            |rewrite Nat.add_0_r in H2; apply nth_number in H2; congruence
            |right; exists i, ts', c; auto]]).
    destruct (Z.leb_spec n 0) as [L|G].
    + split; [intros ND; apply N, add_NoDup, ND|].
      intros d. rewrite C, add_In, Shift. split.
      * intros [[->|H]|(i & ts' & c & H)].
        -- right. exists 0%nat, ts, n. rewrite Nat.add_0_r.
           apply nth_number in EN. cbn. auto.
        -- left. exact H.
        -- right. exists (S i), ts', c. exact H.
      * intros [H|([|i] & ts' & c & H1 & H2 & H3 & H4)].
        -- left. right. exact H.
        -- left. left. cbn in H1. congruence.
        -- right. exists i, ts', c. auto.
    + split; [exact N|]. intros d. rewrite C, Shift. split.
      * intros [H|(i & ts' & c & H)]; [left; exact H|].
        right. exists (S i), ts', c. exact H.
      * intros [H|([|i] & ts' & c & H1 & H2 & H3 & H4)].
        -- left. exact H.
        -- rewrite Nat.add_0_r in H2. apply nth_number in H2. rewrite EN in H2.
           injection H2 as ->. lia.
        -- right. exists i, ts', c. auto.
Qed.

Lemma forEachDate_total avail dates :
  Forall (fun v => exists ts, v = VStr ts) dates ->
  forall index set, exists set', Part004.forEachDate avail dates index set = Ok set'.
Proof.
  induction 1 as [|x rest (ts & ->) _ IH]; intros index set; cbn; eauto.
Qed.

Lemma fetchCalls_app l1 l2 : fetchCalls (l1 ++ l2) = (fetchCalls l1 ++ fetchCalls l2)%list.
Proof. unfold fetchCalls. apply flat_map_app. Qed.

Lemma quiet_bind {A B : Type} (m : M A) (k : A -> M B) :
  quiet m -> (forall a, quiet (k a)) -> quiet (bind m k).
Proof.
  unfold quiet. intros Hm Hk. rewrite snd_bind.
  destruct (fst m) as [a|e]; [|exact Hm].
  rewrite fetchCalls_app, Hm, Hk. reflexivity.
Qed.

Lemma quiet_lift {A : Type} (r : Result A) : quiet (lift r).
Proof. reflexivity. Qed.

Lemma quiet_ret {A : Type} (a : A) : quiet (ret a).
Proof. reflexivity. Qed.

Lemma quiet_console level text : quiet (emit (Console level text)).
Proof. reflexivity. Qed.

Ltac quiet_tac :=
  repeat first
    [ apply quiet_ret | apply quiet_lift | apply quiet_console
    | apply quiet_bind; [|intros]
    | match goal with
      | |- quiet (if ?c then _ else _) => destruct c
      | |- quiet (match ?x with _ => _ end) => destruct x
      end ].

Lemma quiet_loop initial sorted : forall final,
  quiet (Part004.workaroundLoop R initial sorted final).
Proof.
  induction sorted as [|c rest IH]; intros final; [apply quiet_ret|].
  cbn [Part004.workaroundLoop]. quiet_tac; apply IH.
Qed.

Lemma quiet_workaround initial : quiet (Part004.workaround R initial).
Proof. unfold Part004.workaround. quiet_tac. apply quiet_loop. Qed.

Lemma quiet_processReport mewsData v : quiet (Part004.processReport mewsData v).
Proof. unfold Part004.processReport, Part004.scanCategory. quiet_tac. Qed.

(** The steps after a successful answer with a parsable body. *)
Lemma resolve_success upstream ep p v st text mewsData :
  upstream ep p = Responded st text -> responseOk st = true ->
  jsonParse R text = Some mewsData ->
  let pr := Part004.processReport mewsData v in
  Part004.resolve R upstream ep p v
  = (match fst pr with
     | Throw e => Throw e
     | Ok initial =>
         match fst (Part004.workaround R initial) with
         | Throw e => Throw e
         | Ok out => Ok {| status := 200; headers := successHeaders;
                           body := unavailableBody out |}
         end
     end,
     Fetch ep p
     :: Console LLog ("Mews Response Status: " ++ Str.ofZ st)
     :: Console LLog "Received Mews API OK Response (Snippet):"
     :: snd pr
     ++ match fst pr with
        | Throw _ => []
        | Ok initial =>
            Console LLog "Initial processed unavailable dates:"
            :: snd (Part004.workaround R initial)
            ++ match fst (Part004.workaround R initial) with
               | Throw _ => []
               | Ok _ => [Console LLog "Final unavailable dates (with workaround):";
                          Console LLog "--- Request Success (with workaround) ---"]
               end
        end)%list.
Proof.
  intros Hu Hok Hj pr. unfold Part004.resolve, fetch. rewrite Hu.
  cbn [bind emit ret fst snd app]. rewrite Hok, Hj. cbn [negb bind ret emit app].
  fold pr. destruct pr as [[initial|e] l1]; cbn [fst snd bind emit app];
    [|rewrite app_nil_r; reflexivity].
  destruct (Part004.workaround R initial) as [[out|e] l2]; cbn [fst snd bind ret emit app];
    rewrite ?app_nil_r; reflexivity.
Qed.

(** Every other answer of the upstream makes [resolve] throw. *)
Lemma resolve_failure upstream ep p v :
  match upstream ep p with
  | Responded st text =>
      responseOk st = false \/ jsonParse R text = None
  | Rejected => True
  end ->
  exists e, fst (Part004.resolve R upstream ep p v) = Throw e.
Proof.
  unfold Part004.resolve, fetch. destruct (upstream ep p) as [|st text].
  - intros _. eexists. reflexivity.
  - cbn [bind emit ret fst snd app]. destruct (responseOk st) eqn:Hok.
    + intros [H|H]; [discriminate|]. rewrite H. eexists. reflexivity.
    + intros _. cbn [negb bind emit]. 
      destruct (JS.get _ "Message") as [m|e]; eexists; reflexivity.
Qed.

Lemma quiet_throw {A : Type} (e : Exn) : quiet (throw (A:=A) e).
Proof. reflexivity. Qed.

(** [resolve] calls the upstream exactly once. *)
Lemma resolve_calls upstream ep p v :
  fetchCalls (snd (Part004.resolve R upstream ep p v)) = [p].
Proof.
  unfold Part004.resolve.
  match goal with
  | |- context [bind (fetch upstream ep p) ?k] => set (K := k)
  end.
  assert (Q : forall a, quiet (K a)).
  { intros [st text]. unfold K.
    repeat first
      [ apply quiet_ret | apply quiet_lift | apply quiet_console | apply quiet_throw
      | apply quiet_processReport | apply quiet_workaround
      | apply quiet_bind; [|intros]
      | match goal with
        | |- quiet (if ?c then _ else _) => destruct c
        | |- quiet (match ?x with _ => _ end) => destruct x
        end ]. }
  clearbody K. rewrite snd_bind. unfold fetch.
  destruct (upstream ep p) as [|st text]; [reflexivity|].
  pose proof (Q (st, text)) as Q'. unfold quiet in Q'.
  cbn. f_equal. exact Q'.
Qed.

(** On a valid query the handler calls the upstream exactly once, with both
    timestamps anchored at 22:00 UTC. *)
Lemma handler_calls env upstream request v s e :
  method request = "POST" -> envIncomplete env = false ->
  validQuery request = Some (v, s, e) ->
  fetchCalls (snd (Part004.handler R env upstream request))
  = [payloadOf env (s ++ "T22:00:00.000Z") (e ++ "T22:00:00.000Z")].
Proof.
  intros Hm He Hq. rewrite (handler_valid env upstream request v s e Hm He Hq).
  cbn [snd]. rewrite !fetchCalls_app, resolve_calls.
  destruct (fst (Part004.resolve R upstream _ _ v)); reflexivity.
Qed.

(** A 200 answer to a valid query comes from a successful upstream answer,
    through [processReport] and the workaround. *)
Lemma handler_200 env upstream request v s e response :
  method request = "POST" -> envIncomplete env = false ->
  validQuery request = Some (v, s, e) ->
  fst (Part004.handler R env upstream request) = Ok response ->
  status response = 200 ->
  exists st text mewsData initial out,
    upstream (endpointOf env)
      (payloadOf env (s ++ "T22:00:00.000Z") (e ++ "T22:00:00.000Z"))
    = Responded st text
    /\ responseOk st = true
    /\ jsonParse R text = Some mewsData
    /\ fst (Part004.processReport mewsData v) = Ok initial
    /\ fst (Part004.workaround R initial) = Ok out
    /\ response = {| status := 200; headers := successHeaders;
                     body := unavailableBody out |}.
Proof.
  intros Hm He Hq. rewrite (handler_valid env upstream request v s e Hm He Hq).
  cbn [fst]. set (ep := endpointOf env). set (p := payloadOf env _ _).
  destruct (upstream ep p) as [|st text] eqn:Hu.
  - destruct (resolve_failure upstream ep p v) as (err & E); [rewrite Hu; exact I|].
    rewrite E. intros H. injection H as <-. discriminate.
  - destruct (responseOk st) eqn:Hok;
      [destruct (jsonParse R text) as [mewsData|] eqn:Hj|].
    + rewrite (resolve_success upstream ep p v st text mewsData Hu Hok Hj). cbn [fst].
      destruct (fst (Part004.processReport mewsData v)) as [initial|err] eqn:Hp;
        [|intros H; injection H as <-; discriminate].
      destruct (fst (Part004.workaround R initial)) as [out|err] eqn:Hw;
        [|intros H; injection H as <-; discriminate].
      intros H _. injection H as <-. exists st, text, mewsData, initial, out.
      repeat split; assumption.
    + destruct (resolve_failure upstream ep p v) as (err & E);
        [rewrite Hu; right; exact Hj|].
      rewrite E. intros H. injection H as <-. discriminate.
    + destruct (resolve_failure upstream ep p v) as (err & E);
        [rewrite Hu; left; exact Hok|].
      rewrite E. intros H. injection H as <-. discriminate.
Qed.

(** [processReport] on a report of the expected shape. *)
Lemma processReport_wellFormed mewsData v :
  Report.wellFormed mewsData = true ->
  exists cats dates,
    Report.categories mewsData = Some cats
    /\ Report.timeUnits mewsData = Some dates
    /\ Part004.processReport mewsData v
       = match List.find (Report.isCategory v) cats with
         | Some c =>
             match JS.lookup (match c with VObj f => f | _ => [] end) "Availabilities" with
             | VArr a =>
                 if (List.length a =? List.length dates)%nat
                 then lift (Part004.forEachDate a dates 0 JSSet.empty)
                 else (Ok JSSet.empty,
                       [Console LWarn ("Data mismatch for category " ++ v)])
             | _ => (Ok JSSet.empty,
                     [Console LWarn ("Data mismatch for category " ++ v)])
             end
         | None =>
             (Ok JSSet.empty,
              [Console LWarn ("Availability data for target CategoryId "
                              ++ v ++ " not found.")])
         end.
Proof.
  unfold Report.wellFormed.
  destruct (Report.timeUnits mewsData) as [dates|] eqn:ET; [|discriminate].
  destruct (Report.categories mewsData) as [cats|] eqn:EC; [|discriminate].
  intros Hobj. exists cats, dates. repeat split.
  destruct mewsData as [| | | | | |fields]; try discriminate.
  unfold Part004.processReport. rewrite reportArrays_object, EC, ET, bind_lift_ok.
  unfold Part004.scanCategory. cbn [JS.elements].
  rewrite (find_objects v cats Hobj), bind_lift_ok.
  destruct (List.find (Report.isCategory v) cats) as [c|] eqn:EF; [|reflexivity].
  apply find_some in EF as [Hin Hc].
  destruct c as [| | | | | |f]; try discriminate.
  cbn [JS.truthy JS.get andb]. rewrite bind_lift_ok.
  destruct (JS.lookup f "Availabilities") as [| |b|n|s|a|g];
    cbn [JS.truthy JS.isArray andb JS.elements]; rewrite ?andb_false_r;
    reflexivity.
Qed.

(** The handler reads its upstream only through the answers it gets. *)
Lemma resolve_ext up1 up2 ep p v :
  up1 ep p = up2 ep p ->
  Part004.resolve R up1 ep p v = Part004.resolve R up2 ep p v.
Proof. intros H. unfold Part004.resolve, fetch. rewrite H. reflexivity. Qed.

Lemma handler_ext env up1 up2 request :
  (forall ep p, up1 ep p = up2 ep p) ->
  Part004.handler R env up1 request = Part004.handler R env up2 request.
Proof.
  intros H. unfold Part004.handler.
  destruct (method request =? "OPTIONS")%string; [reflexivity|].
  destruct (negb (method request =? "POST")%string); [reflexivity|].
  destruct (envIncomplete env); [reflexivity|].
  destruct (validateBody R request) as [[[response|[[v s] e]]|err] l];
    try reflexivity.
  cbn [bind emit fst snd].
  destruct (Part004.formatToMewsRequiredTime R s) as [[first|err] l1];
    [|reflexivity].
  destruct (Part004.formatToMewsRequiredTime R e) as [[last|err] l2];
    [|reflexivity].
  cbn [bind emit fst snd].
  rewrite (resolve_ext up1 up2 _ _ _ (H _ _)). reflexivity.
Qed.

(** A body the validator refuses is answered 400 without any call. *)
Lemma validateBody_invalid request :
  validQuery request = None ->
  exists message log,
    validateBody R request
    = (Ok (inl {| status := 400; headers := []; body := jsonError message |}), log)
    /\ fetchCalls log = [].
Proof.
  unfold validQuery, validateBody, missing.
  destruct (requestBody request) as [b|]; [|intros _; do 2 eexists; split; reflexivity].
  destruct (villaId b) as [v|], (startDate b) as [s|], (endDate b) as [e|];
    cbn [orEmpty];
    try (intros _; cbn; rewrite ?orb_true_r; do 2 eexists; split; reflexivity).
  destruct (v =? "")%string; cbn [negb andb orb];
    [intros _; do 2 eexists; split; reflexivity|].
  destruct (JS.dateRegex s) eqn:Rs; cbn [negb andb orb].
  - destruct (JS.dateRegex e) eqn:Re; [discriminate|]. intros _.
    rewrite !orb_true_r. do 2 eexists; split; reflexivity.
  - intros _. rewrite !orb_true_r. cbn [orb]. do 2 eexists; split; reflexivity.
Qed.

Lemma handler_invalid env upstream request :
  method request = "POST" -> envIncomplete env = false ->
  validQuery request = None ->
  exists response,
    fst (Part004.handler R env upstream request) = Ok response
    /\ status response = 400
    /\ fetchCalls (snd (Part004.handler R env upstream request)) = [].
Proof.
  intros Hm He Hq. destruct (validateBody_invalid request Hq) as (msg & log & E & Q).
  unfold Part004.handler. rewrite Hm. cbn [String.eqb Ascii.eqb Bool.eqb negb].
  rewrite bind_emit, He, E. cbn [bind ret fst snd]. rewrite app_nil_r.
  eexists. repeat split. exact Q.
Qed.

Lemma api_handler_invalid env upstream request :
  method request = "POST" -> envIncomplete env = false ->
  validQuery request = None ->
  exists response,
    fst (Api.handler R env upstream request) = Ok response
    /\ status response = 400
    /\ fetchCalls (snd (Api.handler R env upstream request)) = [].
Proof.
  intros Hm He Hq. destruct (validateBody_invalid request Hq) as (msg & log & E & Q).
  unfold Api.handler. rewrite Hm. cbn [String.eqb Ascii.eqb Bool.eqb negb].
  rewrite bind_emit, He, E. cbn [bind ret fst snd]. rewrite app_nil_r.
  eexists. repeat split. exact Q.
Qed.

Lemma bruteForce_handler_invalid env upstream request :
  method request = "POST" -> envIncomplete env = false ->
  validQuery request = None ->
  exists response,
    fst (BruteForce.handler R env upstream request) = Ok response
    /\ status response = 400
    /\ fetchCalls (snd (BruteForce.handler R env upstream request)) = [].
Proof.
  intros Hm He Hq. destruct (validateBody_invalid request Hq) as (msg & log & E & Q).
  unfold BruteForce.handler. rewrite Hm. cbn [String.eqb Ascii.eqb Bool.eqb negb].
  rewrite bind_emit, He, E. cbn [bind ret fst snd]. rewrite app_nil_r.
  eexists. repeat split. exact Q.
Qed.

(** [formatToMewsUtc] never throws: an unparsable date falls back to midnight. *)
Lemma formatToMewsUtc_total s :
  exists stamp log,
    Api.formatToMewsUtc R s = (Ok stamp, log) /\ fetchCalls log = [].
Proof.
  unfold Api.formatToMewsUtc. cbv zeta.
  destruct (JS.newDate R _) as [t|]; do 2 eexists; split; reflexivity.
Qed.

Lemma fetchCalls_console level text l :
  fetchCalls (Console level text :: l) = fetchCalls l.
Proof. reflexivity. Qed.

Lemma fetchCalls_fetch ep p l : fetchCalls (Fetch ep p :: l) = p :: fetchCalls l.
Proof. reflexivity. Qed.

Lemma quiet_warnings (unexpected : list string) :
  quiet (fold_right (fun w k => bind (emit (Console LWarn w)) (fun _ => k))
                    (ret JSSet.empty) unexpected).
Proof.
  induction unexpected as [|w rest IH]; cbn [fold_right]; [apply quiet_ret|].
  apply quiet_bind; [apply quiet_console|intros _; exact IH].
Qed.

Lemma quiet_processLoose mismatch notFound unexpected mewsData v :
  quiet (processLoose R mismatch notFound unexpected mewsData v).
Proof.
  unfold processLoose.
  repeat first
    [ apply quiet_ret | apply quiet_lift | apply quiet_console
    | apply quiet_warnings
    | apply quiet_bind; [|intros]
    | match goal with
      | |- quiet (if ?c then _ else _) => destruct c
      end ].
Qed.

(** The version under [api/] also makes one call on every valid query,
    whatever the calendar says about the two dates. *)
Lemma api_handler_calls env upstream request v s e :
  method request = "POST" -> envIncomplete env = false ->
  validQuery request = Some (v, s, e) ->
  exists first last,
    fst (Api.formatToMewsUtc R s) = Ok first
    /\ fst (Api.formatToMewsUtc R e) = Ok last
    /\ fetchCalls (snd (Api.handler R env upstream request))
       = [payloadOf env first last].
Proof.
  intros Hm He Hq.
  destruct (formatToMewsUtc_total s) as (first & l1 & E1 & Q1).
  destruct (formatToMewsUtc_total e) as (last & l2 & E2 & Q2).
  exists first, last. rewrite E1, E2. repeat split.
  unfold Api.handler. rewrite Hm. cbn [String.eqb Ascii.eqb Bool.eqb negb].
  rewrite bind_emit, He, (validateBody_valid _ _ _ _ Hq).
  cbn [bind fst snd]. rewrite E1, E2. cbn [bind fst snd emit].
  fold (endpointOf env). fold (payloadOf env first last).
  unfold Api.resolve.
  match goal with
  | |- context [bind (fetch upstream ?ep ?p) ?k] => set (K := k)
  end.
  assert (Q : forall a, quiet (K a)).
  { intros [st text]. unfold K.
    repeat first
      [ apply quiet_ret | apply quiet_lift | apply quiet_console | apply quiet_throw
      | apply quiet_processLoose
      | apply quiet_bind; [|intros]
      | match goal with
        | |- quiet (if ?c then _ else _) => destruct c
        | |- quiet (match ?x with _ => _ end) => destruct x
        end ]. }
  clearbody K. unfold fetch.
  destruct (upstream _ _) as [|st text].
  - cbn [bind emit ret throw fst snd app tryCatch].
    repeat rewrite ?fetchCalls_console, ?fetchCalls_fetch, ?fetchCalls_app.
    rewrite Q1, Q2. reflexivity.
  - pose proof (Q (st, text)) as Q'. unfold quiet in Q'.
    cbn [bind emit ret fst snd app].
    destruct (K (st, text)) as [[r|err] lk]; cbn [fst snd app tryCatch bind emit ret];
      cbn [snd] in Q';
      repeat rewrite ?fetchCalls_console, ?fetchCalls_fetch, ?fetchCalls_app;
      rewrite Q1, Q2, Q'; reflexivity.
Qed.

Lemma bind_ok_inv {A B : Type} (m : M A) (k : A -> M B) b :
  fst (bind m k) = Ok b -> exists a, fst m = Ok a /\ fst (k a) = Ok b.
Proof.
  rewrite fst_bind. destruct (fst m) as [a|e]; [eauto|discriminate].
Qed.

Ltac bind_inv H :=
  let a := fresh "a" in
  let Ha := fresh "Ha" in
  apply bind_ok_inv in H; destruct H as (a & Ha & H).

(** A 500 answer of the version under [api/] is one of two fixed bodies. *)
Lemma api_resolve_status upstream ep p v response :
  fst (Api.resolve R upstream ep p v) = Ok response -> status response = 200.
Proof.
  unfold Api.resolve. intros H. bind_inv H. destruct a as [st text].
  bind_inv H. destruct (negb (responseOk st)).
  - bind_inv H. discriminate.
  - do 5 bind_inv H. cbn in H. injection H as <-. reflexivity.
Qed.

Lemma api_500_generic env upstream request response :
  fst (Api.handler R env upstream request) = Ok response ->
  status response = 500 ->
  body response = jsonError "Server configuration error."
  \/ body response = jsonError "An internal server error occurred.".
Proof.
  unfold Api.handler.
  destruct (method request =? "OPTIONS")%string;
    [cbn; intros H; injection H as <-; discriminate|].
  destruct (negb (method request =? "POST")%string);
    [cbn; intros H; injection H as <-; discriminate|].
  intros H. bind_inv H.
  destruct (envIncomplete env);
    [bind_inv H; cbn in H; injection H as <-; left; reflexivity|].
  bind_inv H.
  destruct a0 as [r|[[v s] e]]; [|].
  - cbn in H. injection H as <-. intros S500.
    destruct (validQuery request) as [[[v s] e]|] eqn:Hq.
    + rewrite (validateBody_valid _ _ _ _ Hq) in Ha0. discriminate.
    + destruct (validateBody_invalid request Hq) as (msg & log & E & _).
      rewrite E in Ha0. cbn in Ha0. injection Ha0 as <-. discriminate.
  - do 4 bind_inv H. rewrite fst_tryCatch in H.
    destruct (fst (Api.resolve R upstream _ _ v)) as [r|err] eqn:Er.
    + injection H as <-. rewrite (api_resolve_status _ _ _ _ _ Er). discriminate.
    + cbn in H. injection H as <-. right. reflexivity.
Qed.

End WithRuntime.

End HandlerFacts.

Module RangeFacts.
Import SetFacts SortFacts StrFacts DateFacts DayFacts.

Lemma filter_sorted (f : Z -> bool) l :
  StronglySorted Z.lt l -> StronglySorted Z.lt (filter f l).
Proof.
  induction 1 as [|x l S IH F]; cbn [filter]; [constructor|].
  destruct (f x); [|exact IH]. constructor; [exact IH|].
  rewrite Forall_forall in *. intros y Hy. apply filter_In in Hy as [Hy _]. auto.
Qed.

(** A duplicate-free set of day strings of [s .. e] is the image of an
    ascending list of days. *)
Lemma raw_days initial s e :
  NoDup initial ->
  (forall d, In d initial -> exists n, s <= n <= e /\ d = isoDate n) ->
  minDay <= s -> e <= maxDay ->
  exists days,
    StronglySorted Z.lt days /\ Forall (fun n => s <= n <= e) days
    /\ Permutation initial (List.map isoDate days).
Proof.
  intros N H Hs He.
  set (days := filter (fun n => JSSet.has initial (isoDate n))
                      (daysFrom s (Z.to_nat (e - s + 1)))).
  assert (Hd : forall n, In n days <-> s <= n <= e /\ In (isoDate n) initial).
  { intros n. unfold days. rewrite filter_In, daysFrom_In, has_In.
    split; intros [? ?]; split; try assumption; lia. }
  assert (S : StronglySorted Z.lt days) by (apply filter_sorted, daysFrom_sorted).
  assert (F : Forall (fun n => s <= n <= e) days).
  { apply Forall_forall. intros n Hn. apply Hd in Hn. tauto. }
  exists days. repeat split; [exact S|exact F|].
  apply NoDup_Permutation; [exact N| |].
  - apply strict_NoDup, isoDate_sorted; [exact S|].
    eapply Forall_impl; [|exact F]. intros n Hn. cbv beta in Hn. lia.
  - intros d. rewrite in_map_iff. split.
    + intros Hin. destruct (H d Hin) as (n & Hn & ->). exists n.
      split; [reflexivity|]. apply Hd. auto.
    + intros (n & <- & Hn). apply Hd in Hn. tauto.
Qed.

End RangeFacts.

(** ** Totality, and the anomaly policy in the version under [api/] *)

Module TotalFacts.
Import MFacts HandlerFacts.

Section WithRuntime.

Variable R : Runtime.

(** The handler of the workaround version always answers: no exception
    escapes it. *)
Lemma handler_total env upstream request :
  exists response, fst (Part004.handler R env upstream request) = Ok response.
Proof.
  unfold Part004.handler.
  destruct (method request =? "OPTIONS")%string eqn:Eo; [eexists; reflexivity|].
  destruct (method request =? "POST")%string eqn:Ep; cbn [negb];
    [|eexists; reflexivity].
  apply String.eqb_eq in Ep.
  destruct (envIncomplete env) eqn:Ee; [eexists; reflexivity|].
  destruct (validQuery request) as [[[v s] e]|] eqn:Hq.
  - pose proof (handler_valid R env upstream request v s e Ep Ee Hq) as H.
    cbv zeta in H. unfold Part004.handler in H. rewrite Ep, Ee in H.
    cbn [String.eqb Ascii.eqb Bool.eqb negb] in H. rewrite H. cbn [fst].
    destruct (fst (Part004.resolve R upstream _ _ v)); eexists; reflexivity.
  - destruct (handler_invalid R env upstream request Ep Ee Hq) as (r & H & _).
    unfold Part004.handler in H. rewrite Ep, Ee in H.
    cbn [String.eqb Ascii.eqb Bool.eqb negb] in H. rewrite Ep in Eo.
    eexists. exact H.
Qed.

(** [processLoose] on a well-formed report without usable series for the
    category: nothing is marked and a warning is logged. *)
Lemma processLoose_anomaly mismatch notFound w1 w2 mewsData v :
  Report.wellFormed mewsData = true ->
  Report.series mewsData v = None
  \/ (exists a dates,
        Report.series mewsData v = Some (VArr a)
        /\ Report.timeUnits mewsData = Some dates
        /\ List.length a <> List.length dates) ->
  exists log,
    processLoose R mismatch notFound [w1; w2] mewsData v = (Ok JSSet.empty, log)
    /\ exists w, In (Console LWarn w) log.
Proof.
  unfold Report.wellFormed.
  destruct (Report.timeUnits mewsData) as [dates|] eqn:ET; [|discriminate].
  destruct (Report.categories mewsData) as [cats|] eqn:EC; [|discriminate].
  intros Hobj A. destruct mewsData as [| | | | | |fields]; try discriminate.
  unfold Report.categories in EC. unfold Report.timeUnits in ET.
  unfold processLoose. cbn [JS.get]. rewrite bind_lift_ok.
  destruct (JS.lookup fields "CategoryAvailabilities") as [| | | | |cats'|] eqn:ELC;
    try discriminate.
  injection EC as ->. cbn [JS.truthy JS.isArray andb]. rewrite bind_lift_ok.
  destruct (JS.lookup fields "TimeUnitStartsUtc") as [| |b|n|str|tus|g] eqn:ELT;
    cbn [JS.truthy JS.isArray andb] in *; rewrite ?andb_false_r;
    try (eexists; split; [reflexivity|exists w1; left; reflexivity]).
  injection ET as ->. cbn [JS.elements].
  rewrite (find_objects v cats Hobj), bind_lift_ok.
  unfold Report.series, Report.categories in A. rewrite ELC in A.
  destruct (List.find (Report.isCategory v) cats) as [c|] eqn:EF.
  - apply find_some in EF as [_ Hcat].
    destruct c as [| | | | | |f]; try discriminate.
    destruct A as [A|(a & dates' & A & Ht & Hl)]; [discriminate|].
    injection A as A. cbn [JS.truthy JS.get]. rewrite bind_lift_ok, A.
    injection Ht as <-.
    cbn [JS.truthy andb lengthIs JS.get rbind String.eqb Ascii.eqb Bool.eqb JS.lengthOf].
    replace (Z.of_nat (List.length a) =? Z.of_nat (List.length dates)) with false
      by (symmetry; apply Z.eqb_neq; lia).
    rewrite bind_lift_ok. eexists. split; [reflexivity|].
    exists mismatch. left. reflexivity.
  - cbn [JS.truthy andb]. rewrite !bind_ret.
    eexists. split; [reflexivity|]. exists notFound. left. reflexivity.
Qed.

(** C6 holds in the version under [api/] too. *)
Lemma api_anomaly_gives_empty_result env upstream request v s e first last st text
  mewsData :
  method request = "POST" -> envIncomplete env = false ->
  validQuery request = Some (v, s, e) ->
  fst (Api.formatToMewsUtc R s) = Ok first ->
  fst (Api.formatToMewsUtc R e) = Ok last ->
  upstream (endpointOf env) (payloadOf env first last) = Responded st text ->
  responseOk st = true -> jsonParse R text = Some mewsData ->
  Report.wellFormed mewsData = true ->
  Report.series mewsData v = None
  \/ (exists a dates,
        Report.series mewsData v = Some (VArr a)
        /\ Report.timeUnits mewsData = Some dates
        /\ List.length a <> List.length dates) ->
  fst (Api.handler R env upstream request)
  = Ok {| status := 200; headers := successHeaders; body := unavailableBody [] |}
  /\ exists w, In (Console LWarn w) (snd (Api.handler R env upstream request)).
Proof.
  intros Hm He Hq H1 H2 Hu Hok Hj W A.
  destruct (formatToMewsUtc_total R s) as (first' & l1 & E1 & _).
  destruct (formatToMewsUtc_total R e) as (last' & l2 & E2 & _).
  rewrite E1 in H1. rewrite E2 in H2. cbn in H1, H2.
  injection H1 as ->. injection H2 as ->.
  unfold Api.handler. rewrite Hm. cbn [String.eqb Ascii.eqb Bool.eqb negb].
  rewrite bind_emit, He, (validateBody_valid R _ _ _ _ Hq).
  cbn [bind fst snd]. rewrite E1, E2. cbn [bind fst snd emit].
  fold (endpointOf env). fold (payloadOf env first last).
  unfold Api.resolve, fetch. rewrite Hu. cbn [bind emit ret fst snd app].
  rewrite Hok, Hj. cbn [negb bind ret emit fst snd app].
  edestruct processLoose_anomaly as (log & E & w & Hw); [exact W|exact A|].
  rewrite E. cbn [bind ret emit fst snd app tryCatch]. split; [reflexivity|].
  exists w. cbn [snd]. repeat (cbn [In]; rewrite ?in_app_iff). tauto.
Qed.

End WithRuntime.

End TotalFacts.

(** ** The transform on arbitrary strings: sizes and failures *)

Module CoverFacts.

Import MFacts SetFacts SortFacts StrFacts DateFacts LoopFacts DayFacts HandlerFacts.

Section WithRuntime.

Variable R : Runtime.

Lemma add_length x s :
  (List.length s <= List.length (JSSet.add x s) <= S (List.length s))%nat.
Proof.
  unfold JSSet.add. destruct (JSSet.has s x); [lia|].
  rewrite length_app. cbn. lia.
Qed.

Lemma loop_length initial sorted :
  forall final final',
    fst (Part004.workaroundLoop R initial sorted final) = Ok final' ->
    (List.length final <= List.length final'
     <= List.length final + List.length sorted)%nat.
Proof.
  induction sorted as [|c rest IH]; intros final final' H.
  - cbn in H. injection H as <-. cbn. lia.
  - rewrite loop_cons in H.
    destruct (Part004.addOneDay R c) as [x|e]; [|discriminate].
    cbv zeta in H.
    match type of H with
    | context [if ?b then _ else _] => destruct b
    end.
    + rewrite bind_emit in H. cbn [fst] in H. apply IH in H.
      pose proof (add_length x final). cbn [List.length]. lia.
    + apply IH in H. cbn [List.length]. lia.
Qed.

Lemma addOneDay_error s e :
  Part004.addOneDay R s = Throw e -> e = Raised RangeErrorInvalidTime.
Proof.
  unfold Part004.addOneDay.
  destruct (JS.setUTCDate _ _); cbn; congruence.
Qed.

Lemma loop_returns initial sorted :
  forall final,
    (exists final', fst (Part004.workaroundLoop R initial sorted final) = Ok final')
    <-> Forall (fun c => exists x, Part004.addOneDay R c = Ok x) sorted.
Proof.
  induction sorted as [|c rest IH]; intros final.
  - split; [constructor|]. intros _. eexists. reflexivity.
  - rewrite loop_cons. destruct (Part004.addOneDay R c) as [x|e] eqn:E.
    + cbv zeta.
      match goal with
      | |- context [if ?b then _ else _] => destruct b
      end.
      * rewrite bind_emit. cbn [fst]. rewrite IH. split.
        -- intros F. constructor; [exists x; exact E|exact F].
        -- intros F. inversion F. assumption.
      * rewrite IH. split.
        -- intros F. constructor; [exists x; exact E|exact F].
        -- intros F. inversion F. assumption.
    + cbn [fst]. split.
      * intros [f Hf]. discriminate.
      * intros F. inversion F as [|? ? [x Hx] ?]. congruence.
Qed.

Lemma loop_throws initial sorted :
  forall final e,
    fst (Part004.workaroundLoop R initial sorted final) = Throw e ->
    exists c, In c sorted /\ Part004.addOneDay R c = Throw e.
Proof.
  induction sorted as [|c rest IH]; intros final e H.
  - discriminate.
  - rewrite loop_cons in H. destruct (Part004.addOneDay R c) as [x|e'] eqn:E.
    + cbv zeta in H.
      match type of H with
      | context [if ?b then _ else _] => destruct b
      end.
      * rewrite bind_emit in H. cbn [fst] in H.
        destruct (IH _ _ H) as (c' & Hc & Hx). exists c'. split; [right|]; assumption.
      * destruct (IH _ _ H) as (c' & Hc & Hx). exists c'. split; [right|]; assumption.
    + cbn [fst] in H. injection H as <-. exists c. split; [left; reflexivity|exact E].
Qed.

Lemma workaround_returns raw :
  (exists out, fst (Part004.workaround R raw) = Ok out)
  <-> (forall c, In c raw -> exists x, Part004.addOneDay R c = Ok x).
Proof.
  rewrite workaround_eq. cbn [fst]. split.
  - intros [out H] c Hc.
    destruct (fst (Part004.workaroundLoop R raw (arraySort raw) (JSSet.ofList raw)))
      as [final|e] eqn:E; [|discriminate].
    assert (F : Forall (fun c => exists x, Part004.addOneDay R c = Ok x) (arraySort raw)).
    { apply (loop_returns raw (arraySort raw) (JSSet.ofList raw)). eexists. exact E. }
    rewrite Forall_forall in F. apply F, arraySort_In, Hc.
  - intros H.
    assert (F : Forall (fun c => exists x, Part004.addOneDay R c = Ok x) (arraySort raw)).
    { apply Forall_forall. intros c Hc. apply H, (proj1 (arraySort_In _ _)), Hc. }
    apply (loop_returns raw (arraySort raw) (JSSet.ofList raw)) in F.
    destruct F as [final ->]. eexists. reflexivity.
Qed.

Lemma workaround_throws raw e :
  fst (Part004.workaround R raw) = Throw e ->
  e = Raised RangeErrorInvalidTime
  /\ exists c, In c raw /\ Part004.addOneDay R c = Throw e.
Proof.
  rewrite workaround_eq. cbn [fst]. intros H.
  destruct (fst (Part004.workaroundLoop R raw (arraySort raw) (JSSet.ofList raw)))
    as [final|e'] eqn:E; [discriminate|].
  injection H as ->. apply loop_throws in E. destruct E as (c & Hc & Hx).
  split; [exact (addOneDay_error _ _ Hx)|].
  exists c. split; [apply (proj1 (arraySort_In _ _)), Hc|exact Hx].
Qed.

End WithRuntime.

End CoverFacts.

(** ** The scan of the report: failures and unexpected shapes *)

Module ScanFacts.

Import MFacts SetFacts HandlerFacts.

Lemma forEachDate_returns avail dates :
  forall index set,
    (exists set', Part004.forEachDate avail dates index set = Ok set')
    <-> forallb isString dates = true.
Proof.
  induction dates as [|d rest IH]; intros index set.
  - cbn. split; [reflexivity|]. intros _. eexists. reflexivity.
  - cbn [Part004.forEachDate forallb].
    destruct d as [| |b|n|s|l|f]; cbn [JS.substring10 rbind isString andb];
      try (split; [intros [x Hx]; discriminate|discriminate]).
    apply IH.
Qed.

Lemma forEachDate_throws avail dates :
  forall index set e,
    Part004.forEachDate avail dates index set = Throw e ->
    e = Raised TypeErrorNullish \/ e = Raised TypeErrorNotCallable.
Proof.
  induction dates as [|d rest IH]; intros index set e H.
  - discriminate.
  - cbn [Part004.forEachDate] in H.
    destruct d as [| |b|n|s|l|f]; cbn [JS.substring10 rbind] in H;
      try (injection H as <-; auto).
    eapply IH, H.
Qed.

Lemma unexpected_shape mewsData v :
  Report.timeUnits mewsData = None \/ Report.categories mewsData = None ->
  Part004.processReport mewsData v
  = if isNullish mewsData then (Throw (Raised TypeErrorNullish), [])
    else (Ok JSSet.empty, [Console LWarn "Mews response structure unexpected."]).
Proof.
  intros H. destruct mewsData as [| |b|n|s|l|fields]; try reflexivity.
  unfold Part004.processReport. rewrite reportArrays_object.
  destruct (Report.categories (VObj fields)) as [c|].
  - destruct (Report.timeUnits (VObj fields)) as [d|]; [|reflexivity].
    destruct H; discriminate.
  - reflexivity.
Qed.

Lemma fst_warnings (unexpected : list string) :
  fst (fold_right (fun w k => bind (emit (Console LWarn w)) (fun _ => k))
                  (ret JSSet.empty) unexpected)
  = Ok JSSet.empty.
Proof.
  induction unexpected as [|w rest IH]; [reflexivity|].
  cbn [fold_right]. rewrite bind_emit. exact IH.
Qed.

Lemma processLoose_without_TimeUnitStartsUtc R mismatch notFound unexpected fields v :
  JS.truthy (JS.lookup fields "TimeUnitStartsUtc") = false ->
  fst (processLoose R mismatch notFound unexpected (VObj fields) v) = Ok JSSet.empty.
Proof.
  intros H. unfold processLoose. cbn [JS.get]. rewrite bind_lift_ok.
  destruct (JS.truthy (JS.lookup fields "CategoryAvailabilities")
            && JS.isArray (JS.lookup fields "CategoryAvailabilities")).
  - rewrite bind_lift_ok, H. cbn [andb]. apply fst_warnings.
  - rewrite bind_ret. cbn [andb]. apply fst_warnings.
Qed.

Lemma DatesUtc_fallback fields v :
  JS.truthy (JS.lookup fields "TimeUnitStartsUtc") = false ->
  Part004.processReport (VObj fields) v
  = Part004.processReport
      (VObj (("TimeUnitStartsUtc", JS.lookup fields "DatesUtc") :: fields)) v.
Proof.
  intros H. unfold Part004.processReport. rewrite !reportArrays_object.
  unfold Report.categories, Report.timeUnits. cbn [JS.lookup].
  change (("TimeUnitStartsUtc" =? "CategoryAvailabilities")%string) with false.
  change (("TimeUnitStartsUtc" =? "TimeUnitStartsUtc")%string) with true.
  change (("TimeUnitStartsUtc" =? "DatesUtc")%string) with false.
  cbv iota. rewrite H.
  destruct (JS.truthy (JS.lookup fields "DatesUtc")); reflexivity.
Qed.

End ScanFacts.

(** ** The stages of the handlers *)

Module StageFacts.

Import MFacts SetFacts HandlerFacts DateFacts.

Ltac bind_inv H :=
  let a := fresh "a" in
  let Ha := fresh "Ha" in
  apply bind_ok_inv in H; destruct H as (a & Ha & H).

Section WithRuntime.

Variable R : Runtime.

Lemma part004_resolve_status upstream ep p v response :
  fst (Part004.resolve R upstream ep p v) = Ok response -> status response = 200.
Proof.
  unfold Part004.resolve. intros H. bind_inv H. destruct a as [st text].
  bind_inv H. destruct (negb (responseOk st)).
  - do 2 bind_inv H. discriminate.
  - do 7 bind_inv H. cbn in H. injection H as <-. reflexivity.
Qed.

Lemma validateBody_refused request :
  validQuery request = None ->
  fst (validateBody R request)
  = Ok (inl {| status := 400;
               headers := [];
               body := jsonError
                 (match requestBody request with
                  | Some _ => "Missing or invalid parameters: villaId, startDate, endDate required (YYYY-MM-DD)."
                  | None =>
                      if (faultMessage R TypeErrorNullish =? "")%string
                      then "Invalid request body."
                      else faultMessage R TypeErrorNullish
                  end) |}).
Proof.
  unfold validQuery, validateBody, missing.
  destruct (requestBody request) as [b|]; [|intros _; reflexivity].
  destruct (villaId b) as [v|], (startDate b) as [s|], (endDate b) as [e|];
    cbn [orEmpty];
    try (intros _; cbn; rewrite ?orb_true_r; reflexivity).
  destruct (v =? "")%string; cbn [negb andb orb]; [intros _; reflexivity|].
  destruct (JS.dateRegex s) eqn:Rs; cbn [negb andb orb].
  - destruct (JS.dateRegex e) eqn:Re; [discriminate|]. intros _.
    rewrite !orb_true_r. reflexivity.
  - intros _. rewrite !orb_true_r. cbn [orb]. reflexivity.
Qed.

Lemma handler_refused env upstream request :
  method request = "POST" -> envIncomplete env = false ->
  validQuery request = None ->
  fst (Part004.handler R env upstream request)
  = match fst (validateBody R request) with
    | Ok (inl response) => Ok response
    | _ => Ok configurationError
    end.
Proof.
  intros Hm He Hq. destruct (validateBody_invalid R request Hq) as (msg & log & E & Q).
  unfold Part004.handler. rewrite Hm. cbn [String.eqb Ascii.eqb Bool.eqb negb].
  rewrite bind_emit, He, E. reflexivity.
Qed.

Lemma handler_no_call env upstream request :
  accepted env request = None ->
  fetchCalls (snd (Part004.handler R env upstream request)) = [].
Proof.
  unfold accepted, Part004.handler.
  destruct (method request =? "OPTIONS")%string; [reflexivity|].
  destruct (method request =? "POST")%string eqn:Ep; cbn [negb andb];
    [|reflexivity].
  destruct (envIncomplete env) eqn:Ee; cbn [negb]; [reflexivity|].
  intros Hq. destruct (validateBody_invalid R request Hq) as (msg & log & E & Q).
  rewrite bind_emit, E. cbn [bind ret fst snd]. rewrite app_nil_r. exact Q.
Qed.

Lemma handlers_refused env upstream request :
  accepted env request = None ->
  Part004.handler R env upstream request = Api.handler R env upstream request
  /\ Api.handler R env upstream request
     = BruteForce.handler R env upstream request.
Proof.
  unfold accepted, Part004.handler, Api.handler, BruteForce.handler.
  destruct (method request =? "OPTIONS")%string; [split; reflexivity|].
  destruct (method request =? "POST")%string; cbn [negb andb];
    [|split; reflexivity].
  destruct (envIncomplete env); cbn [negb]; [split; reflexivity|].
  intros Hq. destruct (validateBody_invalid R request Hq) as (msg & log & E & _).
  rewrite E. split; reflexivity.
Qed.

Lemma handler_stage env upstream request response :
  fst (Part004.handler R env upstream request) = Ok response ->
  if (method request =? "OPTIONS")%string then response = corsPreflight
  else if negb (method request =? "POST")%string
  then response = methodNotAllowed (method request)
  else if envIncomplete env then response = configurationError
  else match validQuery request with
       | None => status response = 400
       | Some _ => status response = 200 \/ status response = 500
       end.
Proof.
  intros H.
  destruct (method request =? "OPTIONS")%string eqn:Eo.
  { unfold Part004.handler in H. rewrite Eo in H. injection H as <-. reflexivity. }
  destruct (method request =? "POST")%string eqn:Ep; cbn [negb].
  2:{ unfold Part004.handler in H. rewrite Eo, Ep in H. injection H as <-.
      reflexivity. }
  apply String.eqb_eq in Ep.
  destruct (envIncomplete env) eqn:Ee.
  { unfold Part004.handler in H. rewrite Eo, Ep, Ee in H. injection H as <-.
    reflexivity. }
  destruct (validQuery request) as [[[v s] e]|] eqn:Hq.
  - rewrite (handler_valid R env upstream request v s e Ep Ee Hq) in H.
    cbv zeta in H. cbn [fst] in H.
    destruct (fst (Part004.resolve R upstream _ _ v)) as [r|err] eqn:Er;
      injection H as <-.
    + left. eapply part004_resolve_status, Er.
    + right. reflexivity.
  - destruct (handler_invalid R env upstream request Ep Ee Hq) as (r & H' & S & _).
    rewrite H' in H. injection H as <-. exact S.
Qed.

Lemma refused_status env upstream request response :
  accepted env request = None ->
  fst (Part004.handler R env upstream request) = Ok response ->
  status response <> 200.
Proof.
  intros A H. apply handler_stage in H. unfold accepted in A.
  destruct (method request =? "OPTIONS")%string; [subst; discriminate|].
  destruct (method request =? "POST")%string; cbn [negb andb] in *;
    [|subst; discriminate].
  destruct (envIncomplete env); cbn [negb] in *; [subst; discriminate|].
  rewrite A in H. rewrite H. discriminate.
Qed.

Lemma validQuery_post v s e :
  v <> "" -> JS.dateRegex s = true -> JS.dateRegex e = true ->
  validQuery (post (Some v) (Some s) (Some e)) = Some (v, s, e).
Proof.
  intros Hv Hs He. unfold validQuery, post. cbn [requestBody villaId startDate endDate].
  apply String.eqb_neq in Hv. rewrite Hv, Hs, He. reflexivity.
Qed.

End WithRuntime.

End StageFacts.

(** ** Timestamps: a calendar day at a whole hour *)

Module AnchorFacts.

Import ES ESFacts Str StrFacts DateFacts.

Lemma stamp_parse n h :
  minDay <= n <= maxDay -> 0 <= h <= 23 ->
  parseIsoUtc (isoDate n ++ "T" ++ pad2 h ++ ":00:00.000Z")
  = Some (n * msPerDay + h * 3600000).
Proof.
  intros H Hh. destruct (fields_range n H) as (HY & HM & HD).
  assert (Hh' : 0 <= h <= 99) by lia.
  rewrite (isoDate_eq n H). unfold pad4, pad3, pad2.
  cbn [String.append parseIsoUtc].
  rewrite (num4_digits _ HY), (num2_digits _ HM), (num2_digits _ HD),
    (num2_digits _ Hh').
  cbn [parseFraction].
  change (num2 "0" "0") with (Some 0). change (num3 "0" "0" "0") with (Some 0).
  cbv iota beta. rewrite (calendar_check n).
  replace (MonthFromDay n + 1 - 1) with (MonthFromDay n) by lia.
  rewrite (MakeDay_of_day n).
  assert (L : (h <=? 23) = true) by (apply Z.leb_le; lia).
  rewrite L. change (0 <=? 59) with true. cbn [andb].
  unfold MakeDate, MakeTime. f_equal. lia.
Qed.

Lemma stamp_iso n h :
  minDay <= n <= maxDay -> 0 <= h <= 23 ->
  isoString (n * msPerDay + h * 3600000)
  = isoDate n ++ "T" ++ pad2 h ++ ":00:00.000Z".
Proof.
  intros H Hh. pose proof (year_range n H) as [Y0 Y1].
  assert (D : Day (n * msPerDay + h * 3600000) = n).
  { unfold Day, msPerDay. Z.div_mod_to_equations. lia. }
  assert (T : TimeWithinDay (n * msPerDay + h * 3600000) = h * 3600000).
  { unfold TimeWithinDay, msPerDay. Z.div_mod_to_equations. lia. }
  unfold isoString, YearFromTime, MonthFromTime, DateFromTime, HourFromTime,
    MinFromTime, SecFromTime, msFromTime.
  rewrite D, T.
  replace (h * 3600000 / 3600000 mod 24) with h by (Z.div_mod_to_equations; lia).
  replace (h * 3600000 / 60000 mod 60) with 0 by (Z.div_mod_to_equations; lia).
  replace (h * 3600000 / 1000 mod 60) with 0 by (Z.div_mod_to_equations; lia).
  replace (h * 3600000 mod 1000) with 0 by (Z.div_mod_to_equations; lia).
  rewrite (isoDate_eq n H). unfold isoYear.
  apply Z.leb_le in Y0, Y1. rewrite Y0, Y1. cbn [andb].
  unfold pad4, pad3, pad2. reflexivity.
Qed.

Lemma stamp_clip n h :
  minDay <= n <= maxDay -> 0 <= h <= 23 ->
  TimeClip (n * msPerDay + h * 3600000) = Some (n * msPerDay + h * 3600000).
Proof.
  intros H Hh. unfold TimeClip.
  assert (L : Z.abs (n * msPerDay + h * 3600000) <= 8640000000000000).
  { unfold minDay, maxDay in H.
    change (DayFromYear 0) with (-719528) in H.
    change (DayFromYear 10000) with 2932897 in H. unfold msPerDay. lia. }
  apply Z.leb_le in L. rewrite L. reflexivity.
Qed.

Lemma padStart2_hour h :
  0 <= h <= 23 -> BruteForce.padStart2 (Str.ofZ h) = pad2 h.
Proof.
  intros H.
  assert (E : exists k, (k < 24)%nat /\ h = Z.of_nat k)
    by (exists (Z.to_nat h); lia).
  destruct E as (k & B & ->). clear H.
  do 24 (destruct k as [|k]; [vm_compute; reflexivity|]). lia.
Qed.

Lemma formatTimeWithHour_eq s h :
  0 <= h <= 23 ->
  BruteForce.formatTimeWithHour s h = s ++ "T" ++ pad2 h ++ ":00:00.000Z".
Proof.
  intros H. unfold BruteForce.formatTimeWithHour. cbv zeta.
  rewrite (padStart2_hour h H). reflexivity.
Qed.

Section WithRuntime.

Variable R : Runtime.

Lemma formatToMewsUtc_calendar n :
  minDay <= n <= maxDay ->
  Api.formatToMewsUtc R (isoDate n) = (Ok (isoDate n ++ "T15:00:00.000Z"), []).
Proof.
  intros H. unfold Api.formatToMewsUtc. cbv zeta. unfold JS.newDate.
  rewrite (parse_1500 n H).
  change 54000000 with (15 * 3600000).
  rewrite (stamp_clip n 15 H) by lia.
  cbn [ES.toISOString lift tryCatch].
  rewrite (stamp_iso n 15 H) by lia. reflexivity.
Qed.

End WithRuntime.

End AnchorFacts.

(** ** The scan of the versions without the workaround *)

Module LooseFacts.

Import MFacts SetFacts HandlerFacts.

Section WithRuntime.

Variable R : Runtime.

Lemma forEachLoose_spec avail dates :
  forall index set set',
    forEachLoose R avail dates index set = Ok set' ->
    (NoDup set -> NoDup set')
    /\ forall d, In d set' <->
                 In d set
                 \/ exists i ts,
                      nth_error dates i = Some (VStr ts)
                      /\ JS.leZero R (JS.index avail (index + i)) = true
                      /\ d = String.substring 0 10 ts.
Proof.
  induction dates as [|dateUtc rest IH]; intros index set set' H.
  - cbn in H. injection H as <-. split; [auto|]. intros d. split; [auto|].
    intros [H|(i & ts & Hi & _)]; [exact H|]. destruct i; discriminate.
  - cbn [forEachLoose] in H.
    destruct (JS.substring10 dateUtc) as [dateString|e] eqn:ES; [|discriminate].
    cbn [rbind] in H. apply IH in H as [N C].
    assert (TS : exists ts, dateUtc = VStr ts /\ dateString = String.substring 0 10 ts).
    { destruct dateUtc; try discriminate. injection ES as <-. eauto. }
    destruct TS as (ts & -> & ->).
    destruct (JS.leZero R (JS.index avail index)) eqn:L.
    + split; [intros ND; apply N, add_NoDup, ND|].
      intros d. rewrite C, add_In. split.
      * intros [[->|H]|(i & ts' & H1 & H2 & H3)].
        -- right. exists 0%nat, ts. rewrite Nat.add_0_r. cbn. auto.
        -- left. exact H.
        -- right. exists (S i), ts'. rewrite Nat.add_succ_r. cbn. auto.
      * intros [H|([|i] & ts' & H1 & H2 & H3)].
        -- left. right. exact H.
        -- cbn in H1. injection H1 as <-. left. left. exact H3.
        -- right. exists i, ts'. rewrite Nat.add_succ_r in H2. cbn in H1. auto.
    + split; [exact N|]. intros d. rewrite C. split.
      * intros [H|(i & ts' & H1 & H2 & H3)]; [left; exact H|].
        right. exists (S i), ts'. rewrite Nat.add_succ_r. cbn. auto.
      * intros [H|([|i] & ts' & H1 & H2 & H3)].
        -- left. exact H.
        -- rewrite Nat.add_0_r in H2. congruence.
        -- right. exists i, ts'. rewrite Nat.add_succ_r in H2. cbn in H1. auto.
Qed.

Lemma nth_numbers a i :
  forallb isNumber a = true ->
  (exists n, nth i a VUndefined = VNum n) \/ nth i a VUndefined = VUndefined.
Proof.
  revert i. induction a as [|x a IH]; intros i H.
  - right. destruct i; reflexivity.
  - cbn [forallb] in H. apply andb_true_iff in H as [Hx Ha]. destruct i as [|i].
    + destruct x; try discriminate. left. eexists. reflexivity.
    + cbn [nth]. apply IH, Ha.
Qed.

(** On a series of numbers the two scans are the same function. *)
Lemma forEachLoose_numbers a dates :
  forallb isNumber a = true ->
  forall index set,
    forEachLoose R (VArr a) dates index set = Part004.forEachDate a dates index set.
Proof.
  intros Ha. induction dates as [|dateUtc rest IH]; intros index set; [reflexivity|].
  cbn [forEachLoose Part004.forEachDate JS.index].
  destruct (JS.substring10 dateUtc) as [dateString|e]; [|reflexivity].
  cbn [rbind]. rewrite IH.
  destruct (nth_numbers a index Ha) as [[n ->]| ->]; reflexivity.
Qed.

Lemma processLoose_aligned mismatch notFound unexpected mewsData v a dates :
  Report.wellFormed mewsData = true ->
  timeUnitStarts mewsData = Some dates ->
  Report.series mewsData v = Some (VArr a) ->
  List.length a = List.length dates ->
  processLoose R mismatch notFound unexpected mewsData v
  = lift (forEachLoose R (VArr a) dates 0 JSSet.empty).
Proof.
  unfold Report.wellFormed.
  destruct (Report.timeUnits mewsData) as [dates'|] eqn:ET; [|discriminate].
  destruct (Report.categories mewsData) as [cats|] eqn:EC; [|discriminate].
  intros Hobj Ht Hs Hl. destruct mewsData as [| | | | | |fields]; try discriminate.
  unfold Report.categories in EC. unfold timeUnitStarts in Ht.
  unfold processLoose. cbn [JS.get]. rewrite bind_lift_ok.
  destruct (JS.lookup fields "CategoryAvailabilities") as [| | | | |cats'|] eqn:ELC;
    try discriminate.
  injection EC as ->. cbn [JS.truthy JS.isArray andb]. rewrite bind_lift_ok.
  destruct (JS.lookup fields "TimeUnitStartsUtc") as [| |b|n|str|tus|g] eqn:ELT;
    try discriminate.
  injection Ht as ->. cbn [JS.truthy JS.isArray andb JS.elements].
  rewrite (find_objects v cats Hobj), bind_lift_ok.
  unfold Report.series, Report.categories in Hs. rewrite ELC in Hs.
  destruct (List.find (Report.isCategory v) cats) as [c|] eqn:EF; [|discriminate].
  destruct c as [| | | | | |f]; try discriminate.
  injection Hs as Hs. cbn [JS.truthy JS.get]. rewrite bind_lift_ok, Hs.
  cbn [JS.truthy andb lengthIs JS.get rbind String.eqb Ascii.eqb Bool.eqb JS.lengthOf].
  rewrite Hl, Z.eqb_refl, bind_lift_ok. reflexivity.
Qed.

Lemma processReport_aligned mewsData v a dates :
  Report.wellFormed mewsData = true ->
  timeUnitStarts mewsData = Some dates ->
  Report.series mewsData v = Some (VArr a) ->
  List.length a = List.length dates ->
  Part004.processReport mewsData v
  = lift (Part004.forEachDate a dates 0 JSSet.empty).
Proof.
  intros W Ht Hs Hl.
  destruct (processReport_wellFormed mewsData v W) as (cats & dates' & Hc & Ht' & E).
  assert (dates' = dates).
  { destruct mewsData as [| | | | | |fields]; try discriminate.
    unfold Report.timeUnits in Ht'. unfold timeUnitStarts in Ht.
    destruct (JS.lookup fields "TimeUnitStartsUtc"); try discriminate.
    cbn [JS.truthy] in Ht'. congruence. }
  subst dates'.
  unfold Report.series in Hs. rewrite Hc in Hs.
  destruct (List.find (Report.isCategory v) cats) as [c|]; [|discriminate].
  destruct c as [| | | | | |f]; try discriminate. injection Hs as Hs.
  rewrite Hs, Hl, Nat.eqb_refl in E. exact E.
Qed.

End WithRuntime.

End LooseFacts.

(** ** The answers of the three versions to an accepted query *)

Module ProxyFacts.

Import MFacts SetFacts HandlerFacts StageFacts.

Section WithRuntime.

Variable R : Runtime.

Lemma fst_fetch_bind {B : Type} upstream ep p (k : Z * string -> M B) :
  fst (bind (fetch upstream ep p) k)
  = match upstream ep p with
    | Rejected => Throw (Raised FetchFailed)
    | Responded st text => fst (k (st, text))
    end.
Proof.
  rewrite fst_bind. unfold fetch. rewrite bind_emit. cbn [fst].
  destruct (upstream ep p); reflexivity.
Qed.

Lemma accepted_inv env request v s e :
  accepted env request = Some (v, s, e) ->
  method request = "POST" /\ envIncomplete env = false
  /\ validQuery request = Some (v, s, e).
Proof.
  unfold accepted.
  destruct (method request =? "POST")%string eqn:Ep; [|discriminate].
  destruct (envIncomplete env); [discriminate|]. cbn [negb andb].
  apply String.eqb_eq in Ep. auto.
Qed.


Lemma api_handler_valid env upstream request v s e first last :
  method request = "POST" -> envIncomplete env = false ->
  validQuery request = Some (v, s, e) ->
  fst (Api.formatToMewsUtc R s) = Ok first ->
  fst (Api.formatToMewsUtc R e) = Ok last ->
  fst (Api.handler R env upstream request)
  = match fst (Api.resolve R upstream (endpointOf env) (payloadOf env first last) v) with
    | Ok response => Ok response
    | Throw _ => Ok Api.internalError
    end.
Proof.
  intros Hm He Hq H1 H2.
  destruct (Api.formatToMewsUtc R s) as [[first'|err1] l1] eqn:E1; [|discriminate].
  destruct (Api.formatToMewsUtc R e) as [[last'|err2] l2] eqn:E2; [|discriminate].
  cbn [fst] in H1, H2. injection H1 as ->. injection H2 as ->.
  unfold Api.handler. rewrite Hm. cbn [String.eqb Ascii.eqb Bool.eqb negb].
  rewrite bind_emit, He, (validateBody_valid R _ _ _ _ Hq).
  cbn [bind fst snd]. rewrite E1, E2. cbn [bind fst snd emit].
  fold (endpointOf env). fold (payloadOf env first last).
  destruct (Api.resolve R upstream _ _ v) as [[r|err] l]; reflexivity.
Qed.

Lemma bruteForce_handler_valid env upstream request v s e :
  method request = "POST" -> envIncomplete env = false ->
  validQuery request = Some (v, s, e) ->
  BruteForce.handler R env upstream request
  = let t := BruteForce.tryHours R env upstream (endpointOf env) v s e
               BruteForce.possibleHours in
    (fst t,
     Console LLog "--- Function Invoked ---"
     :: Console LLog "Received Request Body:" :: snd t).
Proof.
  intros Hm He Hq.
  unfold BruteForce.handler. rewrite Hm. cbn [String.eqb Ascii.eqb Bool.eqb negb].
  rewrite bind_emit, He, (validateBody_valid R _ _ _ _ Hq).
  cbn [bind fst snd]. fold (endpointOf env). cbv zeta.
  destruct (BruteForce.tryHours R env upstream _ v s e _) as [r l]. reflexivity.
Qed.








End WithRuntime.

End ProxyFacts.

(** ** The probing loop *)

Module ProbeFacts.

Import MFacts SetFacts HandlerFacts StageFacts ProxyFacts.

Section WithRuntime.

Variable R : Runtime.

Lemma attempt_calls env upstream ep v s e h :
  fetchCalls (snd (BruteForce.attempt R env upstream ep v s e h))
  = [hourPayload env s e h].
Proof.
  unfold BruteForce.attempt. cbv zeta. rewrite !bind_emit. cbn [snd].
  rewrite !fetchCalls_console. fold (payloadOf env (BruteForce.formatTimeWithHour s h)
                                       (BruteForce.formatTimeWithHour e h)).
  fold (hourPayload env s e h).
  match goal with
  | |- context [bind (fetch upstream ?ep ?p) ?k] => set (K := k)
  end.
  assert (Q : forall a, quiet (K a)).
  { intros [st text]. unfold K, BruteForce.processAvailabilityData.
    repeat first
      [ apply quiet_ret | apply quiet_lift | apply quiet_console | apply quiet_throw
      | apply quiet_processLoose
      | apply quiet_bind; [|intros]
      | match goal with
        | |- quiet (if ?c then _ else _) => destruct c
        | |- quiet (match ?x with _ => _ end) => destruct x
        end ]. }
  clearbody K. unfold fetch.
  destruct (upstream _ _) as [|st text].
  - reflexivity.
  - pose proof (Q (st, text)) as Q'. unfold quiet in Q'.
    cbn [bind emit ret fst snd app].
    destruct (K (st, text)) as [[r|err] lk]; cbn [fst snd app tryCatch bind emit ret];
      cbn [snd] in Q';
      repeat rewrite ?fetchCalls_console, ?fetchCalls_fetch, ?fetchCalls_app;
      rewrite Q'; reflexivity.
Qed.

(** A turn of the loop returns from the handler only with the 200 answer of
    its hour, and only when the upstream accepted the hour; it never
    throws. *)
Lemma attempt_result env upstream ep v s e h :
  (exists set st text,
     fst (BruteForce.attempt R env upstream ep v s e h)
     = Ok (Some (BruteForce.success h set))
     /\ upstream ep (hourPayload env s e h) = Responded st text
     /\ responseOk st = true)
  \/ fst (BruteForce.attempt R env upstream ep v s e h) = Ok None.
Proof.
  unfold BruteForce.attempt. cbv zeta. rewrite !bind_emit. cbn [fst].
  rewrite fst_tryCatch, fst_fetch_bind.
  fold (payloadOf env (BruteForce.formatTimeWithHour s h)
          (BruteForce.formatTimeWithHour e h)).
  fold (hourPayload env s e h).
  destruct (upstream ep (hourPayload env s e h)) as [|st text] eqn:U.
  - right. rewrite bind_emit. reflexivity.
  - rewrite bind_emit. cbn [fst].
    destruct (responseOk st) eqn:Eok.
    + rewrite bind_emit. cbn [fst]. rewrite fst_bind.
      destruct (jsonParse R text) as [mewsData|].
      * cbn [ret fst]. rewrite bind_emit. cbn [fst]. rewrite fst_bind.
        destruct (fst (BruteForce.processAvailabilityData R mewsData v))
          as [set|err].
        -- rewrite bind_emit. cbn [fst ret]. left. exists set, st, text. auto.
        -- right. rewrite bind_emit. reflexivity.
      * cbn [throw fst]. right. rewrite bind_emit. reflexivity.
    + right. rewrite bind_emit. reflexivity.
Qed.

Lemma attempt_refused env upstream ep v s e h :
  match upstream ep (hourPayload env s e h) with
  | Rejected => True
  | Responded st _ => responseOk st = false
  end ->
  fst (BruteForce.attempt R env upstream ep v s e h) = Ok None.
Proof.
  intros H.
  destruct (attempt_result env upstream ep v s e h)
    as [(set & st & text & _ & U & Eok)|N]; [|exact N].
  rewrite U in H. congruence.
Qed.

(** The loop over a list of hours: either every turn goes on and the answer
    is the 500 of the end of the loop, or the loop returns at the first hour
    whose turn returns, with the 200 answer of that hour; the calls are
    those of the hours tried, in order. *)
Lemma tryHours_outcome env upstream ep v s e hours :
  (fst (BruteForce.tryHours R env upstream ep v s e hours)
   = Ok BruteForce.noHourWorked
   /\ fetchCalls (snd (BruteForce.tryHours R env upstream ep v s e hours))
      = List.map (hourPayload env s e) hours
   /\ Forall (fun h => fst (BruteForce.attempt R env upstream ep v s e h) = Ok None)
             hours)
  \/ (exists before h after set st text,
        hours = (before ++ h :: after)%list
        /\ fst (BruteForce.tryHours R env upstream ep v s e hours)
           = Ok (BruteForce.success h set)
        /\ fetchCalls (snd (BruteForce.tryHours R env upstream ep v s e hours))
           = List.map (hourPayload env s e) (before ++ [h])%list
        /\ Forall (fun h' => fst (BruteForce.attempt R env upstream ep v s e h')
                             = Ok None) before
        /\ upstream ep (hourPayload env s e h) = Responded st text
        /\ responseOk st = true).
Proof.
  induction hours as [|h rest IH].
  - left. cbn. auto.
  - cbn [BruteForce.tryHours]. rewrite fst_bind, snd_bind.
    pose proof (attempt_calls env upstream ep v s e h) as C.
    destruct (attempt_result env upstream ep v s e h)
      as [(set & st & text & E & U & Eok)|N].
    + right. exists [], h, rest, set, st, text. rewrite E. cbn [ret fst snd].
      rewrite app_nil_r, C. repeat split; auto.
    + rewrite N. rewrite fetchCalls_app, C.
      destruct IH as [(F & L & A)|(before & h' & after & set & st & text & -> & F & L & A & U)].
      * left. rewrite F, L. repeat split; auto.
      * right. exists (h :: before), h', after, set, st, text.
        rewrite F, L. repeat split; auto; tauto.
Qed.

Lemma possibleHours_split before h after :
  BruteForce.possibleHours = (before ++ h :: after)%list ->
  h = Z.of_nat (List.length before)
  /\ (List.length before < 24)%nat
  /\ (before ++ [h])%list = List.map Z.of_nat (seq 0 (S (List.length before)))
  /\ before = List.map Z.of_nat (seq 0 (List.length before)).
Proof.
  unfold BruteForce.possibleHours. intros E.
  assert (L : (List.length before < 24)%nat).
  { apply (f_equal (@List.length Z)) in E.
    rewrite length_map, length_seq, length_app in E. cbn in E. lia. }
  assert (N : nth_error (List.map Z.of_nat (seq 0 24)) (List.length before) = Some h).
  { rewrite E, nth_error_app2, Nat.sub_diag by lia. reflexivity. }
  rewrite nth_error_map, nth_error_seq in N.
  assert (T : (List.length before <? 24)%nat = true) by (apply Nat.ltb_lt, L).
  rewrite T in N. cbn in N. injection N as N.
  assert (B : before = List.map Z.of_nat (seq 0 (List.length before))).
  { pose proof (seq_app (List.length before) (24 - List.length before) 0) as S24.
    replace (List.length before + (24 - List.length before))%nat with 24%nat
      in S24 by lia.
    rewrite S24, map_app in E.
    apply (f_equal (firstn (List.length before))) in E.
    rewrite !firstn_app, firstn_all, length_map, length_seq, Nat.sub_diag in E.
    cbn [firstn] in E. rewrite !app_nil_r in E.
    rewrite firstn_all2 in E by (rewrite length_map, length_seq; lia).
    symmetry. exact E. }
  repeat split; [auto|exact L| |exact B].
  rewrite seq_S, map_app. cbn [List.map Nat.add]. rewrite <- B, <- N. reflexivity.
Qed.

End WithRuntime.

End ProbeFacts.

(** ** Dates that match the pattern and parse are calendar days *)

Module CalendarFacts.

Import ES ESFacts Str StrFacts DateFacts.









End CalendarFacts.

(** ** What an answer of the version with the workaround carries *)

Module AnswerFacts.

Import MFacts SetFacts HandlerFacts StageFacts ProxyFacts.

Section WithRuntime.

Variable R : Runtime.

Lemma resolve_response upstream ep p v response :
  fst (Part004.resolve R upstream ep p v) = Ok response ->
  exists out,
    response = {| status := 200; headers := successHeaders;
                  body := unavailableBody out |}.
Proof.
  unfold Part004.resolve. intros H. bind_inv H. destruct a as [st text].
  bind_inv H. destruct (negb (responseOk st)).
  - do 2 bind_inv H. discriminate.
  - do 7 bind_inv H. cbn in H. injection H as <-. eexists. reflexivity.
Qed.

Lemma resolve_refusal upstream ep p v st text :
  upstream ep p = Responded st text -> responseOk st = false ->
  match jsonParse R text with
  | Some j => isNullish j = false
  | None => True
  end ->
  fst (Part004.resolve R upstream ep p v)
  = Throw (Thrown ("Mews API request failed with status " ++ Str.ofZ st
                   ++ ". Message: "
                   ++ match jsonParse R text with
                      | Some (VObj fields) =>
                          if JS.truthy (JS.lookup fields "Message")
                          then JS.toString (JS.lookup fields "Message")
                          else text
                      | _ => text
                      end)).
Proof.
  intros Hu Hok Hj. unfold Part004.resolve.
  rewrite fst_fetch_bind, Hu. rewrite bind_emit. cbn [fst]. rewrite Hok.
  cbn [negb]. rewrite bind_emit. cbn [fst]. rewrite fst_bind.
  destruct (jsonParse R text) as [[| |b|n|str|l|fields]|];
    try discriminate; reflexivity.
Qed.

End WithRuntime.

End AnswerFacts.

(** * The scenarios of the specification, run on the model *)

(** Day numbers and their date strings. *)
Example isoDate_samples :
  isoDate 0 = "1970-01-01" /\ isoDate 20179 = "2025-04-01"
  /\ isoDate minDay = "0000-01-01" /\ isoDate maxDay = "9999-12-31".
Proof. repeat split; vm_compute; reflexivity. Qed.

(** An empty raw set is corrected to an empty set. *)
Example workaround_empty (R : Runtime) : Part004.workaround R [] = (Ok [], []).
Proof. reflexivity. Qed.

(** Counts 1, 1, 0, 0, 1 over 2025-04-01 .. 2025-04-05: one run of two days,
    corrected to three. *)
Example scenario_one_run :
  fst (Part004.handler exampleRuntime exampleEnv (answering 200 "report-one-run")
         aprilRequest)
  = Ok {| status := 200; headers := successHeaders;
          body := unavailableBody ["2025-04-03"; "2025-04-04"; "2025-04-05"] |}.
Proof. vm_compute. reflexivity. Qed.

(** Counts 0, 1, 0, 1, 0: three runs of one day, corrected to the six days
    2025-04-01 .. 2025-04-06. *)
Example scenario_three_runs :
  fst (Part004.handler exampleRuntime exampleEnv (answering 200 "report-three-runs")
         aprilRequest)
  = Ok {| status := 200; headers := successHeaders;
          body := unavailableBody ["2025-04-01"; "2025-04-02"; "2025-04-03";
                                   "2025-04-04"; "2025-04-05"; "2025-04-06"] |}.
Proof. vm_compute. reflexivity. Qed.

(** The workaround crosses the ends of months and years, and 29 February. *)
Example addOneDay_calendar :
  Part004.addOneDay exampleRuntime "2024-02-28" = Ok "2024-02-29"
  /\ Part004.addOneDay exampleRuntime "2025-02-28" = Ok "2025-03-01"
  /\ Part004.addOneDay exampleRuntime "2025-12-31" = Ok "2026-01-01"
  /\ Part004.addOneDay exampleRuntime "2025-13-40" = Throw (Raised RangeErrorInvalidTime).
Proof. repeat split; vm_compute; reflexivity. Qed.

(** A series shorter than the boundary sequence: nothing is marked. *)
Example scenario_short_series :
  fst (Part004.handler exampleRuntime exampleEnv (answering 200 "report-short-series")
         aprilRequest)
  = Ok {| status := 200; headers := successHeaders; body := unavailableBody [] |}.
Proof. vm_compute. reflexivity. Qed.

(** * The claims *)

Import MFacts SetFacts SortFacts StrFacts DateFacts LoopFacts DayFacts.
Import HandlerFacts RangeFacts.

(** C1, counterexample.  The transform is not idempotent: run on the single
    raw day 2025-04-03 it returns two days, and run again on these two it
    returns three. *)
Lemma workaround_grows_on_second_pass :
  fst (Part004.workaround exampleRuntime ["2025-04-03"])
  = Ok ["2025-04-03"; "2025-04-04"]
  /\ fst (Part004.workaround exampleRuntime ["2025-04-03"; "2025-04-04"])
     = Ok ["2025-04-03"; "2025-04-04"; "2025-04-05"].
Proof. split; vm_compute; reflexivity. Qed.

(** C1, as amended.  On a raw set of calendar days each pass of the
    boundary-correction transform returns the correction of section 4.2 of
    its input (the day after the last day of every run is added); the second
    output holds the first, and the two are equal only for the empty raw
    set. *)
Theorem workaround_twice (R : Runtime) (raw : list string) (days : list Z) :
  StronglySorted Z.lt days ->
  Forall (fun n => minDay <= n < maxDay - 1) days ->
  Permutation raw (List.map isoDate days) ->
  exists once twice,
    fst (Part004.workaround R raw) = Ok once
    /\ fst (Part004.workaround R once) = Ok twice
    /\ once = List.map isoDate (Spec.correction days)
    /\ twice = List.map isoDate (Spec.correction (Spec.correction days))
    /\ incl once twice
    /\ (twice = once <-> raw = []).
Proof.
  intros S F P.
  assert (F1 : Forall inYears days).
  { eapply Forall_impl; [|exact F]. unfold inYears. intros n Hn. cbv beta in Hn. lia. }
  assert (S2 : StronglySorted Z.lt (Spec.correction days)) by (apply correction_sorted, S).
  assert (F2 : Forall inYears (Spec.correction days)).
  { apply Forall_forall. intros n Hn. apply (correction_In days S) in Hn.
    rewrite Forall_forall in F. unfold inYears.
    destruct Hn as [Hn|Hn]; apply F in Hn; lia. }
  pose proof (workaround_days R raw days S F1 P) as E1.
  pose proof (workaround_days R _ _ S2 F2 (Permutation_refl _)) as E2.
  exists (List.map isoDate (Spec.correction days)),
    (List.map isoDate (Spec.correction (Spec.correction days))).
  repeat split; [exact E1|exact E2|exact (workaround_superset R _ _ E2)| |].
  - intros E. apply (f_equal (@List.length string)) in E. rewrite !length_map in E.
    destruct (Spec.correction days) as [|c cs] eqn:EC.
    + destruct days as [|d ds]; [apply Permutation_nil, Permutation_sym, P|].
      pose proof (correction_length (d :: ds) ltac:(discriminate)) as L.
      rewrite EC in L. cbn in L. lia.
    + pose proof (correction_length (c :: cs) ltac:(discriminate)). lia.
  - intros ->. apply Permutation_nil in P. destruct days; [reflexivity|discriminate].
Qed.

Lemma workaround_twice_witness :
  exists once twice,
    fst (Part004.workaround exampleRuntime ["2025-04-03"]) = Ok once
    /\ fst (Part004.workaround exampleRuntime once) = Ok twice
    /\ once = List.map isoDate (Spec.correction [20181])
    /\ twice = List.map isoDate (Spec.correction (Spec.correction [20181]))
    /\ incl once twice
    /\ (twice = once <-> ["2025-04-03"] = []).
Proof.
  apply (workaround_twice exampleRuntime ["2025-04-03"] [20181]).
  - repeat constructor.
  - repeat constructor; vm_compute; congruence.
  - vm_compute. apply Permutation_refl.
Defined.

(** C3.  A raw set that is one run of [k >= 1] consecutive days from [d] on,
    inserted in any order, is corrected to the [k + 1] consecutive days from
    [d] on. *)
Theorem single_run_gains_one_day (R : Runtime) (d : Z) (k : nat) (raw : list string) :
  (1 <= k)%nat -> minDay <= d -> d + Z.of_nat k <= maxDay ->
  Permutation raw (List.map isoDate (daysFrom d k)) ->
  fst (Part004.workaround R raw) = Ok (List.map isoDate (daysFrom d (S k))).
Proof.
  intros Hk Hd He P. destruct k as [|k]; [lia|].
  rewrite <- correction_run. apply workaround_days; [apply daysFrom_sorted| |exact P].
  apply Forall_forall. intros n Hn. apply daysFrom_In in Hn. unfold inYears. lia.
Qed.

Lemma single_run_gains_one_day_witness :
  fst (Part004.workaround exampleRuntime ["2025-04-04"; "2025-04-03"])
  = Ok ["2025-04-03"; "2025-04-04"; "2025-04-05"].
Proof.
  apply (single_run_gains_one_day exampleRuntime 20181 2 ["2025-04-04"; "2025-04-03"]).
  - repeat constructor.
  - vm_compute. congruence.
  - vm_compute. congruence.
  - vm_compute. apply perm_swap.
Defined.

(** C8.  Whenever the transform returns, every raw day is in its output; and
    on a raw set of calendar days it does return. *)
Theorem workaround_keeps_raw_days (R : Runtime) (raw : list string) :
  (forall out, fst (Part004.workaround R raw) = Ok out -> incl raw out)
  /\ (forall days,
        StronglySorted Z.lt days -> Forall inYears days ->
        Permutation raw (List.map isoDate days) ->
        exists out, fst (Part004.workaround R raw) = Ok out /\ incl raw out).
Proof.
  split; [apply workaround_superset|].
  intros days S F P. eexists. split; [apply (workaround_days R raw days S F P)|].
  apply (workaround_superset R), (workaround_days R raw days S F P).
Qed.

Lemma workaround_keeps_raw_days_witness :
  exists out,
    fst (Part004.workaround exampleRuntime ["2025-04-05"; "2025-04-01"]) = Ok out
    /\ incl ["2025-04-05"; "2025-04-01"] out.
Proof.
  apply (proj2 (workaround_keeps_raw_days exampleRuntime ["2025-04-05"; "2025-04-01"])
           [20179; 20183]).
  - repeat constructor.
  - repeat constructor; vm_compute; congruence.
  - vm_compute. apply perm_swap.
Defined.

(** C10.  The handler is a function of the runtime, the configuration, the
    request and the answers of the upstream; the array it sends back depends
    on the elements of the raw set only, not on their insertion order, and is
    strictly ascending. *)
Theorem handler_deterministic (R : Runtime) (env : Env) (request : Request) :
  (forall up1 up2,
     (forall ep p, up1 ep p = up2 ep p) ->
     Part004.handler R env up1 request = Part004.handler R env up2 request)
  /\ (forall raw1 raw2,
        Permutation raw1 raw2 ->
        Part004.workaround R raw1 = Part004.workaround R raw2)
  /\ (forall raw out,
        fst (Part004.workaround R raw) = Ok out -> StronglySorted Str.lt out).
Proof.
  split; [intros up1 up2; apply handler_ext|].
  split; [apply workaround_order|apply workaround_sorted].
Qed.

Lemma handler_deterministic_witness :
  Part004.workaround exampleRuntime ["2025-04-04"; "2025-04-03"]
  = Part004.workaround exampleRuntime ["2025-04-03"; "2025-04-04"].
Proof.
  apply (proj1 (proj2 (handler_deterministic exampleRuntime exampleEnv aprilRequest))).
  apply perm_swap.
Defined.

(** C9.  On a report whose series for the category is aligned with the
    boundaries, the raw set holds the date part of boundary [i] exactly when
    entry [i] of the series is a number and is at most zero; an entry that is
    not a number marks nothing.  The scan returns when every boundary is a
    string. *)
Theorem only_nonpositive_numbers_mark_days
  (mewsData : Value) (v : string) (a dates : list Value) :
  Report.wellFormed mewsData = true ->
  Report.series mewsData v = Some (VArr a) ->
  Report.timeUnits mewsData = Some dates ->
  List.length a = List.length dates ->
  (Forall (fun t => exists ts, t = VStr ts) dates ->
   exists raw, fst (Part004.processReport mewsData v) = Ok raw)
  /\ (forall raw,
        fst (Part004.processReport mewsData v) = Ok raw ->
        forall d,
          In d raw <->
          exists i ts c,
            nth_error dates i = Some (VStr ts)
            /\ nth_error a i = Some (VNum c)
            /\ c <= 0 /\ d = String.substring 0 10 ts).
Proof.
  intros W Hs Ht Hl.
  destruct (processReport_wellFormed mewsData v W) as (cats & dates' & Hc & Ht' & E).
  rewrite Ht in Ht'. injection Ht' as <-.
  unfold Report.series in Hs. rewrite Hc in Hs.
  destruct (List.find (Report.isCategory v) cats) as [c|]; [|discriminate].
  destruct c as [| | | | | |f]; try discriminate. injection Hs as Hs.
  rewrite Hs, Hl, Nat.eqb_refl in E. rewrite E. cbn [lift fst]. split.
  - intros F. apply forEachDate_total, F.
  - intros raw H d. destruct (forEachDate_spec a dates 0 JSSet.empty raw H) as [_ C].
    rewrite C. cbn [JSSet.empty In Nat.add]. tauto.
Qed.

Lemma only_nonpositive_numbers_mark_days_witness :
  (Forall (fun t => exists ts, t = VStr ts) (JS.elements aprilBoundaries) ->
   exists raw, fst (Part004.processReport mixedReport "cat-1") = Ok raw)
  /\ (forall raw,
        fst (Part004.processReport mixedReport "cat-1") = Ok raw ->
        forall d,
          In d raw <->
          exists i ts c,
            nth_error (JS.elements aprilBoundaries) i = Some (VStr ts)
            /\ nth_error [VNull; VStr "0"; VNum 0; VNum (-1); VNum 3] i = Some (VNum c)
            /\ c <= 0 /\ d = String.substring 0 10 ts).
Proof.
  apply (only_nonpositive_numbers_mark_days mixedReport "cat-1"
           [VNull; VStr "0"; VNum 0; VNum (-1); VNum 3]
           (JS.elements aprilBoundaries)); reflexivity.
Defined.

(** C6.  When the upstream answers a valid query with a well-formed report
    in which the category is absent, or its series is not as long as the
    boundary sequence, the handler answers 200 with an empty [unavailable]
    array and logs a warning. *)
Theorem anomaly_gives_empty_result
  (R : Runtime) (env : Env) (upstream : string -> Payload -> FetchOutcome)
  (request : Request) (v s e : string) (st : Z) (text : string) (mewsData : Value) :
  method request = "POST" -> envIncomplete env = false ->
  validQuery request = Some (v, s, e) ->
  upstream (endpointOf env)
    (payloadOf env (s ++ "T22:00:00.000Z") (e ++ "T22:00:00.000Z"))
  = Responded st text ->
  responseOk st = true -> jsonParse R text = Some mewsData ->
  Report.wellFormed mewsData = true -> Report.anomaly mewsData v = true ->
  fst (Part004.handler R env upstream request)
  = Ok {| status := 200; headers := successHeaders; body := unavailableBody [] |}
  /\ exists w, In (Console LWarn w) (snd (Part004.handler R env upstream request)).
Proof.
  intros Hm He Hq Hu Hok Hj W A.
  rewrite (handler_valid R env upstream request v s e Hm He Hq). cbv zeta.
  rewrite (resolve_success R upstream _ _ v st text mewsData Hu Hok Hj). cbv zeta.
  destruct (processReport_wellFormed mewsData v W) as (cats & dates & Hc & Ht & E).
  assert (P : exists w, Part004.processReport mewsData v
                        = (Ok JSSet.empty, [Console LWarn w])).
  { rewrite E. unfold Report.anomaly, Report.series in A. rewrite Hc, Ht in A.
    destruct (List.find (Report.isCategory v) cats) as [c|] eqn:EF; [|eauto].
    apply find_some in EF as [_ Hcat].
    destruct c as [| | | | | |f]; try discriminate. cbn [JS.lookup] in A |- *.
    destruct (JS.lookup f "Availabilities") as [| |b|n|str|a|g]; eauto.
    apply negb_true_iff in A. rewrite A. eauto. }
  destruct P as (w & P). rewrite P. cbn [fst snd].
  split.
  - reflexivity.
  - exists w. cbn. auto 10.
Qed.

Lemma anomaly_gives_empty_result_witness :
  fst (Part004.handler exampleRuntime exampleEnv (answering 200 "report-other-category")
         aprilRequest)
  = Ok {| status := 200; headers := successHeaders; body := unavailableBody [] |}
  /\ exists w,
       In (Console LWarn w)
          (snd (Part004.handler exampleRuntime exampleEnv
                  (answering 200 "report-other-category") aprilRequest)).
Proof.
  apply (anomaly_gives_empty_result exampleRuntime exampleEnv
           (answering 200 "report-other-category") aprilRequest
           "cat-1" "2025-04-01" "2025-04-05" 200 "report-other-category"
           (reportWith aprilBoundaries "cat-2" (List.map VNum [0; 0; 0; 0; 0])));
    reflexivity.
Defined.

(** C4, counterexample.  The query asks for 2025-04-01 to 2025-04-05; the
    report also covers 2025-03-31, where the count is zero; the answer holds
    2025-03-31, which is before the start date. *)
Lemma output_outside_queried_range :
  fst (Part004.handler exampleRuntime exampleEnv (answering 200 "report-wider-range")
         aprilRequest)
  = Ok {| status := 200; headers := successHeaders;
          body := unavailableBody ["2025-03-31"; "2025-04-01"] |}
  /\ Str.lt "2025-03-31" "2025-04-01".
Proof. split; vm_compute; reflexivity. Qed.

(** C4, as amended.  For a valid query every 200 answer carries a strictly
    ascending (hence duplicate-free) array of date strings; its entries lie in
    [startDate, endDate + 1] provided the date parts of the boundaries the
    upstream returns lie in [startDate, endDate]: the handler does not filter
    them. *)
Theorem output_sorted_and_bounded
  (R : Runtime) (env : Env) (upstream : string -> Payload -> FetchOutcome)
  (request : Request) (v : string) (s e : Z) (response : Response) :
  method request = "POST" -> envIncomplete env = false ->
  validQuery request = Some (v, isoDate s, isoDate e) ->
  minDay <= s -> s <= e -> e < maxDay ->
  fst (Part004.handler R env upstream request) = Ok response ->
  status response = 200 ->
  exists out,
    body response = unavailableBody out
    /\ StronglySorted Str.lt out
    /\ ((forall st text mewsData,
           upstream (endpointOf env)
             (payloadOf env (isoDate s ++ "T22:00:00.000Z")
                        (isoDate e ++ "T22:00:00.000Z"))
           = Responded st text ->
           jsonParse R text = Some mewsData ->
           Report.boundariesWithin s e mewsData = true) ->
        Forall (fun x => exists n, s <= n <= e + 1 /\ x = isoDate n) out).
Proof.
  intros Hm He Hq Hs Hse Hemax Hr H200.
  destruct (handler_200 R env upstream request v _ _ response Hm He Hq Hr H200)
    as (st & text & mewsData & initial & out & Hu & Hok & Hj & Hp & Hw & ->).
  exists out. split; [reflexivity|]. split; [exact (workaround_sorted R _ _ Hw)|].
  intros HB. specialize (HB st text mewsData Hu Hj).
  assert (Raw : NoDup initial
                /\ forall d, In d initial -> exists n, s <= n <= e /\ d = isoDate n).
  { destruct (processReport_cases mewsData v initial Hp) as [->|(a & dates & Ht & Hf)].
    - split; [constructor|intros d []].
    - destruct (forEachDate_spec a dates 0 JSSet.empty initial Hf) as [N C].
      split; [apply N; constructor|]. intros d Hd. apply C in Hd as [[]|(i & ts & c & Hi & _ & _ & ->)].
      unfold Report.boundariesWithin in HB. rewrite Ht in HB.
      rewrite forallb_forall in HB. apply nth_error_In in Hi.
      specialize (HB _ Hi). cbn beta iota in HB.
      apply existsb_exists in HB as (n & Hn & En). apply String.eqb_eq in En.
      apply daysFrom_In in Hn. exists n. split; [lia|congruence]. }
  destruct Raw as [N Hraw].
  destruct (raw_days initial s e N Hraw Hs ltac:(lia)) as (days & S & F & P).
  assert (F' : Forall inYears days).
  { eapply Forall_impl; [|exact F]. unfold inYears. intros n Hn. cbv beta in Hn. lia. }
  rewrite (workaround_days R initial days S F' P) in Hw. injection Hw as <-.
  apply Forall_forall. intros x Hx. apply in_map_iff in Hx as (n & <- & Hn).
  exists n. split; [|reflexivity]. apply (correction_In days S) in Hn.
  rewrite Forall_forall in F. destruct Hn as [Hn|Hn]; apply F in Hn; lia.
Qed.

Lemma output_sorted_and_bounded_witness :
  exists out,
    unavailableBody ["2025-04-01"; "2025-04-02"; "2025-04-03"; "2025-04-04";
                     "2025-04-05"; "2025-04-06"] = unavailableBody out
    /\ StronglySorted Str.lt out
    /\ Forall (fun x => exists n, 20179 <= n <= 20183 + 1 /\ x = isoDate n) out.
Proof.
  assert (Hq : validQuery aprilRequest = Some ("cat-1", isoDate 20179, isoDate 20183))
    by (vm_compute; reflexivity).
  assert (Hr : fst (Part004.handler exampleRuntime exampleEnv
                      (answering 200 "report-three-runs") aprilRequest)
               = Ok {| status := 200; headers := successHeaders;
                       body := unavailableBody
                                 ["2025-04-01"; "2025-04-02"; "2025-04-03";
                                  "2025-04-04"; "2025-04-05"; "2025-04-06"] |})
    by (vm_compute; reflexivity).
  assert (H1 : minDay <= 20179) by (vm_compute; congruence).
  assert (H2 : 20179 <= 20183) by (vm_compute; congruence).
  assert (H3 : 20183 < maxDay) by (vm_compute; reflexivity).
  destruct (output_sorted_and_bounded exampleRuntime exampleEnv
              (answering 200 "report-three-runs") aprilRequest "cat-1" 20179 20183
              _ eq_refl eq_refl Hq H1 H2 H3 Hr eq_refl)
    as (out & Hb & Hs & Hin).
  exists out. split; [exact Hb|]. split; [exact Hs|]. apply Hin.
  intros st text mewsData Hu Hj. injection Hu as <- <-.
  vm_compute in Hj. injection Hj as <-. vm_compute. reflexivity.
Defined.

(** C5, counterexample.  The start date 2025-13-40 matches the pattern; the
    handler does not reject it, calls the upstream with the midnight
    fallback as first boundary and answers 200. *)
Lemma calendar_invalid_start_reaches_upstream :
  fetchCalls
    (snd (Api.handler exampleRuntime exampleEnv (answering 200 "report-one-run")
            (post (Some "cat-1") (Some "2025-13-40") (Some "2025-04-05"))))
  = [payloadOf exampleEnv "2025-13-40T00:00:00.000Z" "2025-04-05T15:00:00.000Z"]
  /\ fst (Api.handler exampleRuntime exampleEnv (answering 200 "report-one-run")
            (post (Some "cat-1") (Some "2025-13-40") (Some "2025-04-05")))
     = Ok {| status := 200; headers := successHeaders;
             body := unavailableBody ["2025-04-03"; "2025-04-04"] |}.
Proof. split; vm_compute; reflexivity. Qed.

(** C5, as amended.  A POST whose body lacks the category id, or whose start
    date is the pattern-invalid "25-04-01", is answered 400 and no upstream
    call is made, in the version under [api/] and in the version with the
    workaround alike.  The validator checks the pattern only: every body it
    lets through leads to one upstream call. *)
Theorem invalid_body_rejected_before_upstream
  (R : Runtime) (env : Env) (upstream : string -> Payload -> FetchOutcome)
  (request : Request) :
  method request = "POST" -> envIncomplete env = false ->
  (forall b,
     requestBody request = Some b ->
     missing (villaId b) = true \/ startDate b = Some "25-04-01" ->
     (exists response,
        fst (Api.handler R env upstream request) = Ok response
        /\ status response = 400
        /\ fetchCalls (snd (Api.handler R env upstream request)) = [])
     /\ (exists response,
           fst (Part004.handler R env upstream request) = Ok response
           /\ status response = 400
           /\ fetchCalls (snd (Part004.handler R env upstream request)) = []))
  /\ (forall v s e,
        validQuery request = Some (v, s, e) ->
        exists first last,
          fetchCalls (snd (Api.handler R env upstream request))
          = [payloadOf env first last]).
Proof.
  intros Hm He. split.
  - intros b Hb Hbad.
    assert (Hq : validQuery request = None).
    { unfold validQuery. rewrite Hb. destruct Hbad as [Hv|Hs].
      - destruct (villaId b) as [v|]; [|reflexivity]. cbn in Hv. rewrite Hv.
        destruct (startDate b), (endDate b); reflexivity.
      - rewrite Hs. destruct (villaId b), (endDate b); try reflexivity.
        cbn. rewrite andb_false_r. reflexivity. }
    split; [apply api_handler_invalid|apply handler_invalid]; assumption.
  - intros v s e Hq.
    destruct (api_handler_calls R env upstream request v s e Hm He Hq)
      as (first & last & _ & _ & H).
    eauto.
Qed.

Lemma invalid_body_rejected_before_upstream_witness :
  (exists response,
     fst (Api.handler exampleRuntime exampleEnv (answering 200 "report-one-run")
            (post (Some "cat-1") (Some "25-04-01") (Some "2025-04-05")))
     = Ok response
     /\ status response = 400
     /\ fetchCalls
          (snd (Api.handler exampleRuntime exampleEnv (answering 200 "report-one-run")
                  (post (Some "cat-1") (Some "25-04-01") (Some "2025-04-05"))))
        = [])
  /\ (exists response,
        fst (Part004.handler exampleRuntime exampleEnv (answering 200 "report-one-run")
               (post (Some "cat-1") (Some "25-04-01") (Some "2025-04-05")))
        = Ok response
        /\ status response = 400
        /\ fetchCalls
             (snd (Part004.handler exampleRuntime exampleEnv
                     (answering 200 "report-one-run")
                     (post (Some "cat-1") (Some "25-04-01") (Some "2025-04-05"))))
           = []).
Proof.
  apply (proj1 (invalid_body_rejected_before_upstream exampleRuntime exampleEnv
                  (answering 200 "report-one-run")
                  (post (Some "cat-1") (Some "25-04-01") (Some "2025-04-05"))
                  eq_refl eq_refl)
           {| villaId := Some "cat-1"; startDate := Some "25-04-01";
              endDate := Some "2025-04-05" |} eq_refl).
  right. reflexivity.
Defined.

(** C7.  With the workaround version, a failing upstream answer reaches the
    caller: the [details] field of the 500 body carries the message of the
    error, which quotes the upstream body, and for a malformed 200 body the
    text of the runtime's exception. *)
Theorem internal_error_details_leak :
  fst (Part004.handler exampleRuntime exampleEnv
         (answering 401 "Invalid AccessToken access-token") aprilRequest)
  = Ok {| status := 500;
          headers := [];
          body := Json (VObj [("error", VStr "An internal server error occurred.");
                              ("details",
                               VStr "Mews API request failed with status 401. Message: Invalid AccessToken access-token")]) |}
  /\ fst (Part004.handler exampleRuntime exampleEnv (answering 200 "<html>")
            aprilRequest)
     = Ok {| status := 500;
             headers := [];
             body := Json (VObj [("error", VStr "An internal server error occurred.");
                                 ("details", VStr "Unexpected token in JSON")]) |}.
Proof. split; vm_compute; reflexivity. Qed.

(** C2.  With the probing version, against an upstream whose time units
    start at 22:00 UTC, one request makes 23 upstream calls, one per
    candidate hour from 00 to 22. *)
Theorem brute_force_probes_the_upstream :
  List.map FirstTimeUnitStartUtc
    (fetchCalls (snd (BruteForce.handler exampleRuntime exampleEnv anchoredAt22
                        aprilRequest)))
  = List.map (fun hour => "2025-04-01T" ++ Str.pad2 hour ++ ":00:00.000Z")
             (List.map Z.of_nat (seq 0 23)).
Proof. vm_compute. reflexivity. Qed.

(** * Further properties of the code *)

Import CoverFacts.

(** X1.  [addOneDay] is the successor on calendar days, whatever the
    runtime: for every day from 0000-01-01 to 9999-12-30 it returns the date
    string of the next day, across the ends of months and years and over
    29 February; the result matches the date pattern again and is greater
    in the order of [sort]. *)
Theorem addOneDay_calendar_successor (R : Runtime) (n : Z) :
  minDay <= n < maxDay ->
  Part004.addOneDay R (isoDate n) = Ok (isoDate (n + 1))
  /\ JS.dateRegex (isoDate (n + 1)) = true
  /\ Str.lt (isoDate n) (isoDate (n + 1)).
Proof.
  intros H. split; [apply addOneDay_isoDate; lia|].
  split; [apply dateRegex_isoDate; lia|apply isoDate_lt; lia].
Qed.

Lemma addOneDay_calendar_successor_witness :
  Part004.addOneDay exampleRuntime (isoDate 19781) = Ok (isoDate (19781 + 1))
  /\ JS.dateRegex (isoDate (19781 + 1)) = true
  /\ Str.lt (isoDate 19781) (isoDate (19781 + 1)).
Proof.
  apply (addOneDay_calendar_successor exampleRuntime 19781).
  split; vm_compute; congruence.
Defined.

(** X2.  On a raw set of calendar days the transform returns, and a day is
    in its output exactly when that day or the day before it is in the raw
    set: the output is the raw set together with its shift by one day. *)
Theorem workaround_marks_day_and_next_day
  (R : Runtime) (raw : list string) (days : list Z) :
  StronglySorted Z.lt days -> Forall inYears days ->
  Permutation raw (List.map isoDate days) ->
  exists out,
    fst (Part004.workaround R raw) = Ok out
    /\ forall n, minDay <= n <= maxDay ->
                 (In (isoDate n) out <-> In n days \/ In (n - 1) days).
Proof.
  intros S F P. pose proof (workaround_days R raw days S F P) as E.
  eexists. split; [exact E|]. intros n Hn.
  rewrite (isoDate_In _ n (correction_range days S F) Hn).
  apply correction_In, S.
Qed.

Lemma workaround_marks_day_and_next_day_witness :
  exists out,
    fst (Part004.workaround exampleRuntime ["2025-04-05"; "2025-04-03"]) = Ok out
    /\ forall n, minDay <= n <= maxDay ->
                 (In (isoDate n) out <-> In n [20181; 20183] \/ In (n - 1) [20181; 20183]).
Proof.
  apply (workaround_marks_day_and_next_day exampleRuntime
           ["2025-04-05"; "2025-04-03"] [20181; 20183]).
  - repeat constructor.
  - repeat constructor; vm_compute; congruence.
  - vm_compute. apply perm_swap.
Defined.

(** X3.  The transform adds at most one day for each raw day and drops
    none: whenever it returns on a duplicate-free raw set, of whatever
    strings, the output has at least as many entries as the raw set and at
    most twice as many. *)
Theorem workaround_size_bounds (R : Runtime) (raw out : list string) :
  NoDup raw -> fst (Part004.workaround R raw) = Ok out ->
  (List.length raw <= List.length out <= 2 * List.length raw)%nat.
Proof.
  intros ND H. rewrite workaround_eq in H. cbn [fst] in H.
  destruct (fst (Part004.workaroundLoop R raw (arraySort raw) (JSSet.ofList raw)))
    as [final|e] eqn:E; [|discriminate].
  injection H as <-. apply loop_length in E.
  rewrite (ofList_id raw ND) in E.
  rewrite <- (Permutation_length (arraySort_perm raw)) in E.
  rewrite <- (Permutation_length (arraySort_perm final)). lia.
Qed.

Lemma workaround_size_bounds_witness :
  (List.length ["2025-04-05"; "2025-04-03"]
   <= List.length ["2025-04-03"; "2025-04-04"; "2025-04-05"; "2025-04-06"]
   <= 2 * List.length ["2025-04-05"; "2025-04-03"])%nat.
Proof.
  apply (workaround_size_bounds exampleRuntime ["2025-04-05"; "2025-04-03"]).
  - repeat constructor; cbn; intuition congruence.
  - vm_compute. reflexivity.
Defined.

(** X4.  The transform is all or nothing.  It returns exactly when
    [addOneDay] returns on every raw date; otherwise the whole computation
    throws the [RangeError] that [toISOString] raises on the date [addOneDay]
    could not parse, and no partial result is kept. *)
Theorem workaround_fails_as_a_whole (R : Runtime) (raw : list string) :
  ((exists out, fst (Part004.workaround R raw) = Ok out)
   <-> (forall c, In c raw -> exists x, Part004.addOneDay R c = Ok x))
  /\ (forall e,
        fst (Part004.workaround R raw) = Throw e ->
        e = Raised RangeErrorInvalidTime
        /\ exists c, In c raw /\ Part004.addOneDay R c = Throw e).
Proof. split; [apply workaround_returns|apply workaround_throws]. Qed.

Import ScanFacts.

(** X5.  On a report whose series is aligned with the boundaries, the scan
    returns exactly when every boundary is a string.  One boundary that is
    not a string makes it throw a [TypeError], whatever the counts are, also
    where the count at that index is positive. *)
Theorem scan_needs_string_boundaries
  (mewsData : Value) (v : string) (a dates : list Value) :
  Report.wellFormed mewsData = true ->
  Report.series mewsData v = Some (VArr a) ->
  Report.timeUnits mewsData = Some dates ->
  List.length a = List.length dates ->
  ((exists raw, fst (Part004.processReport mewsData v) = Ok raw)
   <-> forallb isString dates = true)
  /\ (forall e,
        fst (Part004.processReport mewsData v) = Throw e ->
        e = Raised TypeErrorNullish \/ e = Raised TypeErrorNotCallable).
Proof.
  intros W Hs Ht Hl.
  destruct (processReport_wellFormed mewsData v W) as (cats & dates' & Hc & Ht' & E).
  rewrite Ht in Ht'. injection Ht' as <-.
  unfold Report.series in Hs. rewrite Hc in Hs.
  destruct (List.find (Report.isCategory v) cats) as [c|]; [|discriminate].
  destruct c as [| | | | | |f]; try discriminate. injection Hs as Hs.
  rewrite Hs, Hl, Nat.eqb_refl in E. rewrite E. cbn [lift fst]. split.
  - apply forEachDate_returns.
  - intros e. apply forEachDate_throws.
Qed.

Lemma scan_needs_string_boundaries_witness :
  ((exists raw,
      fst (Part004.processReport
             (reportWith (VArr [VStr "2025-04-01T22:00:00.000Z"; VNum 20180])
                         "cat-1" [VNum 0; VNum 5]) "cat-1") = Ok raw)
   <-> forallb isString [VStr "2025-04-01T22:00:00.000Z"; VNum 20180] = true)
  /\ (forall e,
        fst (Part004.processReport
               (reportWith (VArr [VStr "2025-04-01T22:00:00.000Z"; VNum 20180])
                           "cat-1" [VNum 0; VNum 5]) "cat-1") = Throw e ->
        e = Raised TypeErrorNullish \/ e = Raised TypeErrorNotCallable).
Proof.
  apply (scan_needs_string_boundaries
           (reportWith (VArr [VStr "2025-04-01T22:00:00.000Z"; VNum 20180])
                       "cat-1" [VNum 0; VNum 5])
           "cat-1" [VNum 0; VNum 5] [VStr "2025-04-01T22:00:00.000Z"; VNum 20180]);
    reflexivity.
Defined.

(** X6.  When the upstream answers a valid query with a 2xx body that is
    JSON but not a report (no array of boundaries, or no array of
    categories), the handler answers 200 with an empty [unavailable] array,
    so that every day looks available; the one exception is the body [null],
    on which reading the first field throws and the answer is 500. *)
Theorem non_report_answer_gives_empty_result
  (R : Runtime) (env : Env) (upstream : string -> Payload -> FetchOutcome)
  (request : Request) (v s e : string) (st : Z) (text : string) (mewsData : Value) :
  method request = "POST" -> envIncomplete env = false ->
  validQuery request = Some (v, s, e) ->
  upstream (endpointOf env)
    (payloadOf env (s ++ "T22:00:00.000Z") (e ++ "T22:00:00.000Z"))
  = Responded st text ->
  responseOk st = true -> jsonParse R text = Some mewsData ->
  Report.timeUnits mewsData = None \/ Report.categories mewsData = None ->
  fst (Part004.handler R env upstream request)
  = Ok (if isNullish mewsData
        then Part004.internalError R (Raised TypeErrorNullish)
        else {| status := 200; headers := successHeaders;
                body := unavailableBody [] |}).
Proof.
  intros Hm He Hq Hu Hok Hj A.
  rewrite (handler_valid R env upstream request v s e Hm He Hq). cbv zeta.
  rewrite (resolve_success R upstream _ _ v st text mewsData Hu Hok Hj). cbv zeta.
  rewrite (unexpected_shape mewsData v A).
  destruct (isNullish mewsData); reflexivity.
Qed.

Lemma non_report_answer_gives_empty_result_witness :
  fst (Part004.handler bareRuntime exampleEnv (answering 200 "{}") aprilRequest)
  = Ok (if isNullish (VObj [])
        then Part004.internalError bareRuntime (Raised TypeErrorNullish)
        else {| status := 200; headers := successHeaders;
                body := unavailableBody [] |}).
Proof.
  apply (non_report_answer_gives_empty_result bareRuntime exampleEnv
           (answering 200 "{}") aprilRequest "cat-1" "2025-04-01" "2025-04-05"
           200 "{}" (VObj []));
    try reflexivity.
  left. reflexivity.
Defined.

(** X7.  The version with the workaround reads the boundaries from
    [DatesUtc] when the report has no [TimeUnitStartsUtc]: the raw set and
    the log are those of the same report with the array under the usual
    name.  The versions without the workaround do not: on such a report they
    mark nothing. *)
Theorem DatesUtc_stands_in_for_TimeUnitStartsUtc
  (R : Runtime) (fields : list (string * Value)) (v mismatch notFound : string)
  (unexpected : list string) :
  JS.truthy (JS.lookup fields "TimeUnitStartsUtc") = false ->
  Part004.processReport (VObj fields) v
  = Part004.processReport
      (VObj (("TimeUnitStartsUtc", JS.lookup fields "DatesUtc") :: fields)) v
  /\ fst (processLoose R mismatch notFound unexpected (VObj fields) v)
     = Ok JSSet.empty.
Proof.
  intros H. split.
  - apply DatesUtc_fallback, H.
  - apply processLoose_without_TimeUnitStartsUtc, H.
Qed.

Lemma DatesUtc_stands_in_for_TimeUnitStartsUtc_witness :
  Part004.processReport
    (VObj [("DatesUtc", VArr [VStr "2025-04-01T22:00:00.000Z"]);
           ("CategoryAvailabilities",
            VArr [VObj [("CategoryId", VStr "cat-1");
                        ("Availabilities", VArr [VNum 0])]])]) "cat-1"
  = Part004.processReport
      (VObj [("TimeUnitStartsUtc", VArr [VStr "2025-04-01T22:00:00.000Z"]);
             ("DatesUtc", VArr [VStr "2025-04-01T22:00:00.000Z"]);
             ("CategoryAvailabilities",
              VArr [VObj [("CategoryId", VStr "cat-1");
                          ("Availabilities", VArr [VNum 0])]])]) "cat-1"
  /\ fst (processLoose exampleRuntime "mismatch" "not found" ["unexpected"]
            (VObj [("DatesUtc", VArr [VStr "2025-04-01T22:00:00.000Z"]);
                   ("CategoryAvailabilities",
                    VArr [VObj [("CategoryId", VStr "cat-1");
                                ("Availabilities", VArr [VNum 0])]])]) "cat-1")
     = Ok JSSet.empty.
Proof.
  apply (DatesUtc_stands_in_for_TimeUnitStartsUtc exampleRuntime
           [("DatesUtc", VArr [VStr "2025-04-01T22:00:00.000Z"]);
            ("CategoryAvailabilities",
             VArr [VObj [("CategoryId", VStr "cat-1");
                         ("Availabilities", VArr [VNum 0])]])]
           "cat-1" "mismatch" "not found" ["unexpected"]).
  reflexivity.
Defined.

Import StageFacts.

(** X8.  The upstream is called only for an accepted query, and then once:
    the handler of the workaround version makes no call for a request that
    is not a POST, under an incomplete configuration, or with a body the
    validator refuses; otherwise it makes exactly one, whose payload carries
    the configured tokens and both dates anchored at 22:00 UTC. *)
Theorem upstream_called_once_for_accepted_queries
  (R : Runtime) (env : Env) (upstream : string -> Payload -> FetchOutcome)
  (request : Request) :
  fetchCalls (snd (Part004.handler R env upstream request))
  = match accepted env request with
    | Some (v, s, e) =>
        [payloadOf env (s ++ "T22:00:00.000Z") (e ++ "T22:00:00.000Z")]
    | None => []
    end.
Proof.
  destruct (accepted env request) as [[[v s] e]|] eqn:A.
  - unfold accepted in A.
    destruct (method request =? "POST")%string eqn:Ep; [|discriminate].
    destruct (envIncomplete env) eqn:Ee; [discriminate|]. cbn [negb andb] in A.
    apply String.eqb_eq in Ep.
    exact (handler_calls R env upstream request v s e Ep Ee A).
  - apply handler_no_call, A.
Qed.

(** X9.  The handler of the workaround version always answers, and the
    answer is fixed by the first stage that stops the request: 204 with the
    CORS headers for OPTIONS, 405 for any other method than POST, 500 with
    the configuration error when a variable is missing (also when the body
    is invalid), 400 when the validator refuses the body, and 200 or 500
    for an accepted query. *)
Theorem answer_by_stage
  (R : Runtime) (env : Env) (upstream : string -> Payload -> FetchOutcome)
  (request : Request) :
  exists response,
    fst (Part004.handler R env upstream request) = Ok response
    /\ (if (method request =? "OPTIONS")%string then response = corsPreflight
        else if negb (method request =? "POST")%string
        then response = methodNotAllowed (method request)
        else if envIncomplete env then response = configurationError
        else match validQuery request with
             | None => status response = 400
             | Some _ => status response = 200 \/ status response = 500
             end).
Proof.
  destruct (TotalFacts.handler_total R env upstream request) as [response H].
  exists response. split; [exact H|]. apply (handler_stage R env upstream), H.
Qed.

(** X10.  The three versions differ only in how they serve an accepted
    query: for every other request (wrong method, incomplete configuration,
    refused body) they return the same answer and the same log. *)
Theorem versions_agree_on_refused_requests
  (R : Runtime) (env : Env) (upstream : string -> Payload -> FetchOutcome)
  (request : Request) :
  accepted env request = None ->
  Part004.handler R env upstream request = Api.handler R env upstream request
  /\ Api.handler R env upstream request
     = BruteForce.handler R env upstream request.
Proof. apply handlers_refused. Qed.

Lemma versions_agree_on_refused_requests_witness :
  Part004.handler exampleRuntime exampleEnv (answering 200 "report-one-run")
    (post (Some "cat-1") (Some "2025-4-1") (Some "2025-04-05"))
  = Api.handler exampleRuntime exampleEnv (answering 200 "report-one-run")
      (post (Some "cat-1") (Some "2025-4-1") (Some "2025-04-05"))
  /\ Api.handler exampleRuntime exampleEnv (answering 200 "report-one-run")
       (post (Some "cat-1") (Some "2025-4-1") (Some "2025-04-05"))
     = BruteForce.handler exampleRuntime exampleEnv (answering 200 "report-one-run")
         (post (Some "cat-1") (Some "2025-4-1") (Some "2025-04-05")).
Proof.
  apply (versions_agree_on_refused_requests exampleRuntime exampleEnv
           (answering 200 "report-one-run")
           (post (Some "cat-1") (Some "2025-4-1") (Some "2025-04-05"))).
  reflexivity.
Defined.

(** X11.  The 400 answer does not say which constraint failed: whenever a
    body is present and refused (a field missing or empty, a date off the
    pattern) the error message is the same fixed sentence; without a body it
    is the message of the runtime's [TypeError], or "Invalid request body."
    when that message is empty. *)
Theorem rejection_message_is_fixed
  (R : Runtime) (env : Env) (upstream : string -> Payload -> FetchOutcome)
  (request : Request) :
  method request = "POST" -> envIncomplete env = false ->
  validQuery request = None ->
  fst (Part004.handler R env upstream request)
  = Ok {| status := 400;
          headers := [];
          body := jsonError
            (match requestBody request with
             | Some _ => "Missing or invalid parameters: villaId, startDate, endDate required (YYYY-MM-DD)."
             | None =>
                 if (faultMessage R TypeErrorNullish =? "")%string
                 then "Invalid request body."
                 else faultMessage R TypeErrorNullish
             end) |}.
Proof.
  intros Hm He Hq. rewrite (handler_refused R env upstream request Hm He Hq).
  rewrite (validateBody_refused R request Hq). reflexivity.
Qed.

Lemma rejection_message_is_fixed_witness :
  fst (Part004.handler exampleRuntime exampleEnv (answering 200 "report-one-run")
         (post (Some "cat-1") (Some "2025-04-01") None))
  = Ok {| status := 400;
          headers := [];
          body := jsonError "Missing or invalid parameters: villaId, startDate, endDate required (YYYY-MM-DD)." |}.
Proof.
  apply (rejection_message_is_fixed exampleRuntime exampleEnv
           (answering 200 "report-one-run")
           (post (Some "cat-1") (Some "2025-04-01") None));
    reflexivity.
Defined.

(** X12.  The order of the two dates is not checked: for any two calendar
    days, also when the end date is before the start date, a POST with a
    category id is accepted and leads to one upstream call with the two
    dates in the order given. *)
Theorem date_order_is_not_checked
  (R : Runtime) (env : Env) (upstream : string -> Payload -> FetchOutcome)
  (v : string) (a b : Z) :
  envIncomplete env = false -> v <> "" ->
  minDay <= a <= maxDay -> minDay <= b <= maxDay ->
  fetchCalls
    (snd (Part004.handler R env upstream
            (post (Some v) (Some (isoDate a)) (Some (isoDate b)))))
  = [payloadOf env (isoDate a ++ "T22:00:00.000Z") (isoDate b ++ "T22:00:00.000Z")].
Proof.
  intros He Hv Ha Hb.
  apply (handler_calls R env upstream _ v (isoDate a) (isoDate b));
    [reflexivity|exact He|].
  apply validQuery_post; [exact Hv| |]; apply dateRegex_isoDate; assumption.
Qed.

Lemma date_order_is_not_checked_witness :
  fetchCalls
    (snd (Part004.handler exampleRuntime exampleEnv (answering 200 "report-one-run")
            (post (Some "cat-1") (Some (isoDate 20183)) (Some (isoDate 20179)))))
  = [payloadOf exampleEnv (isoDate 20183 ++ "T22:00:00.000Z")
               (isoDate 20179 ++ "T22:00:00.000Z")].
Proof.
  apply (date_order_is_not_checked exampleRuntime exampleEnv
           (answering 200 "report-one-run") "cat-1" 20183 20179).
  - reflexivity.
  - discriminate.
  - split; vm_compute; congruence.
  - split; vm_compute; congruence.
Defined.

Import AnchorFacts.

(** X13.  For every calendar day from 0000-01-01 to 9999-12-31 the helper
    of the version under [api/] returns the date followed by
    [T15:00:00.000Z], without logging: parsing the combined string and
    writing it back with [toISOString] gives the same text.  So a POST for
    two calendar days leads to one upstream call whose two boundaries are
    anchored at 15:00 UTC of the days asked for. *)
Theorem formatToMewsUtc_anchors_at_1500
  (R : Runtime) (env : Env) (upstream : string -> Payload -> FetchOutcome)
  (v : string) (a b : Z) :
  envIncomplete env = false -> v <> "" ->
  minDay <= a <= maxDay -> minDay <= b <= maxDay ->
  Api.formatToMewsUtc R (isoDate a) = (Ok (isoDate a ++ "T15:00:00.000Z"), [])
  /\ fetchCalls
       (snd (Api.handler R env upstream
               (post (Some v) (Some (isoDate a)) (Some (isoDate b)))))
     = [payloadOf env (isoDate a ++ "T15:00:00.000Z")
                  (isoDate b ++ "T15:00:00.000Z")].
Proof.
  intros He Hv Ha Hb. split; [apply formatToMewsUtc_calendar, Ha|].
  assert (Hq : validQuery (post (Some v) (Some (isoDate a)) (Some (isoDate b)))
               = Some (v, isoDate a, isoDate b)).
  { apply validQuery_post; [exact Hv| |]; apply dateRegex_isoDate; assumption. }
  destruct (api_handler_calls R env upstream
              (post (Some v) (Some (isoDate a)) (Some (isoDate b)))
              v (isoDate a) (isoDate b) eq_refl He Hq)
    as (first & last & E1 & E2 & C).
  rewrite (formatToMewsUtc_calendar R a Ha) in E1.
  rewrite (formatToMewsUtc_calendar R b Hb) in E2.
  cbn [fst] in E1, E2. injection E1 as <-. injection E2 as <-. exact C.
Qed.

Lemma formatToMewsUtc_anchors_at_1500_witness :
  Api.formatToMewsUtc exampleRuntime (isoDate 20147)
  = (Ok (isoDate 20147 ++ "T15:00:00.000Z"), [])
  /\ fetchCalls
       (snd (Api.handler exampleRuntime exampleEnv (answering 200 "report-one-run")
               (post (Some "cat-1") (Some (isoDate 20147)) (Some (isoDate 20150)))))
     = [payloadOf exampleEnv (isoDate 20147 ++ "T15:00:00.000Z")
                  (isoDate 20150 ++ "T15:00:00.000Z")].
Proof.
  apply (formatToMewsUtc_anchors_at_1500 exampleRuntime exampleEnv
           (answering 200 "report-one-run") "cat-1" 20147 20150).
  - reflexivity.
  - discriminate.
  - split; vm_compute; congruence.
  - split; vm_compute; congruence.
Defined.

(** X14.  The timestamps of the probing version are well formed: for a
    calendar day and a candidate hour from 0 to 23, [formatTimeWithHour]
    returns the ISO string of the instant that many hours into the day
    ([Date.parse] reads it as that instant, and [toISOString] of that
    instant is the same string); single-digit hours are padded with a
    zero. *)
Theorem formatTimeWithHour_is_the_instant (n h : Z) :
  minDay <= n <= maxDay -> 0 <= h <= 23 ->
  ES.parseIsoUtc (BruteForce.formatTimeWithHour (isoDate n) h)
  = Some (n * ES.msPerDay + h * 3600000)
  /\ ES.isoString (n * ES.msPerDay + h * 3600000)
     = BruteForce.formatTimeWithHour (isoDate n) h.
Proof.
  intros H Hh. rewrite (formatTimeWithHour_eq _ h Hh). split.
  - apply stamp_parse; assumption.
  - apply stamp_iso; assumption.
Qed.

Lemma formatTimeWithHour_is_the_instant_witness :
  ES.parseIsoUtc (BruteForce.formatTimeWithHour (isoDate 20179) 7)
  = Some (20179 * ES.msPerDay + 7 * 3600000)
  /\ ES.isoString (20179 * ES.msPerDay + 7 * 3600000)
     = BruteForce.formatTimeWithHour (isoDate 20179) 7.
Proof.
  apply (formatTimeWithHour_is_the_instant 20179 7).
  - split; vm_compute; congruence.
  - split; vm_compute; congruence.
Defined.

Import LooseFacts.

(** X15.  The versions without the workaround mark a day whenever the entry
    compares [<= 0] after coercion: on an aligned report the set they return
    is duplicate-free and holds the date part of boundary [i] exactly when
    [Availabilities[i] <= 0] holds in JavaScript; so a [null] or a [false]
    entry marks its day, which the version with the workaround, testing
    [typeof], does not do. *)
Theorem loose_scan_marks_what_compares_le_zero
  (R : Runtime) (mismatch notFound : string) (unexpected : list string)
  (mewsData : Value) (v : string) (a dates : list Value) (raw : list string) :
  Report.wellFormed mewsData = true ->
  timeUnitStarts mewsData = Some dates ->
  Report.series mewsData v = Some (VArr a) ->
  List.length a = List.length dates ->
  fst (processLoose R mismatch notFound unexpected mewsData v) = Ok raw ->
  NoDup raw
  /\ (forall d,
        In d raw <->
        exists i ts,
          nth_error dates i = Some (VStr ts)
          /\ JS.leZero R (nth i a VUndefined) = true
          /\ d = String.substring 0 10 ts)
  /\ (forall i ts,
        nth_error dates i = Some (VStr ts) ->
        nth_error a i = Some VNull \/ nth_error a i = Some (VBool false) ->
        In (String.substring 0 10 ts) raw).
Proof.
  intros W Ht Hs Hl H.
  rewrite (processLoose_aligned R _ _ _ mewsData v a dates W Ht Hs Hl) in H.
  cbn [lift fst] in H.
  destruct (forEachLoose_spec R (VArr a) dates 0 JSSet.empty raw H) as [N C].
  assert (C' : forall d,
             In d raw <->
             exists i ts,
               nth_error dates i = Some (VStr ts)
               /\ JS.leZero R (nth i a VUndefined) = true
               /\ d = String.substring 0 10 ts).
  { intros d. rewrite C. cbn [JSSet.empty In Nat.add JS.index]. tauto. }
  split; [apply N; constructor|]. split; [exact C'|].
  intros i ts Hd Ha. apply C'. exists i, ts. split; [exact Hd|]. split; [|reflexivity].
  destruct Ha as [Ha|Ha]; rewrite (nth_error_nth _ _ _ Ha); reflexivity.
Qed.

Lemma loose_scan_marks_what_compares_le_zero_witness :
  NoDup ["2025-04-01"; "2025-04-02"; "2025-04-03"; "2025-04-04"]
  /\ (forall d,
        In d ["2025-04-01"; "2025-04-02"; "2025-04-03"; "2025-04-04"] <->
        exists i ts,
          nth_error (JS.elements aprilBoundaries) i = Some (VStr ts)
          /\ JS.leZero exampleRuntime
               (nth i [VNull; VBool false; VNum 0; VNum (-1); VNum 3] VUndefined) = true
          /\ d = String.substring 0 10 ts)
  /\ (forall i ts,
        nth_error (JS.elements aprilBoundaries) i = Some (VStr ts) ->
        nth_error [VNull; VBool false; VNum 0; VNum (-1); VNum 3] i = Some VNull
        \/ nth_error [VNull; VBool false; VNum 0; VNum (-1); VNum 3] i
           = Some (VBool false) ->
        In (String.substring 0 10 ts)
           ["2025-04-01"; "2025-04-02"; "2025-04-03"; "2025-04-04"]).
Proof.
  apply (loose_scan_marks_what_compares_le_zero exampleRuntime "mismatch" "not found"
           ["unexpected"]
           (reportWith aprilBoundaries "cat-1"
                       [VNull; VBool false; VNum 0; VNum (-1); VNum 3])
           "cat-1"
           [VNull; VBool false; VNum 0; VNum (-1); VNum 3]
           (JS.elements aprilBoundaries));
    reflexivity.
Defined.

(** X16.  On a report whose series for the category is an array of numbers
    aligned with [TimeUnitStartsUtc], the versions without the workaround
    compute the raw set of the version with the workaround, in the same
    insertion order: the answer of the latter is the transform applied to
    the answer of the former. *)
Theorem versions_agree_on_numeric_series
  (R : Runtime) (mismatch notFound : string) (unexpected : list string)
  (mewsData : Value) (v : string) (a dates : list Value) :
  Report.wellFormed mewsData = true ->
  timeUnitStarts mewsData = Some dates ->
  Report.series mewsData v = Some (VArr a) ->
  List.length a = List.length dates ->
  forallb isNumber a = true ->
  processLoose R mismatch notFound unexpected mewsData v
  = Part004.processReport mewsData v.
Proof.
  intros W Ht Hs Hl Hn.
  rewrite (processLoose_aligned R _ _ _ mewsData v a dates W Ht Hs Hl).
  rewrite (processReport_aligned mewsData v a dates W Ht Hs Hl).
  rewrite (forEachLoose_numbers R a dates Hn). reflexivity.
Qed.

Lemma versions_agree_on_numeric_series_witness :
  processLoose exampleRuntime "mismatch" "not found" ["unexpected"]
    (reportWith aprilBoundaries "cat-1" (List.map VNum [0; 1; 0; 1; 0])) "cat-1"
  = Part004.processReport
      (reportWith aprilBoundaries "cat-1" (List.map VNum [0; 1; 0; 1; 0])) "cat-1".
Proof.
  apply (versions_agree_on_numeric_series exampleRuntime "mismatch" "not found"
           ["unexpected"]
           (reportWith aprilBoundaries "cat-1" (List.map VNum [0; 1; 0; 1; 0])) "cat-1"
           (List.map VNum [0; 1; 0; 1; 0]) (JS.elements aprilBoundaries));
    reflexivity.
Defined.

Import ProxyFacts.

(** X17.  The version under [api/] always answers.  It calls the upstream
    exactly once for an accepted query, with the two stamps its helper
    returns, and never otherwise; an accepted query is answered 200 or with
    the generic 500 body, which carries no detail of the failure, and no
    other request is answered 200. *)
Theorem api_answers_with_at_most_one_call
  (R : Runtime) (env : Env) (upstream : string -> Payload -> FetchOutcome)
  (request : Request) :
  exists response,
    fst (Api.handler R env upstream request) = Ok response
    /\ match accepted env request with
       | Some (v, s, e) =>
           (status response = 200 \/ response = Api.internalError)
           /\ exists first last,
                fst (Api.formatToMewsUtc R s) = Ok first
                /\ fst (Api.formatToMewsUtc R e) = Ok last
                /\ fetchCalls (snd (Api.handler R env upstream request))
                   = [payloadOf env first last]
       | None =>
           status response <> 200
           /\ fetchCalls (snd (Api.handler R env upstream request)) = []
       end.
Proof.
  destruct (accepted env request) as [[[v s] e]|] eqn:A.
  - destruct (accepted_inv _ _ _ _ _ A) as (Hm & He & Hq).
    destruct (api_handler_calls R env upstream request v s e Hm He Hq)
      as (first & last & E1 & E2 & C).
    rewrite (api_handler_valid R env upstream request v s e first last Hm He Hq E1 E2).
    destruct (fst (Api.resolve R upstream _ _ v)) as [r|err] eqn:Er.
    + exists r. split; [reflexivity|]. split; [left; eapply api_resolve_status, Er|].
      exists first, last. auto.
    + exists Api.internalError. split; [reflexivity|]. split; [right; reflexivity|].
      exists first, last. auto.
  - destruct (handlers_refused R env upstream request A) as [<- _].
    destruct (TotalFacts.handler_total R env upstream request) as [response H].
    exists response. split; [exact H|]. split.
    + eapply refused_status; eassumption.
    + apply handler_no_call, A.
Qed.



Import ProbeFacts.

(** X19.  The probing version tries the hours 0, 1, 2, ... in order and
    stops at the first hour whose turn returns.  For an accepted query it
    always answers, after [k] upstream calls with [1 <= k <= 24], the call
    for hour [h] carrying both dates at that hour; either all 24 hours were
    tried and the answer is the 500 of the end of the loop, or the answer is
    the 200 of hour [k - 1], whose [workingHour] is [k - 1], the upstream
    having accepted that hour; every earlier turn went on to the next
    hour. *)
Theorem probing_stops_at_first_accepted_hour
  (R : Runtime) (env : Env) (upstream : string -> Payload -> FetchOutcome)
  (request : Request) (v s e : string) :
  method request = "POST" -> envIncomplete env = false ->
  validQuery request = Some (v, s, e) ->
  exists k response,
    (1 <= k <= 24)%nat
    /\ fst (BruteForce.handler R env upstream request) = Ok response
    /\ fetchCalls (snd (BruteForce.handler R env upstream request))
       = List.map (hourPayload env s e) (List.map Z.of_nat (seq 0 k))
    /\ ((k = 24%nat /\ response = BruteForce.noHourWorked
         /\ forall j, (j < 24)%nat ->
                      fst (BruteForce.attempt R env upstream (endpointOf env) v s e
                             (Z.of_nat j)) = Ok None)
        \/ (exists set st text,
              response = BruteForce.success (Z.of_nat (k - 1)) set
              /\ upstream (endpointOf env) (hourPayload env s e (Z.of_nat (k - 1)))
                 = Responded st text
              /\ responseOk st = true
              /\ forall j, (j < k - 1)%nat ->
                           fst (BruteForce.attempt R env upstream (endpointOf env)
                                  v s e (Z.of_nat j)) = Ok None)).
Proof.
  intros Hm He Hq.
  rewrite (bruteForce_handler_valid R env upstream request v s e Hm He Hq).
  cbv zeta. cbn [fst snd]. rewrite !fetchCalls_console.
  destruct (tryHours_outcome R env upstream (endpointOf env) v s e
              BruteForce.possibleHours)
    as [(F & L & A)|(before & h & after & set & st & text & E & F & L & A & U & Eok)].
  - exists 24%nat, BruteForce.noHourWorked. split; [lia|].
    split; [exact F|]. split; [exact L|]. left. repeat split.
    intros j Hj. rewrite Forall_forall in A. apply A.
    unfold BruteForce.possibleHours. apply in_map, in_seq. lia.
  - destruct (possibleHours_split before h after E) as (Hh & Hl & Hb & Hb').
    exists (S (List.length before)), (BruteForce.success h set).
    split; [lia|]. split; [exact F|]. split; [rewrite L, Hb; reflexivity|].
    right. exists set, st, text.
    replace (S (List.length before) - 1)%nat with (List.length before) by lia.
    rewrite <- Hh. repeat split; auto.
    intros j Hj. rewrite Forall_forall in A. apply A.
    rewrite Hb'. apply in_map, in_seq. lia.
Qed.

Lemma probing_stops_at_first_accepted_hour_witness :
  exists k response,
    (1 <= k <= 24)%nat
    /\ fst (BruteForce.handler exampleRuntime exampleEnv anchoredAt22 aprilRequest)
       = Ok response
    /\ fetchCalls (snd (BruteForce.handler exampleRuntime exampleEnv anchoredAt22
                          aprilRequest))
       = List.map (hourPayload exampleEnv "2025-04-01" "2025-04-05")
                  (List.map Z.of_nat (seq 0 k))
    /\ ((k = 24%nat /\ response = BruteForce.noHourWorked
         /\ forall j, (j < 24)%nat ->
                      fst (BruteForce.attempt exampleRuntime exampleEnv anchoredAt22
                             (endpointOf exampleEnv) "cat-1" "2025-04-01" "2025-04-05"
                             (Z.of_nat j)) = Ok None)
        \/ (exists set st text,
              response = BruteForce.success (Z.of_nat (k - 1)) set
              /\ anchoredAt22 (endpointOf exampleEnv)
                   (hourPayload exampleEnv "2025-04-01" "2025-04-05" (Z.of_nat (k - 1)))
                 = Responded st text
              /\ responseOk st = true
              /\ forall j, (j < k - 1)%nat ->
                           fst (BruteForce.attempt exampleRuntime exampleEnv
                                  anchoredAt22 (endpointOf exampleEnv)
                                  "cat-1" "2025-04-01" "2025-04-05" (Z.of_nat j))
                           = Ok None)).
Proof.
  apply (probing_stops_at_first_accepted_hour exampleRuntime exampleEnv anchoredAt22
           aprilRequest "cat-1" "2025-04-01" "2025-04-05");
    reflexivity.
Defined.

(** X20.  Against an upstream that refuses every hour, or cannot be
    reached, the probing version makes all 24 calls, one for each hour from
    0 to 23 in order, and answers with the fixed 500 body of the end of the
    loop: nothing of what the upstream said reaches the caller. *)
Theorem probing_fails_after_24_calls
  (R : Runtime) (env : Env) (upstream : string -> Payload -> FetchOutcome)
  (request : Request) (v s e : string) :
  method request = "POST" -> envIncomplete env = false ->
  validQuery request = Some (v, s, e) ->
  (forall h, match upstream (endpointOf env) (hourPayload env s e h) with
             | Rejected => True
             | Responded st _ => responseOk st = false
             end) ->
  fst (BruteForce.handler R env upstream request) = Ok BruteForce.noHourWorked
  /\ fetchCalls (snd (BruteForce.handler R env upstream request))
     = List.map (hourPayload env s e) BruteForce.possibleHours.
Proof.
  intros Hm He Hq U.
  rewrite (bruteForce_handler_valid R env upstream request v s e Hm He Hq).
  cbv zeta. cbn [fst snd]. rewrite !fetchCalls_console.
  destruct (tryHours_outcome R env upstream (endpointOf env) v s e
              BruteForce.possibleHours)
    as [(F & L & A)|(before & h & after & set & st & text & E & F & L & A & U' & Eok)].
  - split; assumption.
  - specialize (U h). rewrite U' in U. congruence.
Qed.

Lemma probing_fails_after_24_calls_witness :
  fst (BruteForce.handler exampleRuntime exampleEnv
         (answering 400 "FirstTimeUnitStartUtc is not start of TimeUnit.")
         aprilRequest)
  = Ok BruteForce.noHourWorked
  /\ fetchCalls (snd (BruteForce.handler exampleRuntime exampleEnv
                        (answering 400 "FirstTimeUnitStartUtc is not start of TimeUnit.")
                        aprilRequest))
     = List.map (hourPayload exampleEnv "2025-04-01" "2025-04-05")
                BruteForce.possibleHours.
Proof.
  apply (probing_fails_after_24_calls exampleRuntime exampleEnv
           (answering 400 "FirstTimeUnitStartUtc is not start of TimeUnit.")
           aprilRequest "cat-1" "2025-04-01" "2025-04-05");
    reflexivity.
Defined.

(** X21.  Scan and transform compose: when the upstream answers an accepted
    query with a report whose raw set is a set of calendar days, the handler
    answers 200 with the correction of section 4.2 of these days, as date
    strings in ascending order, whatever the order in which the report lists
    them. *)
Theorem answer_is_the_corrected_raw_set
  (R : Runtime) (env : Env) (upstream : string -> Payload -> FetchOutcome)
  (request : Request) (v s e : string) (st : Z) (text : string) (mewsData : Value)
  (raw : list string) (days : list Z) :
  method request = "POST" -> envIncomplete env = false ->
  validQuery request = Some (v, s, e) ->
  upstream (endpointOf env)
    (payloadOf env (s ++ "T22:00:00.000Z") (e ++ "T22:00:00.000Z"))
  = Responded st text ->
  responseOk st = true -> jsonParse R text = Some mewsData ->
  fst (Part004.processReport mewsData v) = Ok raw ->
  StronglySorted Z.lt days -> Forall inYears days ->
  Permutation raw (List.map isoDate days) ->
  fst (Part004.handler R env upstream request)
  = Ok {| status := 200; headers := successHeaders;
          body := unavailableBody (List.map isoDate (Spec.correction days)) |}.
Proof.
  intros Hm He Hq Hu Hok Hj Hr S F P.
  rewrite (handler_valid R env upstream request v s e Hm He Hq). cbv zeta.
  rewrite (resolve_success R upstream _ _ v st text mewsData Hu Hok Hj). cbv zeta.
  cbn [fst]. rewrite Hr, (workaround_days R raw days S F P). reflexivity.
Qed.

Lemma answer_is_the_corrected_raw_set_witness :
  fst (Part004.handler exampleRuntime exampleEnv (answering 200 "report-three-runs")
         aprilRequest)
  = Ok {| status := 200; headers := successHeaders;
          body := unavailableBody
                    (List.map isoDate (Spec.correction [20179; 20181; 20183])) |}.
Proof.
  apply (answer_is_the_corrected_raw_set exampleRuntime exampleEnv
           (answering 200 "report-three-runs") aprilRequest
           "cat-1" "2025-04-01" "2025-04-05" 200 "report-three-runs"
           (reportWith aprilBoundaries "cat-1" (List.map VNum [0; 1; 0; 1; 0]))
           ["2025-04-01"; "2025-04-03"; "2025-04-05"] [20179; 20181; 20183]);
    try reflexivity.
  - repeat constructor.
  - repeat constructor; vm_compute; congruence.
Defined.

(** X22.  An accepted query is answered 200 only on a 2xx upstream answer
    whose body is JSON.  When the upstream cannot be reached, answers
    outside 2xx, or sends a 2xx body that is not JSON, the version with the
    workaround answers 500 with the fixed [error] text and the message of
    the exception as [details]; there is no retry. *)
Theorem upstream_failure_is_answered_500
  (R : Runtime) (env : Env) (upstream : string -> Payload -> FetchOutcome)
  (request : Request) (v s e : string) :
  method request = "POST" -> envIncomplete env = false ->
  validQuery request = Some (v, s, e) ->
  (match upstream (endpointOf env)
           (payloadOf env (s ++ "T22:00:00.000Z") (e ++ "T22:00:00.000Z")) with
   | Responded st text => responseOk st = false \/ jsonParse R text = None
   | Rejected => True
   end ->
   exists error,
     fst (Part004.handler R env upstream request)
     = Ok (Part004.internalError R error))
  /\ (forall response,
        fst (Part004.handler R env upstream request) = Ok response ->
        status response = 200 ->
        exists st text mewsData,
          upstream (endpointOf env)
            (payloadOf env (s ++ "T22:00:00.000Z") (e ++ "T22:00:00.000Z"))
          = Responded st text
          /\ responseOk st = true /\ jsonParse R text = Some mewsData).
Proof.
  intros Hm He Hq. split.
  - intros U. rewrite (handler_valid R env upstream request v s e Hm He Hq).
    cbv zeta. cbn [fst].
    destruct (resolve_failure R upstream _ _ v U) as [err E].
    rewrite E. exists err. reflexivity.
  - intros response H S.
    destruct (handler_200 R env upstream request v s e response Hm He Hq H S)
      as (st & text & mewsData & initial & out & U & Eok & Hj & _).
    exists st, text, mewsData. auto.
Qed.

Lemma upstream_failure_is_answered_500_witness :
  (match answering 503 "Service Unavailable" (endpointOf exampleEnv)
           (payloadOf exampleEnv ("2025-04-01" ++ "T22:00:00.000Z")
                      ("2025-04-05" ++ "T22:00:00.000Z")) with
   | Responded st text => responseOk st = false \/ jsonParse exampleRuntime text = None
   | Rejected => True
   end ->
   exists error,
     fst (Part004.handler exampleRuntime exampleEnv
            (answering 503 "Service Unavailable") aprilRequest)
     = Ok (Part004.internalError exampleRuntime error))
  /\ (forall response,
        fst (Part004.handler exampleRuntime exampleEnv
               (answering 503 "Service Unavailable") aprilRequest) = Ok response ->
        status response = 200 ->
        exists st text mewsData,
          answering 503 "Service Unavailable" (endpointOf exampleEnv)
            (payloadOf exampleEnv ("2025-04-01" ++ "T22:00:00.000Z")
                       ("2025-04-05" ++ "T22:00:00.000Z"))
          = Responded st text
          /\ responseOk st = true /\ jsonParse exampleRuntime text = Some mewsData).
Proof.
  apply (upstream_failure_is_answered_500 exampleRuntime exampleEnv
           (answering 503 "Service Unavailable") aprilRequest
           "cat-1" "2025-04-01" "2025-04-05");
    reflexivity.
Defined.

Import CalendarFacts.





Import AnswerFacts.

(** X25.  What the 500 answer of the version with the workaround quotes
    when the upstream refuses an accepted query: [details] is the sentence
    with the upstream status followed by the [Message] field of the upstream
    body when that body is a JSON object with a truthy [Message], and by the
    whole upstream body otherwise (not JSON, no [Message], or JSON that is
    not an object). *)
Theorem upstream_refusal_is_quoted_in_details
  (R : Runtime) (env : Env) (upstream : string -> Payload -> FetchOutcome)
  (request : Request) (v s e : string) (st : Z) (text : string) :
  method request = "POST" -> envIncomplete env = false ->
  validQuery request = Some (v, s, e) ->
  upstream (endpointOf env)
    (payloadOf env (s ++ "T22:00:00.000Z") (e ++ "T22:00:00.000Z"))
  = Responded st text ->
  responseOk st = false ->
  match jsonParse R text with
  | Some j => isNullish j = false
  | None => True
  end ->
  fst (Part004.handler R env upstream request)
  = Ok {| status := 500;
          headers := [];
          body := Json (VObj [("error", VStr "An internal server error occurred.");
                              ("details",
                               VStr ("Mews API request failed with status "
                                     ++ Str.ofZ st ++ ". Message: "
                                     ++ match jsonParse R text with
                                        | Some (VObj fields) =>
                                            if JS.truthy (JS.lookup fields "Message")
                                            then JS.toString (JS.lookup fields "Message")
                                            else text
                                        | _ => text
                                        end))]) |}.
Proof.
  intros Hm He Hq Hu Hok Hj.
  rewrite (handler_valid R env upstream request v s e Hm He Hq). cbv zeta.
  cbn [fst]. rewrite (resolve_refusal R upstream _ _ v st text Hu Hok Hj).
  reflexivity.
Qed.

Lemma upstream_refusal_is_quoted_in_details_witness :
  fst (Part004.handler exampleRuntime exampleEnv
         (answering 401 "Invalid AccessToken access-token") aprilRequest)
  = Ok {| status := 500;
          headers := [];
          body := Json (VObj [("error", VStr "An internal server error occurred.");
                              ("details",
                               VStr ("Mews API request failed with status "
                                     ++ Str.ofZ 401 ++ ". Message: "
                                     ++ match jsonParse exampleRuntime
                                                "Invalid AccessToken access-token" with
                                        | Some (VObj fields) =>
                                            if JS.truthy (JS.lookup fields "Message")
                                            then JS.toString (JS.lookup fields "Message")
                                            else "Invalid AccessToken access-token"
                                        | _ => "Invalid AccessToken access-token"
                                        end))]) |}.
Proof.
  apply (upstream_refusal_is_quoted_in_details exampleRuntime exampleEnv
           (answering 401 "Invalid AccessToken access-token") aprilRequest
           "cat-1" "2025-04-01" "2025-04-05" 401 "Invalid AccessToken access-token");
    reflexivity.
Defined.

(** X26.  Only the 200 and the 204 answers carry the header
    [Access-Control-Allow-Origin]: the answers 400, 405 and 500 of the
    version with the workaround are sent without it, so that a page of
    another origin cannot read their bodies. *)
Theorem cors_header_only_on_200_and_204
  (R : Runtime) (env : Env) (upstream : string -> Payload -> FetchOutcome)
  (request : Request) :
  exists response,
    fst (Part004.handler R env upstream request) = Ok response
    /\ (In ("Access-Control-Allow-Origin", "*") (headers response)
        <-> status response = 200 \/ status response = 204).
Proof.
  destruct (TotalFacts.handler_total R env upstream request) as [response H].
  exists response. split; [exact H|].
  assert (Off : forall r : Response,
             (headers r = [] \/ headers r = [("Allow", "POST")]) ->
             (status r = 400 \/ status r = 405 \/ status r = 500) ->
             In ("Access-Control-Allow-Origin", "*") (headers r)
             <-> status r = 200 \/ status r = 204).
  { intros r Hh Hs. split.
    - destruct Hh as [E|E]; rewrite E; cbn [In]; intros F;
        [contradiction|destruct F as [F|[]]; discriminate].
    - intros [E|E]; rewrite E in Hs; destruct Hs as [Hs|[Hs|Hs]]; discriminate. }
  destruct (method request =? "OPTIONS")%string eqn:Eo.
  { unfold Part004.handler in H. rewrite Eo in H. injection H as <-.
    split; [right; reflexivity|intros _; left; reflexivity]. }
  destruct (method request =? "POST")%string eqn:Ep.
  2:{ unfold Part004.handler in H. rewrite Eo, Ep in H. injection H as <-.
      apply Off; cbn; auto. }
  apply String.eqb_eq in Ep.
  destruct (envIncomplete env) eqn:Ee.
  { unfold Part004.handler in H. rewrite Eo, Ep, Ee in H. injection H as <-.
    apply Off; cbn; auto. }
  destruct (validQuery request) as [[[v s] e]|] eqn:Hq.
  - rewrite (handler_valid R env upstream request v s e Ep Ee Hq) in H.
    cbv zeta in H. cbn [fst] in H.
    destruct (fst (Part004.resolve R upstream _ _ v)) as [r|err] eqn:Er;
      injection H as <-.
    + destruct (resolve_response R upstream _ _ v r Er) as [out ->].
      split; [left; reflexivity|intros _; left; reflexivity].
    + apply Off; cbn; auto.
  - rewrite (handler_refused R env upstream request Ep Ee Hq) in H.
    rewrite (validateBody_refused R request Hq) in H. injection H as <-.
    apply Off; cbn; auto.
Qed.
